(** * ARION: multi-signal risk fusion

    A shallow embedding of the analysis-and-fusion pipeline of ARION
    (risk, forecast, sentiment and correlation agents, the advisory agent
    and the orchestrating engine), followed by the properties of the
    pipeline that are stated in the specification.

    Conventions of the embedding.
    - A Python float is a [pyfloat]: an exact rational or [NaN].  Rounding,
      overflow and the IEEE infinities are outside the model; a division
      of numpy floats by zero yields [NaN], a division of plain Python
      numbers by zero raises [ZeroDivisionError].
    - A Python [dict] that is used as a struct is a record; a [dict] keyed
      by symbol is an association list in insertion order ([pydict]).
    - Mutable objects are threaded explicitly: [analyze] takes the agent
      and returns the updated agent together with the result.
    - Exceptions are values of [exn]; code that may raise returns an
      [outcome].  Output written with [print] is not modelled.
    - Third-party libraries (pandas, numpy, scikit-learn, VADER, the
      [format] builtin) are interfaces, given as type classes. *)

From Stdlib Require Import QArith Qcanon Qcabs Lqa Permutation Sorted.
From stdpp Require Import base numbers list strings gmap sorting.

(* ===================================================================== *)
(** * Python values *)
(* ===================================================================== *)

Module Py.

(** ** Floats *)

Inductive pyfloat : Type :=
| Fin (q : Qc)
| NaN.

#[global] Instance pyfloat_eq_dec : EqDecision pyfloat.
Proof. solve_decision. Defined.

(** The literal [n/d], e.g. [frac 40 100] for [0.40]. *)
Definition frac (n : Z) (d : positive) : pyfloat := Fin (Q2Qc (n # d)).
(** The literal [n]. *)
Definition num (n : Z) : pyfloat := frac n 1.

Definition lift2 (op : Qc -> Qc -> Qc) (a b : pyfloat) : pyfloat :=
  match a, b with
  | Fin x, Fin y => Fin (op x y)
  | _, _ => NaN
  end.

Definition fadd : pyfloat -> pyfloat -> pyfloat := lift2 Qcplus.
Definition fsub : pyfloat -> pyfloat -> pyfloat := lift2 Qcminus.
Definition fmul : pyfloat -> pyfloat -> pyfloat := lift2 Qcmult.

Definition fdiv (a b : pyfloat) : pyfloat :=
  match a, b with
  | Fin x, Fin y => if bool_decide (y = 0%Qc) then NaN else Fin (x / y)%Qc
  | _, _ => NaN
  end.

(** [abs(x)] *)
Definition fabs (a : pyfloat) : pyfloat :=
  match a with
  | Fin x => Fin (Qcabs x)
  | NaN => NaN
  end.

(** Comparisons: every comparison with [NaN] is false. *)
Definition flt (a b : pyfloat) : bool :=
  match a, b with
  | Fin x, Fin y => bool_decide (x < y)%Qc
  | _, _ => false
  end.

Definition fle (a b : pyfloat) : bool :=
  match a, b with
  | Fin x, Fin y => bool_decide (x <= y)%Qc
  | _, _ => false
  end.

Definition fgt (a b : pyfloat) : bool := flt b a.
Definition fge (a b : pyfloat) : bool := fle b a.

(** The builtin [min(a, b)]: keeps [a] unless [b < a]. *)
Definition py_min (a b : pyfloat) : pyfloat := if flt b a then b else a.
(** The builtin [max(a, b)]: keeps [a] unless [b > a]. *)
Definition py_max (a b : pyfloat) : pyfloat := if fgt b a then b else a.

(** [max(xs)] over a non-empty iterable; [None] stands for the
    [ValueError] on an empty one. *)
Definition py_max_list (xs : list pyfloat) : option pyfloat :=
  match xs with
  | [] => None
  | x :: rest => Some (foldl py_max x rest)
  end.

(** [sum(xs)] *)
Definition py_sum (xs : list pyfloat) : pyfloat := foldl fadd (num 0) xs.

(** [len(xs)] as a float *)
Definition flen {A} (xs : list A) : pyfloat := num (Z.of_nat (length xs)).

(** [np.mean(xs)]: the mean of an empty list is [nan]. *)
Definition np_mean (xs : list pyfloat) : pyfloat :=
  match xs with
  | [] => NaN
  | _ => fdiv (py_sum xs) (flen xs)
  end.

(** ** Dictionaries in insertion order *)

Definition pydict (V : Type) : Type := list (string * V).

(** [d[k] = v]: an existing key keeps its position. *)
Fixpoint dict_set {V} (d : pydict V) (k : string) (v : V) : pydict V :=
  match d with
  | [] => [(k, v)]
  | (k', v') :: rest =>
      if bool_decide (k' = k) then (k, v) :: rest
      else (k', v') :: dict_set rest k v
  end.

(** [d.get(k)] *)
Fixpoint dict_get {V} (d : pydict V) (k : string) : option V :=
  match d with
  | [] => None
  | (k', v) :: rest => if bool_decide (k' = k) then Some v else dict_get rest k
  end.

(** [list(d.values())] *)
Definition dict_values {V} (d : pydict V) : list V := d.*2.

(** Truth value of a container: empty is false. *)
Definition truthy {A} (xs : list A) : bool :=
  match xs with [] => false | _ => true end.

(** ** Exceptions *)

(** [KeyErrorNotInIndex requested missing] is the [KeyError] that pandas
    raises for [df[requested]] when the columns [missing] are absent: pandas
    builds its message from these two lists (the text ends in "not in
    index" when some of the columns are present, and starts with "None of"
    when none is).  [ZeroDivisionError] carries no data here; its message
    depends on the version of Python. *)
Inductive exn : Type :=
| KeyError (key : string)
| KeyErrorNotInIndex (requested missing : list string)
| IndexError (msg : string)
| ValueError (msg : string)
| ZeroDivisionError
| Exception (msg : string).

Inductive outcome (A : Type) : Type :=
| Return (a : A)
| Raise (e : exn).
Arguments Return {A} a.
Arguments Raise {A} e.

#[global] Instance exn_eq_dec : EqDecision exn.
Proof. solve_decision. Defined.
#[global] Instance outcome_eq_dec {A} `{EqDecision A} : EqDecision (outcome A).
Proof. solve_decision. Defined.

(** Computations over a mutable object of type [S] that may raise: the
    object keeps the mutations made before the exception. *)
Definition M (S A : Type) : Type := S -> S * outcome A.

Definition ret {S A} (a : A) : M S A := fun s => (s, Return a).
Definition raise {S A} (e : exn) : M S A := fun s => (s, Raise e).
Definition bind {S A B} (m : M S A) (k : A -> M S B) : M S B :=
  fun s =>
    match m s with
    | (s', Return a) => k a s'
    | (s', Raise e) => (s', Raise e)
    end.
Definition get_self {S} : M S S := fun s => (s, Return s).
Definition put_self {S} (s : S) : M S unit := fun _ => (s, Return tt).
(** [try: m  except Exception: h] *)
Definition try_except {S A} (m : M S A) (h : exn -> M S A) : M S A :=
  fun s =>
    match m s with
    | (s', Return a) => (s', Return a)
    | (s', Raise e) => h e s'
    end.
(** A pure computation that may raise, run inside [M]. *)
Definition lift_outcome {S A} (o : outcome A) : M S A := fun s => (s, o).

End Py.
Export Py.

Declare Scope pyfloat_scope.
Delimit Scope pyfloat_scope with F.
Bind Scope pyfloat_scope with pyfloat.
Infix "+" := fadd : pyfloat_scope.
Infix "-" := fsub : pyfloat_scope.
Infix "*" := fmul : pyfloat_scope.
Infix "/" := fdiv : pyfloat_scope.
Infix "<?" := flt : pyfloat_scope.
Infix "<=?" := fle : pyfloat_scope.
Infix ">?" := fgt : pyfloat_scope.
Infix ">=?" := fge : pyfloat_scope.

#[global] Instance outcome_ret : MRet outcome := fun A => @Return A.
#[global] Instance outcome_bind : MBind outcome :=
  fun A B k o => match o with Return a => k a | Raise e => Raise e end.
#[global] Instance outcome_fmap : FMap outcome :=
  fun A B f o => match o with Return a => Return (f a) | Raise e => Raise e end.
#[global] Instance M_ret {S} : MRet (M S) := fun A => @ret S A.
#[global] Instance M_bind {S} : MBind (M S) := fun A B k m => @bind S A B m k.

(** [for x in xs: <body>], with the local variables of the loop as [st]:
    the first exception ends the loop. *)
Fixpoint for_in {A B} (body : B -> A -> outcome B) (st : B) (xs : list A)
  : outcome B :=
  match xs with
  | [] => Return st
  | x :: rest =>
      match body st x with
      | Return st' => for_in body st' rest
      | Raise e => Raise e
      end
  end.

(* ===================================================================== *)
(** * Interfaces of the third-party libraries *)
(* ===================================================================== *)

(** Python builtins on text: [format(x, spec)], which the f-strings call,
    and [str.lower]. *)
Class Builtins := {
  format : pyfloat -> string -> string;
  str_lower : string -> string
}.

(** [np.sqrt]. *)
Class Numpy := {
  np_sqrt : pyfloat -> pyfloat
}.

(** [Series.std()] of pandas (sample standard deviation, NaN skipped). *)
Class PandasStats := {
  series_std : list pyfloat -> pyfloat
}.

(** scikit-learn regressors as the constructor calls describe them;
    [random_state] is [None] or an integer. *)
Inductive regressor : Type :=
| LinearRegression
| RandomForestRegressor (n_estimators max_depth : nat) (random_state : option nat).

(** scikit-learn as one call of [analyze] sees it: [fit] and [predict] may
    raise (e.g. [ValueError] on an empty training set). *)
Class Sklearn := {
  fitted_model : Type;
  sk_fit : regressor -> list (list pyfloat) -> list pyfloat -> outcome fitted_model;
  sk_predict : fitted_model -> list (list pyfloat) -> outcome (list pyfloat)
}.

(** An estimator whose [fit] draws nothing from the global random generator
    of numpy: [LinearRegression], and a forest built with an integer
    [random_state].  A forest built with [random_state=None] is seeded from
    the global generator. *)
Definition seeded (r : regressor) : bool :=
  match r with
  | LinearRegression => true
  | RandomForestRegressor _ _ random_state => bool_decide (is_Some random_state)
  end.

(** scikit-learn with the state of the global random generator made
    explicit: [fit_at g r X y] is the outcome of [r.fit(X, y)] when the
    generator is in state [g].  The state differs from one call of
    [analyze] to the next. *)
Class SklearnRandom := {
  rng_state : Type;
  fitted_at : Type;
  fit_at : rng_state -> regressor -> list (list pyfloat) -> list pyfloat
           -> outcome fitted_at;
  predict_at : fitted_at -> list (list pyfloat) -> outcome (list pyfloat)
}.

(** The library during a call that finds the generator in state [g]. *)
Definition sklearn_at `{SklearnRandom} (g : rng_state) : Sklearn :=
  {| fitted_model := fitted_at; sk_fit := fit_at g; sk_predict := predict_at |}.

(** [SentimentIntensityAnalyzer().polarity_scores(text)['compound']]. *)
Class Vader := {
  polarity_compound : string -> pyfloat
}.

(* ===================================================================== *)
(** * Shared data model *)
(* ===================================================================== *)

(** An alert dictionary.  Agents fill [type], [severity], [message] and
    [value]; [symbol] is absent from portfolio-wide alerts and [source] is
    written by the engine. *)
Module Alert.
Record t : Type := mk {
  symbol : option string;
  type : string;
  severity : option string;
  message : string;
  value : pyfloat;
  source : option string
}.

#[global] Instance eq_dec : EqDecision t.
Proof. solve_decision. Defined.

(** [alert['source'] = name] *)
Definition set_source (name : string) (a : t) : t :=
  {| symbol := symbol a; type := type a; severity := severity a;
     message := message a; value := value a; source := Some name |}.
End Alert.

(** A pandas DataFrame: the row index and the named columns, every column
    as long as the index. *)
Module DataFrame.
Record t : Type := mk {
  index : list Z;
  columns : pydict (list pyfloat)
}.

#[global] Instance eq_dec : EqDecision t.
Proof. solve_decision. Defined.

(** [len(df)] *)
Definition len (df : t) : nat := length (index df).
(** [df.empty]: no rows or no columns. *)
Definition empty (df : t) : bool :=
  bool_decide (len df = 0%nat) || negb (truthy (columns df)).
(** [c in df.columns] *)
Definition has_column (df : t) (c : string) : bool :=
  bool_decide (is_Some (dict_get (columns df) c)).
(** [df[c]]; callers test [has_column] first. *)
Definition col (df : t) (c : string) : list pyfloat :=
  default [] (dict_get (columns df) c).

Definition is_fin (x : pyfloat) : bool :=
  match x with Fin _ => true | NaN => false end.
(** [s.dropna()] *)
Definition dropna (s : list pyfloat) : list pyfloat := filter is_fin s.
(** [s.tail(n)] *)
Definition tail (n : nat) (s : list pyfloat) : list pyfloat :=
  drop (length s - n) s.
(** [s.iloc[:-n]] for [n > 0] *)
Definition iloc_upto_minus (n : nat) (s : list pyfloat) : list pyfloat :=
  take (length s - n) s.
(** [s.iloc[-1]] of a non-empty series *)
Definition iloc_last (s : list pyfloat) : pyfloat := default NaN (last s).
End DataFrame.

Abbreviation MarketData := (pydict DataFrame.t).

(* ===================================================================== *)
(** * RiskAgent (backend/agents/risk_agent.py) *)
(* ===================================================================== *)

Module Risk.

Record result : Type := mk_result {
  overall_risk_score : pyfloat;
  max_risk_score : pyfloat;
  risk_level : string;
  individual_scores : pydict pyfloat;
  volatility : pydict pyfloat;
  drawdowns : pydict pyfloat;
  alerts : list Alert.t;
  confidence : pyfloat
}.

#[global] Instance result_eq_dec : EqDecision result.
Proof. solve_decision. Defined.

Record RiskAgent : Type := mk_agent {
  volatility_threshold : pyfloat;
  drawdown_threshold : pyfloat;
  last_analysis : option result
}.

(** [RiskAgent(volatility_threshold=0.3, drawdown_threshold=-0.15)] *)
Definition __init__ (volatility_threshold drawdown_threshold : pyfloat) : RiskAgent :=
  {| volatility_threshold := volatility_threshold;
     drawdown_threshold := drawdown_threshold;
     last_analysis := None |}.
Definition new : RiskAgent := __init__ (frac 3 10) (frac (-15) 100).

Definition set_last_analysis (self : RiskAgent) (r : result) : RiskAgent :=
  {| volatility_threshold := volatility_threshold self;
     drawdown_threshold := drawdown_threshold self;
     last_analysis := Some r |}.

Definition _get_risk_level (score : pyfloat) : string :=
  if (score <? num 20)%F then "LOW"
  else if (score <? num 50)%F then "MEDIUM"
  else if (score <? num 80)%F then "HIGH"
  else "CRITICAL".

Definition _empty_result : result :=
  {| overall_risk_score := num 0;
     max_risk_score := num 0;
     risk_level := "UNKNOWN";
     individual_scores := [];
     volatility := [];
     drawdowns := [];
     alerts := [];
     confidence := num 0 |}.

(** The loop of [_calculate_confidence]: [(total_points, valid_points)]. *)
Definition confidence_step (acc : pyfloat * pyfloat) (df : DataFrame.t)
  : pyfloat * pyfloat :=
  let '(total_points, valid_points) := acc in
  let total_points := (total_points + num 1)%F in
  if bool_decide (60 <= DataFrame.len df)%nat then (total_points, (valid_points + num 1)%F)
  else if bool_decide (20 <= DataFrame.len df)%nat then (total_points, (valid_points + frac 5 10)%F)
  else (total_points, valid_points).

Definition _calculate_confidence (data : MarketData) : pyfloat :=
  if negb (truthy data) then num 0
  else
    let '(total_points, valid_points) :=
      foldl confidence_step (num 0, num 0) (dict_values data) in
    if (total_points >? num 0)%F then (valid_points / total_points)%F else num 0.

(** The local variables that the loop of [analyze] updates. *)
Record locals : Type := mk_locals {
  risk_scores : pydict pyfloat;
  volatility_data : pydict pyfloat;
  drawdown_data : pydict pyfloat;
  l_alerts : list Alert.t
}.

Section Analyze.
Context `{Builtins} `{Numpy} `{PandasStats}.

(** One iteration of [for symbol, df in data.items()].  Without a
    [Drawdown] column [current_dd] is the Python integer [0], and dividing
    it by a threshold that is zero raises [ZeroDivisionError]; a value read
    from the frame is a numpy float, whose division by zero does not
    raise. *)
Definition analyze_symbol (self : RiskAgent) (st : locals)
    (item : string * DataFrame.t) : outcome locals :=
  let '(symbol, df) := item in
  if DataFrame.empty df || negb (DataFrame.has_column df "Returns") then mret st
  else
    let recent_returns :=
      DataFrame.tail 20 (DataFrame.dropna (DataFrame.col df "Returns")) in
    if bool_decide (length recent_returns < 5)%nat then mret st
    else
      let current_vol := (series_std recent_returns * np_sqrt (num 252))%F in
      let volatility_data := dict_set (volatility_data st) symbol current_vol in
      let current_dd :=
        if DataFrame.has_column df "Drawdown"
        then DataFrame.iloc_last (DataFrame.col df "Drawdown")
        else num 0 in
      let drawdown_data := dict_set (drawdown_data st) symbol current_dd in
      let vol_score :=
        py_min (num 100) ((current_vol / volatility_threshold self) * num 50)%F in
      dd_ratio ←
        (if negb (DataFrame.has_column df "Drawdown")
            && bool_decide (drawdown_threshold self = num 0)
         then Raise ZeroDivisionError
         else mret (current_dd / drawdown_threshold self)%F);
      let dd_score := py_min (num 100) (fabs dd_ratio * num 50)%F in
      let risk_score := ((vol_score + dd_score) / num 2)%F in
      let risk_scores := dict_set (risk_scores st) symbol risk_score in
      let alerts := l_alerts st in
      let alerts :=
        if (current_vol >? volatility_threshold self)%F then
          alerts ++ [ {| Alert.symbol := Some symbol;
                         Alert.type := "HIGH_VOLATILITY";
                         Alert.severity :=
                           Some (if (current_vol >? volatility_threshold self * frac 15 10)%F
                                 then "HIGH" else "MEDIUM");
                         Alert.message :=
                           symbol +:+ ": High volatility detected ("
                             +:+ format current_vol ".2%" +:+ ")";
                         Alert.value := current_vol;
                         Alert.source := None |} ]
        else alerts in
      let alerts :=
        if (current_dd <? drawdown_threshold self)%F then
          alerts ++ [ {| Alert.symbol := Some symbol;
                         Alert.type := "SIGNIFICANT_DRAWDOWN";
                         Alert.severity :=
                           Some (if (current_dd <? drawdown_threshold self * frac 15 10)%F
                                 then "HIGH" else "MEDIUM");
                         Alert.message :=
                           symbol +:+ ": Significant drawdown ("
                             +:+ format current_dd ".2%" +:+ ")";
                         Alert.value := current_dd;
                         Alert.source := None |} ]
        else alerts in
      let alerts :=
        if bool_decide (60 < DataFrame.len df)%nat then
          let historical_vol :=
            (series_std (DataFrame.iloc_upto_minus 20 (DataFrame.col df "Returns"))
             * np_sqrt (num 252))%F in
          if (current_vol >? historical_vol * frac 15 10)%F then
            alerts ++ [ {| Alert.symbol := Some symbol;
                           Alert.type := "VOLATILITY_SPIKE";
                           Alert.severity := Some "MEDIUM";
                           Alert.message :=
                             symbol +:+ ": Volatility spike detected (current: "
                               +:+ format current_vol ".2%" +:+ " vs avg: "
                               +:+ format historical_vol ".2%" +:+ ")";
                           Alert.value := (current_vol / historical_vol)%F;
                           Alert.source := None |} ]
          else alerts
        else alerts in
      mret {| risk_scores := risk_scores;
              volatility_data := volatility_data;
              drawdown_data := drawdown_data;
              l_alerts := alerts |}.

(** [RiskAgent.analyze]: the agent after the call, and the returned result
    or the exception.  An exception leaves the agent as it was. *)
Definition analyze (self : RiskAgent) (data : MarketData)
  : RiskAgent * outcome result :=
  if negb (truthy data) then (self, Return _empty_result)
  else
    match for_in (analyze_symbol self)
                 {| risk_scores := []; volatility_data := [];
                    drawdown_data := []; l_alerts := [] |} data with
    | Raise e => (self, Raise e)
    | Return st =>
        let avg_risk_score :=
          if truthy (risk_scores st) then np_mean (dict_values (risk_scores st))
          else num 0 in
        let max_risk_score :=
          if truthy (risk_scores st)
          then default (num 0) (py_max_list (dict_values (risk_scores st)))
          else num 0 in
        let risk_level := _get_risk_level avg_risk_score in
        let r :=
          {| overall_risk_score := avg_risk_score;
             max_risk_score := max_risk_score;
             risk_level := risk_level;
             individual_scores := risk_scores st;
             volatility := volatility_data st;
             drawdowns := drawdown_data st;
             alerts := l_alerts st;
             confidence := _calculate_confidence data |} in
        (set_last_analysis self r, Return r)
    end.
End Analyze.

Definition return_signal (self : RiskAgent) : string :=
  match last_analysis self with
  | None => "NO_DATA"
  | Some r =>
      if bool_decide (risk_level r = "CRITICAL") then "DANGER"
      else if bool_decide (risk_level r = "HIGH") then "CAUTION"
      else if bool_decide (risk_level r = "MEDIUM") then "WATCH"
      else "STABLE"
  end.

Definition return_confidence (self : RiskAgent) : pyfloat :=
  match last_analysis self with
  | None => num 0
  | Some r => confidence r
  end.

End Risk.

(* ===================================================================== *)
(** * SentimentAgent (backend/agents/sentiment_agent.py) *)
(* ===================================================================== *)

Module Sentiment.

(** A news record; [title] is what the agent reads. *)
Record article : Type := mk_article {
  title : option string;
  publisher : string;
  link : string
}.

Abbreviation NewsData := (pydict (list article)).

Record distribution_t : Type := mk_distribution {
  positive : nat;
  negative : nat;
  neutral : nat
}.

Record result : Type := mk_result {
  overall_score : pyfloat;
  overall_label : string;
  individual_scores : pydict pyfloat;
  individual_labels : pydict string;
  article_counts : pydict nat;
  distribution : distribution_t;
  alerts : list Alert.t;
  confidence : pyfloat
}.

#[global] Instance distribution_eq_dec : EqDecision distribution_t.
Proof. solve_decision. Defined.
#[global] Instance result_eq_dec : EqDecision result.
Proof. solve_decision. Defined.

Record SentimentAgent : Type := mk_agent {
  last_analysis : option result
}.

Definition new : SentimentAgent := {| last_analysis := None |}.

Definition _get_sentiment_label (score : pyfloat) : string :=
  if (score >? frac 2 10)%F then "POSITIVE"
  else if (score <? frac (-2) 10)%F then "NEGATIVE"
  else "NEUTRAL".

Definition _calculate_confidence (article_counts : pydict nat) : pyfloat :=
  if negb (truthy article_counts) then num 0
  else
    let avg_articles :=
      np_mean ((fun n : nat => num (Z.of_nat n)) <$> dict_values article_counts) in
    py_min (num 1) (avg_articles / num 10)%F.

Definition _empty_result : result :=
  {| overall_score := num 0;
     overall_label := "NEUTRAL";
     individual_scores := [];
     individual_labels := [];
     article_counts := [];
     distribution := {| positive := 0; negative := 0; neutral := 0 |};
     alerts := [];
     confidence := num 0 |}.

(** The dictionaries that the first loop of [analyze] fills. *)
Record locals : Type := mk_locals {
  sentiment_scores : pydict pyfloat;
  sentiment_labels : pydict string;
  l_article_counts : pydict nat
}.

(** [sum(1 for label in labels.values() if label == l)] *)
Definition count_label (labels : pydict string) (l : string) : nat :=
  length (filter (fun x => x = l) (dict_values labels)).

Section Analyze.
Context `{Builtins} `{Vader}.

(** The inner loop: the compound score of every article with a
    non-empty title. *)
Definition article_scores (articles : list article) : list pyfloat :=
  omap (fun a =>
          let title := default "" (title a) in
          if bool_decide (title = "") then None
          else Some (polarity_compound title))
       articles.

(** One iteration of [for symbol, articles in news_data.items()]. *)
Definition analyze_symbol (st : locals) (item : string * list article) : locals :=
  let '(symbol, articles) := item in
  if negb (truthy articles) then st
  else
    let scores := article_scores articles in
    if truthy scores then
      let avg_score := np_mean scores in
      {| sentiment_scores := dict_set (sentiment_scores st) symbol avg_score;
         sentiment_labels :=
           dict_set (sentiment_labels st) symbol (_get_sentiment_label avg_score);
         l_article_counts := dict_set (l_article_counts st) symbol (length scores) |}
    else
      {| sentiment_scores := dict_set (sentiment_scores st) symbol (num 0);
         sentiment_labels := dict_set (sentiment_labels st) symbol "NEUTRAL";
         l_article_counts := dict_set (l_article_counts st) symbol 0%nat |}.

(** One iteration of [for symbol, score in sentiment_scores.items()]. *)
Definition alert_step (alerts : list Alert.t) (item : string * pyfloat)
  : list Alert.t :=
  let '(symbol, score) := item in
  if (score <? frac (-5) 10)%F then
    alerts ++ [ {| Alert.symbol := Some symbol;
                   Alert.type := "NEGATIVE_SENTIMENT";
                   Alert.severity :=
                     Some (if (score <? frac (-7) 10)%F then "HIGH" else "MEDIUM");
                   Alert.message :=
                     symbol +:+ ": Strong negative sentiment detected ("
                       +:+ format score ".2f" +:+ ")";
                   Alert.value := score;
                   Alert.source := None |} ]
  else if (score >? frac 5 10)%F then
    alerts ++ [ {| Alert.symbol := Some symbol;
                   Alert.type := "POSITIVE_SENTIMENT";
                   Alert.severity := Some "LOW";
                   Alert.message :=
                     symbol +:+ ": Strong positive sentiment detected ("
                       +:+ format score ".2f" +:+ ")";
                   Alert.value := score;
                   Alert.source := None |} ]
  else alerts.

(** The part of [analyze] after the first loop, as a function of the
    dictionaries that the loop built. *)
Definition summarise (st : locals) : result :=
  let sentiment_scores := sentiment_scores st in
  let sentiment_labels := sentiment_labels st in
  let '(overall_score, overall_label, dist) :=
    if truthy sentiment_scores then
      let overall_score := np_mean (dict_values sentiment_scores) in
      (overall_score, _get_sentiment_label overall_score,
       {| positive := count_label sentiment_labels "POSITIVE";
          negative := count_label sentiment_labels "NEGATIVE";
          neutral := count_label sentiment_labels "NEUTRAL" |})
    else
      (num 0, "NEUTRAL", {| positive := 0; negative := 0; neutral := 0 |}) in
  let alerts := foldl alert_step [] sentiment_scores in
  {| overall_score := overall_score;
     overall_label := overall_label;
     individual_scores := sentiment_scores;
     individual_labels := sentiment_labels;
     article_counts := l_article_counts st;
     distribution := dist;
     alerts := alerts;
     confidence := _calculate_confidence (l_article_counts st) |}.

(** The per-symbol dictionaries after the first loop. *)
Definition collect (news_data : NewsData) : locals :=
  foldl analyze_symbol
        {| sentiment_scores := []; sentiment_labels := []; l_article_counts := [] |}
        news_data.

(** [SentimentAgent.analyze] *)
Definition analyze (self : SentimentAgent) (news_data : NewsData)
  : SentimentAgent * result :=
  if negb (truthy news_data) then (self, _empty_result)
  else
    let r := summarise (collect news_data) in
    ({| last_analysis := Some r |}, r).
End Analyze.

Definition return_signal (self : SentimentAgent) : string :=
  match last_analysis self with
  | None => "NO_DATA"
  | Some r =>
      if bool_decide (overall_label r = "NEGATIVE") then
        if (overall_score r <? frac (-5) 10)%F then "VERY_NEGATIVE" else "NEGATIVE"
      else if bool_decide (overall_label r = "POSITIVE") then
        if (overall_score r >? frac 5 10)%F then "VERY_POSITIVE" else "POSITIVE"
      else "NEUTRAL"
  end.

Definition return_confidence (self : SentimentAgent) : pyfloat :=
  match last_analysis self with
  | None => num 0
  | Some r => confidence r
  end.

End Sentiment.

(* ===================================================================== *)
(** * ForecastAgent (agents/forecast_agent.py) *)
(* ===================================================================== *)

(** The pandas pipeline of [ForecastAgent._prepare_features]: it copies the
    frame, adds the columns SMA_5, SMA_10, SMA_20, Momentum_5, Momentum_10,
    Vol_5, Vol_20, Volume_SMA, Volume_Ratio, RSI and Target, and drops the
    rows with a missing value.  It raises when the frame lacks a column it
    reads ([KeyError]). *)
Class FeaturePipeline := {
  _prepare_features : DataFrame.t -> outcome DataFrame.t
}.

Module Forecast.

Record forecast : Type := mk_forecast {
  predicted_return : pyfloat;
  predicted_direction : string;
  fc_confidence : pyfloat;
  trend : string
}.

Record result : Type := mk_result {
  forecasts : pydict forecast;
  market_sentiment : string;
  average_prediction : pyfloat;
  confidence : pyfloat
}.

#[global] Instance forecast_eq_dec : EqDecision forecast.
Proof. solve_decision. Defined.
#[global] Instance result_eq_dec : EqDecision result.
Proof. solve_decision. Defined.

Record ForecastAgent : Type := mk_agent {
  forecast_days : nat;
  model_type : string;
  last_analysis : option result
}.

(** [ForecastAgent(forecast_days=5, model_type='linear')] *)
Definition __init__ (forecast_days : nat) (model_type : string) : ForecastAgent :=
  {| forecast_days := forecast_days; model_type := model_type;
     last_analysis := None |}.
Definition new : ForecastAgent := __init__ 5 "linear".

Definition set_last_analysis (self : ForecastAgent) (r : result) : ForecastAgent :=
  {| forecast_days := forecast_days self; model_type := model_type self;
     last_analysis := Some r |}.

Definition _empty_result : result :=
  {| forecasts := [];
     market_sentiment := "UNKNOWN";
     average_prediction := num 0;
     confidence := num 0 |}.

Definition feature_cols : list string :=
  ["SMA_5"; "SMA_10"; "SMA_20"; "Momentum_5"; "Momentum_10";
   "Vol_5"; "Vol_20"; "Volume_Ratio"; "RSI"].

(** [df[c]], raising [KeyError] on a missing column. *)
Definition getitem (df : DataFrame.t) (c : string) : outcome (list pyfloat) :=
  match dict_get (DataFrame.columns df) c with
  | Some s => Return s
  | None => Raise (KeyError c)
  end.

(** [df[cols]] as the list of its rows; pandas raises its [KeyError] for
    the absent columns, all at once. *)
Definition getitems (df : DataFrame.t) (cols : list string)
  : outcome (list (list pyfloat)) :=
  let missing := filter (fun c => dict_get (DataFrame.columns df) c = None) cols in
  if bool_decide (missing = []) then
    let columns := DataFrame.col df <$> cols in
    mret ((fun i => (fun s : list pyfloat => nth i s NaN) <$> columns)
            <$> seq 0 (DataFrame.len df))
  else Raise (KeyErrorNotInIndex cols missing).

(** [xs[:-n]] for [n > 0] *)
Definition upto_minus {A} (n : nat) (xs : list A) : list A :=
  take (length xs - n) xs.
(** [xs[-n:]] for [n > 0] *)
Definition from_minus {A} (n : nat) (xs : list A) : list A :=
  drop (length xs - n) xs.
(** [xs[-10:-1]] *)
Definition slice_m10_m1 {A} (xs : list A) : list A :=
  upto_minus 1 (from_minus 10 xs).

(** [sum((recent_pred > 0) == (y_recent > 0))] *)
Definition correct_direction (recent_pred y_recent : list pyfloat) : nat :=
  length (filter (fun b : bool => b)
            (zip_with (fun p y => eqb (p >? num 0)%F (y >? num 0)%F)
                      recent_pred y_recent)).

(** The locals that the loop of [analyze] updates. *)
Record locals : Type := mk_locals {
  l_forecasts : pydict forecast;
  trends : pydict string;
  confidences : pydict pyfloat
}.

Section Analyze.
Context `{Sklearn} `{FeaturePipeline}.

Definition _train_and_predict (self : ForecastAgent) (features_df : DataFrame.t)
  : outcome (pyfloat * pyfloat * string) :=
  rows ← getitems features_df feature_cols;
  let X := upto_minus 5 rows in
  target ← getitem features_df "Target";
  let y := upto_minus 5 target in
  let X_pred := from_minus 1 rows in
  let model :=
    if bool_decide (model_type self = "random_forest")
    then RandomForestRegressor 50 5 (Some 42)
    else LinearRegression in
  fitted ← sk_fit model X y;
  predicted ← sk_predict fitted X_pred;
  prediction ← match predicted with
               | p :: _ => Return p
               | [] => Raise (IndexError "index 0 is out of bounds")
               end;
  confidence ←
    (if bool_decide (10 < DataFrame.len features_df)%nat then
       let X_recent := slice_m10_m1 rows in
       let y_recent := slice_m10_m1 target in
       recent_pred ← sk_predict fitted X_recent;
       mret (num (Z.of_nat (correct_direction recent_pred y_recent))
             / flen y_recent)%F
     else mret (frac 5 10));
  sma_5 ← DataFrame.iloc_last <$> getitem features_df "SMA_5";
  sma_20 ← DataFrame.iloc_last <$> getitem features_df "SMA_20";
  let trend :=
    if (sma_5 >? sma_20 * frac 102 100)%F then "UPTREND"
    else if (sma_5 <? sma_20 * frac 98 100)%F then "DOWNTREND"
    else "SIDEWAYS" in
  mret (prediction, confidence, trend).

(** The body of the [try] block for one symbol: [None] when the
    feature frame is empty ([continue]). *)
Definition forecast_symbol (self : ForecastAgent) (df : DataFrame.t)
  : outcome (option (pyfloat * pyfloat * string)) :=
  features_df ← _prepare_features df;
  if DataFrame.empty features_df then mret None
  else Some <$> _train_and_predict self features_df.

(** One iteration of [for symbol, df in data.items()]; the [except]
    clause prints the error and continues. *)
Definition analyze_symbol (self : ForecastAgent) (st : locals)
    (item : string * DataFrame.t) : locals :=
  let '(symbol, df) := item in
  if DataFrame.empty df || bool_decide (DataFrame.len df < 30)%nat then st
  else
    match forecast_symbol self df with
    | Return (Some (prediction, confidence, trend)) =>
        {| l_forecasts :=
             dict_set (l_forecasts st) symbol
               {| predicted_return := prediction;
                  predicted_direction :=
                    if (prediction >? num 0)%F then "UP"
                    else if (prediction <? num 0)%F then "DOWN"
                    else "FLAT";
                  fc_confidence := confidence;
                  trend := trend |};
           trends := dict_set (trends st) symbol trend;
           confidences := dict_set (confidences st) symbol confidence |}
    | Return None => st
    | Raise e => st
    end.

(** [sum(1 for f in forecasts.values() if f['predicted_direction'] == d)] *)
Definition count_direction (fs : pydict forecast) (d : string) : nat :=
  length (filter (fun f => predicted_direction f = d) (dict_values fs)).

(** [ForecastAgent.analyze] *)
Definition analyze (self : ForecastAgent) (data : MarketData)
  : ForecastAgent * result :=
  if negb (truthy data) then (self, _empty_result)
  else
    let st :=
      foldl (analyze_symbol self)
            {| l_forecasts := []; trends := []; confidences := [] |} data in
    let forecasts := l_forecasts st in
    let '(avg_prediction, market_sentiment) :=
      if truthy forecasts then
        let avg_prediction := np_mean (predicted_return <$> dict_values forecasts) in
        let bullish_count := count_direction forecasts "UP" in
        let bearish_count := count_direction forecasts "DOWN" in
        (avg_prediction,
         if bool_decide (bearish_count < bullish_count)%nat then "BULLISH"
         else if bool_decide (bullish_count < bearish_count)%nat then "BEARISH"
         else "NEUTRAL")
      else (num 0, "UNKNOWN") in
    let r :=
      {| forecasts := forecasts;
         market_sentiment := market_sentiment;
         average_prediction := avg_prediction;
         confidence :=
           if truthy (confidences st) then np_mean (dict_values (confidences st))
           else num 0 |} in
    (set_last_analysis self r, r).
End Analyze.

Definition return_signal (self : ForecastAgent) : string :=
  match last_analysis self with
  | None => "NO_DATA"
  | Some r =>
      if bool_decide (market_sentiment r = "BULLISH") then "BULLISH"
      else if bool_decide (market_sentiment r = "BEARISH") then "BEARISH"
      else "NEUTRAL"
  end.

Definition return_confidence (self : ForecastAgent) : pyfloat :=
  match last_analysis self with
  | None => num 0
  | Some r => confidence r
  end.

End Forecast.

(* ===================================================================== *)
(** * CorrelationAgent (agents/correlation_agent.py) *)
(* ===================================================================== *)

(** pandas on frames of returns.
    - [frame_of_series_dropna d] is [pd.DataFrame(d).dropna()]: the series
      of [d] (index and values) joined on their index, the rows with a
      missing value dropped; pandas raises on indexes it cannot align.
    - [frame_corr df a b] is [df.corr().loc[a, b]]. *)
Class PandasFrame := {
  frame_of_series_dropna : pydict (list Z * list pyfloat) -> outcome DataFrame.t;
  frame_corr : DataFrame.t -> string -> string -> pyfloat
}.

Module Correlation.

Record high_correlation : Type := mk_high {
  h_pair : string;
  correlation : pyfloat;
  h_type : string
}.

Record correlation_increase : Type := mk_increase {
  i_pair : string;
  recent : pyfloat;
  historical : pyfloat;
  change : pyfloat
}.

Record result : Type := mk_result {
  correlation_matrix : pydict (pydict pyfloat);
  average_correlation : pyfloat;
  diversification_score : pyfloat;
  high_correlations : list high_correlation;
  correlation_increases : list correlation_increase;
  risk_level : string;
  alerts : list Alert.t;
  confidence : pyfloat
}.

#[global] Instance high_eq_dec : EqDecision high_correlation.
Proof. solve_decision. Defined.
#[global] Instance increase_eq_dec : EqDecision correlation_increase.
Proof. solve_decision. Defined.
#[global] Instance result_eq_dec : EqDecision result.
Proof. solve_decision. Defined.

Record CorrelationAgent : Type := mk_agent {
  high_correlation_threshold : pyfloat;
  last_analysis : option result
}.

(** [CorrelationAgent(high_correlation_threshold=0.7)] *)
Definition __init__ (high_correlation_threshold : pyfloat) : CorrelationAgent :=
  {| high_correlation_threshold := high_correlation_threshold;
     last_analysis := None |}.
Definition new : CorrelationAgent := __init__ (frac 7 10).

Definition set_last_analysis (self : CorrelationAgent) (r : result)
  : CorrelationAgent :=
  {| high_correlation_threshold := high_correlation_threshold self;
     last_analysis := Some r |}.

Definition _empty_result : result :=
  {| correlation_matrix := [];
     average_correlation := num 0;
     diversification_score := num 0;
     high_correlations := [];
     correlation_increases := [];
     risk_level := "UNKNOWN";
     alerts := [];
     confidence := num 0 |}.

Definition _calculate_confidence (returns_df : DataFrame.t) : pyfloat :=
  if DataFrame.empty returns_df then num 0
  else
    let n_obs := DataFrame.len returns_df in
    if bool_decide (60 <= n_obs)%nat then num 1
    else if bool_decide (30 <= n_obs)%nat then frac 8 10
    else if bool_decide (20 <= n_obs)%nat then frac 6 10
    else frac 4 10.

(** The first loop: the non-empty [Returns] series by symbol. *)
Definition returns_step (returns_dict : pydict (list Z * list pyfloat))
    (item : string * DataFrame.t) : pydict (list Z * list pyfloat) :=
  let '(symbol, df) := item in
  if DataFrame.has_column df "Returns"
     && negb (bool_decide (length (DataFrame.col df "Returns") = 0%nat))
  then dict_set returns_dict symbol (DataFrame.index df, DataFrame.col df "Returns")
  else returns_dict.

(** [df.tail(n)] *)
Definition frame_tail (n : nat) (df : DataFrame.t) : DataFrame.t :=
  {| DataFrame.index := drop (length (DataFrame.index df) - n) (DataFrame.index df);
     DataFrame.columns :=
       (fun kv : string * list pyfloat => (kv.1, DataFrame.tail n kv.2))
         <$> DataFrame.columns df |}.
(** [df.iloc[:-n]] for [n > 0] *)
Definition frame_upto_minus (n : nat) (df : DataFrame.t) : DataFrame.t :=
  {| DataFrame.index := take (length (DataFrame.index df) - n) (DataFrame.index df);
     DataFrame.columns :=
       (fun kv : string * list pyfloat => (kv.1, DataFrame.iloc_upto_minus n kv.2))
         <$> DataFrame.columns df |}.

(** The pairs visited by
    [for i in range(len(symbols)): for j in range(i + 1, len(symbols))]. *)
Fixpoint pairs (symbols : list string) : list (string * string) :=
  match symbols with
  | [] => []
  | s :: rest => ((fun t => (s, t)) <$> rest) ++ pairs rest
  end.

Section Analyze.
Context `{Builtins} `{PandasFrame}.

(** The body of the double loop for one pair. *)
Definition pair_step (self : CorrelationAgent) (returns_df : DataFrame.t)
    (recent_window : nat)
    (st : list high_correlation * list correlation_increase)
    (p : string * string)
  : list high_correlation * list correlation_increase :=
  let '(high_correlations, correlation_increases) := st in
  let '(sym1, sym2) := p in
  let corr_value := frame_corr returns_df sym1 sym2 in
  let recent_corr_value := frame_corr (frame_tail recent_window returns_df) sym1 sym2 in
  let high_correlations :=
    if (fabs corr_value >? high_correlation_threshold self)%F then
      high_correlations ++
        [ {| h_pair := sym1 +:+ "-" +:+ sym2;
             correlation := corr_value;
             h_type := if (corr_value >? num 0)%F then "positive" else "negative" |} ]
    else high_correlations in
  let correlation_increases :=
    if bool_decide (60 < DataFrame.len returns_df)%nat then
      let historical_corr :=
        frame_corr (frame_upto_minus recent_window returns_df) sym1 sym2 in
      if (fabs recent_corr_value >? fabs historical_corr + frac 2 10)%F then
        correlation_increases ++
          [ {| i_pair := sym1 +:+ "-" +:+ sym2;
               recent := recent_corr_value;
               historical := historical_corr;
               change := (recent_corr_value - historical_corr)%F |} ]
      else correlation_increases
    else correlation_increases in
  (high_correlations, correlation_increases).

Definition increase_alert (c : correlation_increase) : Alert.t :=
  {| Alert.symbol := None;
     Alert.type := "CORRELATION_INCREASE";
     Alert.severity := Some "MEDIUM";
     Alert.message :=
       i_pair c +:+ ": Correlation increased from "
         +:+ format (historical c) ".2f" +:+ " to " +:+ format (recent c) ".2f";
     Alert.value := change c;
     Alert.source := None |}.

(** [CorrelationAgent.analyze] after the frame of returns is built. *)
Definition analyze_frame (self : CorrelationAgent) (returns_df : DataFrame.t)
  : result :=
  let recent_window := Nat.min 20 (DataFrame.len returns_df / 3) in
  let symbols := (DataFrame.columns returns_df).*1 in
  let '(high_correlations, correlation_increases) :=
    foldl (pair_step self returns_df recent_window) ([], []) (pairs symbols) in
  let upper_triangle :=
    (fun p : string * string => frame_corr returns_df p.1 p.2) <$> pairs symbols in
  let avg_correlation := np_mean (DataFrame.dropna upper_triangle) in
  let diversification_score :=
    py_max (num 0) (num 100 * (num 1 - fabs avg_correlation))%F in
  let alerts :=
    if (fabs avg_correlation >? high_correlation_threshold self)%F then
      [ {| Alert.symbol := None;
           Alert.type := "HIGH_PORTFOLIO_CORRELATION";
           Alert.severity := Some "HIGH";
           Alert.message :=
             "Portfolio shows high average correlation ("
               +:+ format avg_correlation ".2f" +:+ ")";
           Alert.value := avg_correlation;
           Alert.source := None |} ]
    else [] in
  let alerts := alerts ++ (increase_alert <$> correlation_increases) in
  let risk_level :=
    if (fabs avg_correlation >? frac 8 10)%F then "HIGH"
    else if (fabs avg_correlation >? frac 6 10)%F then "MEDIUM"
    else "LOW" in
  {| correlation_matrix :=
       (fun c => (c, (fun r => (r, frame_corr returns_df r c)) <$> symbols))
         <$> symbols;
     average_correlation := avg_correlation;
     diversification_score := diversification_score;
     high_correlations := high_correlations;
     correlation_increases := correlation_increases;
     risk_level := risk_level;
     alerts := alerts;
     confidence := _calculate_confidence returns_df |}.

(** [CorrelationAgent.analyze] *)
Definition analyze (data : MarketData) : M CorrelationAgent result :=
  fun self =>
    if negb (truthy data) || bool_decide (length data < 2)%nat
    then (self, Return _empty_result)
    else
      let returns_dict := foldl returns_step [] data in
      if bool_decide (length returns_dict < 2)%nat
      then (self, Return _empty_result)
      else
        match frame_of_series_dropna returns_dict with
        | Raise e => (self, Raise e)
        | Return returns_df =>
            if DataFrame.empty returns_df
               || bool_decide (DataFrame.len returns_df < 20)%nat
            then (self, Return _empty_result)
            else
              let r := analyze_frame self returns_df in
              (set_last_analysis self r, Return r)
        end.
End Analyze.

Definition return_signal (self : CorrelationAgent) : string :=
  match last_analysis self with
  | None => "NO_DATA"
  | Some r =>
      if bool_decide (risk_level r = "HIGH") then "HIGH_CORRELATION"
      else if bool_decide (risk_level r = "MEDIUM") then "MODERATE_CORRELATION"
      else "WELL_DIVERSIFIED"
  end.

Definition return_confidence (self : CorrelationAgent) : pyfloat :=
  match last_analysis self with
  | None => num 0
  | Some r => confidence r
  end.

End Correlation.

(* ===================================================================== *)
(** * Stable sorting by a key ([sorted(xs, key=k)], [xs.sort(key=k)]) *)
(* ===================================================================== *)

Module PySort.
Section ByKey.
Context {A : Type} (key : A -> nat).

(** [x] goes before the first element whose key is not smaller. *)
Fixpoint insert (x : A) (l : list A) : list A :=
  match l with
  | [] => [x]
  | y :: rest =>
      if bool_decide (key x <= key y)%nat then x :: y :: rest
      else y :: insert x rest
  end.

Definition sorted (l : list A) : list A := foldr insert [] l.

(** The order of the keys. *)
Definition key_le (a b : A) : Prop := (key a <= key b)%nat.
End ByKey.

(** The rank table [{'CRITICAL': 0, 'HIGH': 1, 'MEDIUM': 2, 'LOW': 3}]. *)
Definition rank_table : gmap string nat :=
  <["CRITICAL" := 0%nat]> (<["HIGH" := 1%nat]> (<["MEDIUM" := 2%nat]>
    (<["LOW" := 3%nat]> ∅))).
End PySort.

(* ===================================================================== *)
(** * AdvisoryAgent (backend/agents/advisory_agent.py) *)
(* ===================================================================== *)

Module Advisory.

Record priority_action : Type := mk_action {
  action : string;
  priority : string;
  reason : string;
  details : string
}.

Record recommendation_t : Type := mk_recommendation {
  category : string;
  recommendation : string;
  rationale : string;
  urgency : string
}.

Record result : Type := mk_result {
  overall_recommendation : string;
  priority_actions : list priority_action;
  recommendations : list recommendation_t;
  risk_factors : list string;
  confidence : pyfloat;
  summary : string
}.

#[global] Instance action_eq_dec : EqDecision priority_action.
Proof. solve_decision. Defined.
#[global] Instance recommendation_eq_dec : EqDecision recommendation_t.
Proof. solve_decision. Defined.
#[global] Instance result_eq_dec : EqDecision result.
Proof. solve_decision. Defined.

Record AdvisoryAgent : Type := mk_agent {
  last_analysis : option result
}.

Definition new : AdvisoryAgent := {| last_analysis := None |}.

Definition _generate_overall_recommendation
    (risk_level market_sentiment sentiment_label corr_risk : string) : string :=
  if bool_decide (risk_level = "CRITICAL") then "REDUCE_RISK_IMMEDIATELY"
  else if bool_decide (risk_level = "HIGH")
          && (bool_decide (market_sentiment = "BEARISH")
              || bool_decide (sentiment_label = "NEGATIVE"))
  then "DEFENSIVE_STANCE"
  else if bool_decide (risk_level = "HIGH") then "MONITOR_CLOSELY"
  else if bool_decide (risk_level = "MEDIUM")
          && bool_decide (market_sentiment = "BEARISH")
          && bool_decide (sentiment_label = "NEGATIVE")
  then "CAUTIOUS_APPROACH"
  else if bool_decide (risk_level = "LOW")
          && bool_decide (market_sentiment = "BULLISH")
          && bool_decide (sentiment_label = "POSITIVE")
  then "FAVORABLE_CONDITIONS"
  else "MAINTAIN_CURRENT_STRATEGY".

(** The key of [sorted(priority_actions, key=...)]; every priority that
    [analyze] writes is a key of the table. *)
Definition priority_key (a : priority_action) : nat :=
  default 0%nat (PySort.rank_table !! priority a).

(** The input confidences that enter the mean: [[c for c in cs if c > 0]]. *)
Definition positive_confidences (confidences : list pyfloat) : list pyfloat :=
  filter (fun c => (c >? num 0)%F = true) confidences.

Section Analyze.
Context `{Builtins}.

Definition _generate_summary (risk_level market_sentiment sentiment_label : string)
    (diversification : pyfloat) : string :=
  let part1 :=
    if bool_decide (risk_level = "HIGH") || bool_decide (risk_level = "CRITICAL")
    then "Portfolio is experiencing " +:+ str_lower risk_level +:+ " volatility."
    else "Portfolio risk is currently " +:+ str_lower risk_level +:+ "." in
  let part2 :=
    if bool_decide (market_sentiment = "BEARISH")
       && bool_decide (sentiment_label = "NEGATIVE")
    then "Both technical and sentiment indicators suggest downward pressure."
    else if bool_decide (market_sentiment = "BULLISH")
            && bool_decide (sentiment_label = "POSITIVE")
    then "Both technical and sentiment indicators suggest positive momentum."
    else "Technical outlook is " +:+ str_lower market_sentiment
           +:+ " while sentiment is " +:+ str_lower sentiment_label +:+ "." in
  let part3 :=
    if (diversification >? num 70)%F
    then ["Portfolio shows good diversification."]
    else if (diversification <? num 40)%F
    then ["Portfolio diversification could be improved."]
    else [] in
  String.concat " " ([part1; part2] ++ part3).

(** [AdvisoryAgent.analyze] *)
Definition analyze (self : AdvisoryAgent)
    (risk_analysis : Risk.result) (forecast_analysis : Forecast.result)
    (sentiment_analysis : Sentiment.result)
    (correlation_analysis : Correlation.result) : AdvisoryAgent * result :=
  let risk_level := Risk.risk_level risk_analysis in
  let risk_score := Risk.overall_risk_score risk_analysis in
  let market_sentiment := Forecast.market_sentiment forecast_analysis in
  let sentiment_label := Sentiment.overall_label sentiment_analysis in
  let corr_risk := Correlation.risk_level correlation_analysis in
  let avg_correlation := Correlation.average_correlation correlation_analysis in
  let diversification := Correlation.diversification_score correlation_analysis in
  (* risk situation *)
  let high_risk :=
    bool_decide (risk_level = "HIGH") || bool_decide (risk_level = "CRITICAL") in
  let risk_factors :=
    if high_risk then ["High portfolio volatility detected"] else [] in
  let priority_actions :=
    if high_risk then
      [ {| action := "REDUCE_EXPOSURE"; priority := "HIGH";
           reason := "Risk level is " +:+ risk_level;
           details := "Consider reducing position sizes or taking profits on volatile assets" |} ]
    else [] in
  let recommendations :=
    if high_risk then
      [ {| category := "RISK_MANAGEMENT";
           recommendation := "Reduce overall portfolio exposure";
           rationale := "Current risk score (" +:+ format risk_score ".1f"
                          +:+ ") indicates elevated volatility";
           urgency := "HIGH" |} ]
    else [] in
  (* forecast and sentiment alignment *)
  let '(risk_factors, priority_actions, recommendations) :=
    if bool_decide (market_sentiment = "BEARISH")
       && bool_decide (sentiment_label = "NEGATIVE") then
      (risk_factors ++ ["Bearish forecast aligned with negative sentiment"],
       priority_actions ++
         [ {| action := "DEFENSIVE_POSITIONING"; priority := "HIGH";
              reason := "Both technical and sentiment indicators are negative";
              details := "Consider defensive sectors or hedging strategies" |} ],
       recommendations ++
         [ {| category := "MARKET_OUTLOOK";
              recommendation := "Adopt defensive positioning";
              rationale := "Technical forecast and news sentiment both indicate downward pressure";
              urgency := "HIGH" |} ])
    else if bool_decide (market_sentiment = "BULLISH")
            && bool_decide (sentiment_label = "POSITIVE") then
      (risk_factors, priority_actions,
       recommendations ++
         [ {| category := "MARKET_OUTLOOK";
              recommendation := "Favorable conditions for growth positions";
              rationale := "Technical forecast and news sentiment both indicate upward momentum";
              urgency := "LOW" |} ])
    else if negb (bool_decide (market_sentiment = sentiment_label)) then
      (risk_factors ++ ["Divergence between technical and sentiment signals"],
       priority_actions,
       recommendations ++
         [ {| category := "MARKET_OUTLOOK";
              recommendation := "Exercise caution - mixed signals detected";
              rationale := "Technical forecast (" +:+ market_sentiment
                             +:+ ") diverges from sentiment (" +:+ sentiment_label +:+ ")";
              urgency := "MEDIUM" |} ])
    else (risk_factors, priority_actions, recommendations) in
  (* correlation risk *)
  let '(risk_factors, priority_actions, recommendations) :=
    if bool_decide (corr_risk = "HIGH") then
      (risk_factors ++ ["High correlation reduces diversification benefit"],
       priority_actions ++
         [ {| action := "IMPROVE_DIVERSIFICATION"; priority := "MEDIUM";
              reason := "Average correlation is " +:+ format avg_correlation ".2f";
              details := "Add uncorrelated assets or reduce exposure to correlated positions" |} ],
       recommendations ++
         [ {| category := "DIVERSIFICATION";
              recommendation := "Improve portfolio diversification";
              rationale := "Current diversification score ("
                             +:+ format diversification ".1f" +:+ "/100) is low";
              urgency := "MEDIUM" |} ])
    else if (diversification >? num 70)%F then
      (risk_factors, priority_actions,
       recommendations ++
         [ {| category := "DIVERSIFICATION";
              recommendation := "Portfolio shows good diversification";
              rationale := "Diversification score ("
                             +:+ format diversification ".1f"
                             +:+ "/100) indicates low correlation risk";
              urgency := "LOW" |} ])
    else (risk_factors, priority_actions, recommendations) in
  (* alert combinations *)
  let risk_alerts := Risk.alerts risk_analysis in
  let sentiment_alerts := Sentiment.alerts sentiment_analysis in
  let high_vol_alerts :=
    filter (fun a => Alert.type a = "HIGH_VOLATILITY" \/ Alert.type a = "VOLATILITY_SPIKE")
           risk_alerts in
  let neg_sent_alerts :=
    filter (fun a => Alert.type a = "NEGATIVE_SENTIMENT") sentiment_alerts in
  let priority_actions :=
    if truthy high_vol_alerts && truthy neg_sent_alerts then
      priority_actions ++
        [ {| action := "RISK_REVIEW"; priority := "CRITICAL";
             reason := "Combination of high volatility and negative sentiment";
             details := "Immediate review of portfolio risk exposure recommended" |} ]
    else priority_actions in
  let overall_recommendation :=
    _generate_overall_recommendation risk_level market_sentiment sentiment_label corr_risk in
  let confidences :=
    [ Risk.confidence risk_analysis; Forecast.confidence forecast_analysis;
      Sentiment.confidence sentiment_analysis;
      Correlation.confidence correlation_analysis ] in
  let overall_confidence := np_mean (positive_confidences confidences) in
  let r :=
    {| overall_recommendation := overall_recommendation;
       priority_actions := PySort.sorted priority_key priority_actions;
       recommendations := recommendations;
       risk_factors := risk_factors;
       confidence := overall_confidence;
       summary := _generate_summary risk_level market_sentiment sentiment_label
                    diversification |} in
  ({| last_analysis := Some r |}, r).
End Analyze.

Definition return_signal (self : AdvisoryAgent) : string :=
  match last_analysis self with
  | None => "NO_DATA"
  | Some r => overall_recommendation r
  end.

Definition return_confidence (self : AdvisoryAgent) : pyfloat :=
  match last_analysis self with
  | None => num 0
  | Some r => confidence r
  end.

End Advisory.

(* ===================================================================== *)
(** * ARIONEngine (core/engine.py) *)
(* ===================================================================== *)

(** An agent object as the engine uses it: [agent.analyze(input)] updates
    the agent and returns a result or raises. *)
Class Analyzer (Agent In Out : Type) := {
  agent_analyze : In -> M Agent Out
}.

(** The data supplier ([utils/fetch_data.py]), an external collaborator. *)
Class DataFetcher := {
  PriceInfo : Type;
  fetch_stock_data : list string -> string -> outcome MarketData;
  fetch_current_prices : list string -> outcome (pydict PriceInfo);
  fetch_news : list string -> outcome Sentiment.NewsData;
  calculate_portfolio_metrics : MarketData -> outcome (pydict pyfloat)
}.

Module Engine.

(** The values of the dictionary [agent_results]: one kind of result per
    agent. *)
Inductive agent_result : Type :=
| RiskResult (r : Risk.result)
| ForecastResult (r : Forecast.result)
| SentimentResult (r : Sentiment.result)
| CorrelationResult (r : Correlation.result)
| AdvisoryResult (r : Advisory.result).

#[global] Instance agent_result_eq_dec : EqDecision agent_result.
Proof. solve_decision. Defined.

(** [result.get(key)] for the keys that the engine reads: [None] when
    the result has no such key. *)
Definition key_overall_risk_score (r : agent_result) : option pyfloat :=
  match r with RiskResult r => Some (Risk.overall_risk_score r) | _ => None end.
Definition key_market_sentiment (r : agent_result) : option string :=
  match r with ForecastResult r => Some (Forecast.market_sentiment r) | _ => None end.
Definition key_overall_label (r : agent_result) : option string :=
  match r with SentimentResult r => Some (Sentiment.overall_label r) | _ => None end.
Definition key_overall_score (r : agent_result) : option pyfloat :=
  match r with SentimentResult r => Some (Sentiment.overall_score r) | _ => None end.
Definition key_risk_level (r : agent_result) : option string :=
  match r with
  | RiskResult r => Some (Risk.risk_level r)
  | CorrelationResult r => Some (Correlation.risk_level r)
  | _ => None
  end.
Definition key_alerts (r : agent_result) : option (list Alert.t) :=
  match r with
  | RiskResult r => Some (Risk.alerts r)
  | SentimentResult r => Some (Sentiment.alerts r)
  | CorrelationResult r => Some (Correlation.alerts r)
  | ForecastResult _ | AdvisoryResult _ => None
  end.

(** The alerts of a result are mutable objects that the result shares
    with the engine: writing to them is visible in the result. *)
Definition map_alerts (f : Alert.t -> Alert.t) (r : agent_result) : agent_result :=
  match r with
  | RiskResult r =>
      RiskResult
        (Risk.mk_result (Risk.overall_risk_score r) (Risk.max_risk_score r)
           (Risk.risk_level r) (Risk.individual_scores r) (Risk.volatility r)
           (Risk.drawdowns r) (f <$> Risk.alerts r) (Risk.confidence r))
  | SentimentResult r =>
      SentimentResult
        (Sentiment.mk_result (Sentiment.overall_score r) (Sentiment.overall_label r)
           (Sentiment.individual_scores r) (Sentiment.individual_labels r)
           (Sentiment.article_counts r) (Sentiment.distribution r)
           (f <$> Sentiment.alerts r) (Sentiment.confidence r))
  | CorrelationResult r =>
      CorrelationResult
        (Correlation.mk_result (Correlation.correlation_matrix r)
           (Correlation.average_correlation r) (Correlation.diversification_score r)
           (Correlation.high_correlations r) (Correlation.correlation_increases r)
           (Correlation.risk_level r) (f <$> Correlation.alerts r)
           (Correlation.confidence r))
  | ForecastResult _ | AdvisoryResult _ => r
  end.

(** [severity_order.get(x.get('severity', 'LOW'), 3)] *)
Definition severity_key (x : Alert.t) : nat :=
  default 3%nat (PySort.rank_table !! default "LOW" (Alert.severity x)).

(** [d[k]], raising [KeyError] on a missing key. *)
Definition getitem {V} (d : pydict V) (k : string) : outcome V :=
  match dict_get d k with
  | Some v => Return v
  | None => Raise (KeyError k)
  end.

Section WithCollaborators.
Context {RiskAgent ForecastAgent SentimentAgent CorrelationAgent AdvisoryAgent : Type}.
Context `{!Analyzer RiskAgent MarketData Risk.result}.
Context `{!Analyzer ForecastAgent MarketData Forecast.result}.
Context `{!Analyzer SentimentAgent Sentiment.NewsData Sentiment.result}.
Context `{!Analyzer CorrelationAgent MarketData Correlation.result}.
Context `{!Analyzer AdvisoryAgent
            (Risk.result * Forecast.result * Sentiment.result * Correlation.result)
            Advisory.result}.
Context `{DataFetcher}.

Record ARIONEngine : Type := mk_engine {
  symbols : list string;
  risk_agent : RiskAgent;
  forecast_agent : ForecastAgent;
  sentiment_agent : SentimentAgent;
  correlation_agent : CorrelationAgent;
  advisory_agent : AdvisoryAgent;
  market_data : MarketData;
  current_prices : pydict PriceInfo;
  news_data : Sentiment.NewsData;
  agent_results : pydict agent_result;
  unified_score : pyfloat
}.

Record summary : Type := mk_summary {
  sum_unified_risk_score : pyfloat;
  sum_risk_level : string;
  sum_symbols : list string;
  sum_current_prices : pydict PriceInfo;
  sum_agent_results : pydict agent_result;
  sum_all_alerts : list Alert.t;
  sum_portfolio_metrics : pydict pyfloat
}.

(** [ARIONEngine(symbols)], given the five freshly built agents. *)
Definition __init__ (symbols : list string) (ra : RiskAgent) (fa : ForecastAgent)
    (sa : SentimentAgent) (ca : CorrelationAgent) (aa : AdvisoryAgent)
  : ARIONEngine :=
  mk_engine symbols ra fa sa ca aa [] [] [] [] (num 0).

(** Assignments to the attributes of [self]. *)
Definition set_risk_agent (a : RiskAgent) (e : ARIONEngine) : ARIONEngine :=
  mk_engine (symbols e) a (forecast_agent e) (sentiment_agent e)
    (correlation_agent e) (advisory_agent e) (market_data e) (current_prices e)
    (news_data e) (agent_results e) (unified_score e).
Definition set_forecast_agent (a : ForecastAgent) (e : ARIONEngine) : ARIONEngine :=
  mk_engine (symbols e) (risk_agent e) a (sentiment_agent e)
    (correlation_agent e) (advisory_agent e) (market_data e) (current_prices e)
    (news_data e) (agent_results e) (unified_score e).
Definition set_sentiment_agent (a : SentimentAgent) (e : ARIONEngine) : ARIONEngine :=
  mk_engine (symbols e) (risk_agent e) (forecast_agent e) a
    (correlation_agent e) (advisory_agent e) (market_data e) (current_prices e)
    (news_data e) (agent_results e) (unified_score e).
Definition set_correlation_agent (a : CorrelationAgent) (e : ARIONEngine)
  : ARIONEngine :=
  mk_engine (symbols e) (risk_agent e) (forecast_agent e) (sentiment_agent e)
    a (advisory_agent e) (market_data e) (current_prices e)
    (news_data e) (agent_results e) (unified_score e).
Definition set_advisory_agent (a : AdvisoryAgent) (e : ARIONEngine) : ARIONEngine :=
  mk_engine (symbols e) (risk_agent e) (forecast_agent e) (sentiment_agent e)
    (correlation_agent e) a (market_data e) (current_prices e)
    (news_data e) (agent_results e) (unified_score e).
Definition set_market_data (d : MarketData) (e : ARIONEngine) : ARIONEngine :=
  mk_engine (symbols e) (risk_agent e) (forecast_agent e) (sentiment_agent e)
    (correlation_agent e) (advisory_agent e) d (current_prices e)
    (news_data e) (agent_results e) (unified_score e).
Definition set_current_prices (p : pydict PriceInfo) (e : ARIONEngine)
  : ARIONEngine :=
  mk_engine (symbols e) (risk_agent e) (forecast_agent e) (sentiment_agent e)
    (correlation_agent e) (advisory_agent e) (market_data e) p
    (news_data e) (agent_results e) (unified_score e).
Definition set_news_data (n : Sentiment.NewsData) (e : ARIONEngine) : ARIONEngine :=
  mk_engine (symbols e) (risk_agent e) (forecast_agent e) (sentiment_agent e)
    (correlation_agent e) (advisory_agent e) (market_data e) (current_prices e)
    n (agent_results e) (unified_score e).
Definition set_agent_results (r : pydict agent_result) (e : ARIONEngine)
  : ARIONEngine :=
  mk_engine (symbols e) (risk_agent e) (forecast_agent e) (sentiment_agent e)
    (correlation_agent e) (advisory_agent e) (market_data e) (current_prices e)
    (news_data e) r (unified_score e).
Definition set_unified_score (s : pyfloat) (e : ARIONEngine) : ARIONEngine :=
  mk_engine (symbols e) (risk_agent e) (forecast_agent e) (sentiment_agent e)
    (correlation_agent e) (advisory_agent e) (market_data e) (current_prices e)
    (news_data e) (agent_results e) s.

(** [self.<attr> = v] and the method call [self.<agent>.analyze(x)]. *)
Definition assign (set : ARIONEngine -> ARIONEngine) : M ARIONEngine unit :=
  fun e => (set e, Return tt).
Definition call {Agent A} (get : ARIONEngine -> Agent)
    (set : Agent -> ARIONEngine -> ARIONEngine) (m : M Agent A) : M ARIONEngine A :=
  fun e => let '(a, o) := m (get e) in (set a e, o).

Definition fetch_all_data (period : string) : M ARIONEngine bool :=
  try_except
    (self ← get_self;
     md ← lift_outcome (fetch_stock_data (symbols self) period);
     assign (set_market_data md);;
     cp ← lift_outcome (fetch_current_prices (symbols self));
     assign (set_current_prices cp);;
     nd ← lift_outcome (fetch_news (symbols self));
     assign (set_news_data nd);;
     self ← get_self;
     mret (bool_decide (0 < length (market_data self))%nat))
    (fun e => mret false).

Definition run_all_agents : M ARIONEngine (pydict agent_result) :=
  self ← get_self;
  risk_result ← call risk_agent set_risk_agent (agent_analyze (market_data self));
  forecast_result ←
    call forecast_agent set_forecast_agent (agent_analyze (market_data self));
  sentiment_result ←
    call sentiment_agent set_sentiment_agent (agent_analyze (news_data self));
  correlation_result ←
    call correlation_agent set_correlation_agent (agent_analyze (market_data self));
  advisory_result ←
    call advisory_agent set_advisory_agent
      (agent_analyze (risk_result, forecast_result, sentiment_result,
                      correlation_result));
  let results :=
    [ ("risk", RiskResult risk_result);
      ("forecast", ForecastResult forecast_result);
      ("sentiment", SentimentResult sentiment_result);
      ("correlation", CorrelationResult correlation_result);
      ("advisory", AdvisoryResult advisory_result) ] in
  assign (set_agent_results results);;
  mret results.

(** The weighted combination, as a function of [agent_results]. *)
Definition unified_score_of (results : pydict agent_result) : outcome pyfloat :=
  risk ← getitem results "risk";
  let risk_score := default (num 0) (key_overall_risk_score risk) in
  forecast ← getitem results "forecast";
  let forecast_sentiment := default "NEUTRAL" (key_market_sentiment forecast) in
  let forecast_score :=
    if bool_decide (forecast_sentiment = "BEARISH") then num 70
    else if bool_decide (forecast_sentiment = "BULLISH") then num 30
    else num 50 in
  sentiment ← getitem results "sentiment";
  let sentiment_label := default "NEUTRAL" (key_overall_label sentiment) in
  sentiment' ← getitem results "sentiment";
  let sentiment_score_raw := default (num 0) (key_overall_score sentiment') in
  let sentiment_score :=
    if bool_decide (sentiment_label = "NEGATIVE")
    then (num 50 + fabs sentiment_score_raw * num 50)%F
    else if bool_decide (sentiment_label = "POSITIVE")
    then (num 50 - sentiment_score_raw * num 50)%F
    else num 50 in
  correlation ← getitem results "correlation";
  let corr_risk_level := default "UNKNOWN" (key_risk_level correlation) in
  let correlation_score :=
    if bool_decide (corr_risk_level = "HIGH") then num 75
    else if bool_decide (corr_risk_level = "MEDIUM") then num 50
    else num 25 in
  let unified_score :=
    (risk_score * frac 40 100
     + forecast_score * frac 20 100
     + sentiment_score * frac 20 100
     + correlation_score * frac 20 100)%F in
  mret (py_min (num 100) (py_max (num 0) unified_score)).

Definition calculate_unified_risk_score : M ARIONEngine pyfloat :=
  self ← get_self;
  if negb (truthy (agent_results self)) then mret (num 0)
  else
    score ← lift_outcome (unified_score_of (agent_results self));
    assign (set_unified_score score);;
    mret score.

(** [ARIONEngine.get_risk_level] *)
Definition get_risk_level (self : ARIONEngine) : string :=
  if (unified_score self <? num 20)%F then "LOW"
  else if (unified_score self <? num 50)%F then "MEDIUM"
  else if (unified_score self <? num 80)%F then "HIGH"
  else "CRITICAL".

(** One iteration of [for agent_name, result in self.agent_results.items()]:
    the alerts appended to [all_alerts]. *)
Definition collected_from (item : string * agent_result) : list Alert.t :=
  let '(agent_name, result) := item in
  if bool_decide (agent_name = "advisory") then []
  else Alert.set_source agent_name <$> default [] (key_alerts result).

(** The same iteration, as seen in [agent_results]: the alerts of the
    result now carry their source. *)
Definition stamped (item : string * agent_result) : string * agent_result :=
  let '(agent_name, result) := item in
  if bool_decide (agent_name = "advisory") then item
  else (agent_name, map_alerts (Alert.set_source agent_name) result).

Definition all_alerts_of (results : pydict agent_result) : list Alert.t :=
  PySort.sorted severity_key (concat (collected_from <$> results)).

(** [ARIONEngine.get_all_alerts] *)
Definition get_all_alerts : M ARIONEngine (list Alert.t) :=
  self ← get_self;
  if negb (truthy (agent_results self)) then mret []
  else
    assign (set_agent_results (stamped <$> agent_results self));;
    mret (all_alerts_of (agent_results self)).

(** [ARIONEngine.get_summary]; the dictionary under ['agent_results'] is
    the object that [get_all_alerts] writes to. *)
Definition get_summary : M ARIONEngine summary :=
  self ← get_self;
  let risk_level := get_risk_level self in
  all_alerts ← get_all_alerts;
  portfolio_metrics ← lift_outcome (calculate_portfolio_metrics (market_data self));
  self' ← get_self;
  mret {| sum_unified_risk_score := unified_score self;
          sum_risk_level := risk_level;
          sum_symbols := symbols self;
          sum_current_prices := current_prices self;
          sum_agent_results := agent_results self';
          sum_all_alerts := all_alerts;
          sum_portfolio_metrics := portfolio_metrics |}.

(** [ARIONEngine.run]; [None] is the empty dictionary returned when no
    data could be fetched. *)
Definition run (period : string) : M ARIONEngine (option summary) :=
  ok ← fetch_all_data period;
  if negb ok then mret None
  else
    run_all_agents;;
    calculate_unified_risk_score;;
    summary ← get_summary;
    get_all_alerts;;
    mret (Some summary).
End WithCollaborators.

End Engine.

(** ** The modelled agents as the engine's collaborators *)

Module Agents.
Section Instances.
Context `{Builtins} `{Numpy} `{PandasStats} `{Vader} `{Sklearn}
        `{FeaturePipeline} `{PandasFrame}.

Definition risk : Analyzer Risk.RiskAgent MarketData Risk.result :=
  {| agent_analyze data self := Risk.analyze self data |}.

Definition forecast : Analyzer Forecast.ForecastAgent MarketData Forecast.result :=
  {| agent_analyze data self :=
       let '(self', r) := Forecast.analyze self data in (self', Return r) |}.

Definition sentiment
  : Analyzer Sentiment.SentimentAgent Sentiment.NewsData Sentiment.result :=
  {| agent_analyze news_data self :=
       let '(self', r) := Sentiment.analyze self news_data in (self', Return r) |}.

Definition correlation
  : Analyzer Correlation.CorrelationAgent MarketData Correlation.result :=
  {| agent_analyze data := Correlation.analyze data |}.

Definition advisory
  : Analyzer Advisory.AdvisoryAgent
      (Risk.result * Forecast.result * Sentiment.result * Correlation.result)
      Advisory.result :=
  {| agent_analyze '(r, f, s, c) self :=
       let '(self', a) := Advisory.analyze self r f s c in (self', Return a) |}.
End Instances.
End Agents.

(* ===================================================================== *)
(** * The specification's vocabulary *)
(* ===================================================================== *)

(** These definitions follow the words of the specification; the theorems
    below compare them with the definitions taken from the code. *)
Module Spec.

(** "Forecast→score mapping: BEARISH→70, BULLISH→30, else 50." *)
Definition forecast_score (market_sentiment : string) : pyfloat :=
  if decide (market_sentiment = "BEARISH") then num 70
  else if decide (market_sentiment = "BULLISH") then num 30
  else num 50.

(** "Sentiment→score mapping: NEGATIVE→50+|raw_score|*50,
    POSITIVE→50-raw_score*50, else 50." *)
Definition sentiment_score (overall_label : string) (raw_score : pyfloat) : pyfloat :=
  if decide (overall_label = "NEGATIVE") then (num 50 + fabs raw_score * num 50)%F
  else if decide (overall_label = "POSITIVE") then (num 50 - raw_score * num 50)%F
  else num 50.

(** "Correlation→score mapping: HIGH→75, MEDIUM→50, else 25." *)
Definition correlation_score (risk_level : string) : pyfloat :=
  if decide (risk_level = "HIGH") then num 75
  else if decide (risk_level = "MEDIUM") then num 50
  else num 25.

(** "risk-agent score × 0.40 + forecast-derived score × 0.20 +
    sentiment-derived score × 0.20 + correlation-derived score × 0.20" *)
Definition weighted_sum (risk : Risk.result) (forecast : Forecast.result)
    (sentiment : Sentiment.result) (correlation : Correlation.result) : pyfloat :=
  (Risk.overall_risk_score risk * frac 40 100
   + forecast_score (Forecast.market_sentiment forecast) * frac 20 100
   + sentiment_score (Sentiment.overall_label sentiment)
                     (Sentiment.overall_score sentiment) * frac 20 100
   + correlation_score (Correlation.risk_level correlation) * frac 20 100)%F.

(** "[r] is [x] clamped to [[lo, hi]]": [r] lies in the interval, is the
    nearer bound when [x] lies outside and is [x] itself otherwise. *)
Definition clamped (lo hi x r : pyfloat) : Prop :=
  ((lo <=? r)%F = true /\ (r <=? hi)%F = true)
  /\ ((x <? lo)%F = true -> r = lo)
  /\ ((x >? hi)%F = true -> r = hi)
  /\ ((lo <=? x)%F = true -> (x <=? hi)%F = true -> r = x).

(** "LOW(<20)/MEDIUM(<50)/HIGH(<80)/CRITICAL(else)" *)
Definition is_risk_level (s : Qc) (level : string) : Prop :=
  ((s < Q2Qc 20)%Qc -> level = "LOW")
  /\ ((Q2Qc 20 <= s)%Qc -> (s < Q2Qc 50)%Qc -> level = "MEDIUM")
  /\ ((Q2Qc 50 <= s)%Qc -> (s < Q2Qc 80)%Qc -> level = "HIGH")
  /\ ((Q2Qc 80 <= s)%Qc -> level = "CRITICAL").

(** "severity rank (CRITICAL,HIGH,MEDIUM,LOW; unknown severities sort
    last)": the position in the ranking, and a position after LOW for any
    other severity. *)
Definition severity_rank (severity : string) : nat :=
  if decide (severity = "CRITICAL") then 0
  else if decide (severity = "HIGH") then 1
  else if decide (severity = "MEDIUM") then 2
  else if decide (severity = "LOW") then 3
  else 4.

(** "sorted non-increasing by severity rank": a more severe alert never
    comes after a less severe one.  An alert without a severity counts as
    LOW. *)
Definition sorted_by_severity (alerts : list Alert.t) : Prop :=
  StronglySorted
    (fun a b => (severity_rank (default "LOW" (Alert.severity a))
                 <= severity_rank (default "LOW" (Alert.severity b)))%nat)
    alerts.

(** The amended ranking: any other severity shares the rank of LOW. *)
Definition amended_severity_rank (severity : string) : nat :=
  if decide (severity = "CRITICAL") then 0
  else if decide (severity = "HIGH") then 1
  else if decide (severity = "MEDIUM") then 2
  else 3.

Definition sorted_by_amended_rank (alerts : list Alert.t) : Prop :=
  StronglySorted
    (fun a b => (amended_severity_rank (default "LOW" (Alert.severity a))
                 <= amended_severity_rank (default "LOW" (Alert.severity b)))%nat)
    alerts.

(** One of the four severities of the ranking. *)
Definition known_severity (severity : string) : Prop :=
  severity ∈ ["CRITICAL"; "HIGH"; "MEDIUM"; "LOW"].

(** The decision table of the overall recommendation, "evaluated
    top-to-bottom (first match wins)": the rows are pairs of a guard on
    (risk level, forecast sentiment, sentiment label) and an outcome. *)
Definition row : Type := (string -> string -> string -> bool) * string.

Definition decision_table : list row :=
  [ (fun risk _ _ => bool_decide (risk = "CRITICAL"), "REDUCE_RISK_IMMEDIATELY");
    (fun risk forecast sentiment =>
       bool_decide (risk = "HIGH")
       && (bool_decide (forecast = "BEARISH") || bool_decide (sentiment = "NEGATIVE")),
     "DEFENSIVE_STANCE");
    (fun risk _ _ => bool_decide (risk = "HIGH"), "MONITOR_CLOSELY");
    (fun risk forecast sentiment =>
       bool_decide (risk = "MEDIUM") && bool_decide (forecast = "BEARISH")
       && bool_decide (sentiment = "NEGATIVE"),
     "CAUTIOUS_APPROACH");
    (fun risk forecast sentiment =>
       bool_decide (risk = "LOW") && bool_decide (forecast = "BULLISH")
       && bool_decide (sentiment = "POSITIVE"),
     "FAVORABLE_CONDITIONS") ].

Fixpoint first_match (table : list row) (default : string)
    (risk forecast sentiment : string) : string :=
  match table with
  | [] => default
  | (guard, outcome) :: rest =>
      if guard risk forecast sentiment then outcome
      else first_match rest default risk forecast sentiment
  end.

Definition overall_recommendation (risk forecast sentiment : string) : string :=
  first_match decision_table "MAINTAIN_CURRENT_STRATEGY" risk forecast sentiment.

(** "mean of the four input confidences, excluding any that are exactly
    zero ...; if all are zero, result confidence is 0" *)
Definition confidence (confidences : list pyfloat) : pyfloat :=
  let kept := filter (fun c => c <> num 0) confidences in
  match kept with
  | [] => num 0
  | _ => np_mean kept
  end.

End Spec.

(* ===================================================================== *)
(** * Vocabulary of the statements *)
(* ===================================================================== *)

(** What scikit-learn documents of [random_state]: the fit of a seeded
    estimator is the same in every state of the global generator. *)
Definition seeded_fit_ignores_state `{SklearnRandom} : Prop :=
  forall (g g' : rng_state) (r : regressor) (X : list (list pyfloat))
         (y : list pyfloat),
    seeded r = true -> fit_at g r X y = fit_at g' r X y.

(** The dictionary that [run_all_agents] stores in [agent_results]. *)
Definition results_of (risk : Risk.result) (forecast : Forecast.result)
    (sentiment : Sentiment.result) (correlation : Correlation.result)
    (advisory : Advisory.result) : pydict Engine.agent_result :=
  [ ("risk", Engine.RiskResult risk);
    ("forecast", Engine.ForecastResult forecast);
    ("sentiment", Engine.SentimentResult sentiment);
    ("correlation", Engine.CorrelationResult correlation);
    ("advisory", Engine.AdvisoryResult advisory) ].

(** The alert lists of the base agents, each alert stamped with its agent;
    the forecast result has no alert list. *)
Definition stamped_alerts (risk : Risk.result) (sentiment : Sentiment.result)
    (correlation : Correlation.result) : list Alert.t :=
  (Alert.set_source "risk" <$> Risk.alerts risk)
  ++ (Alert.set_source "sentiment" <$> Sentiment.alerts sentiment)
  ++ (Alert.set_source "correlation" <$> Correlation.alerts correlation).

(** An alert of [merged] comes from the list of the agent that its source
    names. *)
Definition from_named_agent (risk : Risk.result) (sentiment : Sentiment.result)
    (correlation : Correlation.result) (a : Alert.t) : Prop :=
  exists name alerts a0,
    (name, alerts) ∈ [ ("risk", Risk.alerts risk);
                       ("sentiment", Sentiment.alerts sentiment);
                       ("correlation", Correlation.alerts correlation) ]
    /\ a0 ∈ alerts /\ a = Alert.set_source name a0 /\ Alert.source a = Some name.

(** Confidences of the documented range [[0, 1]]. *)
Definition valid_confidence (c : pyfloat) : Prop :=
  exists q, c = Fin q /\ (Q2Qc 0 <= q)%Qc /\ (q <= Q2Qc 1)%Qc.

(** A frame from which the loop of [analyze] takes no score: it is empty,
    has no [Returns] column or has fewer than five valid recent returns. *)
Definition insufficient (df : DataFrame.t) : bool :=
  DataFrame.empty df
  || negb (DataFrame.has_column df "Returns")
  || bool_decide
       (length (DataFrame.tail 20 (DataFrame.dropna (DataFrame.col df "Returns"))) < 5)%nat.

Section AgentFaults.
Context {RiskAgent ForecastAgent SentimentAgent CorrelationAgent AdvisoryAgent : Type}.
Context `{!Analyzer RiskAgent MarketData Risk.result}.
Context `{!Analyzer ForecastAgent MarketData Forecast.result}.
Context `{!Analyzer SentimentAgent Sentiment.NewsData Sentiment.result}.
Context `{!Analyzer CorrelationAgent MarketData Correlation.result}.
Context `{!Analyzer AdvisoryAgent
            (Risk.result * Forecast.result * Sentiment.result * Correlation.result)
            Advisory.result}.
Context `{DataFetcher}.

Abbreviation engine :=
  (@Engine.ARIONEngine RiskAgent ForecastAgent SentimentAgent CorrelationAgent
     AdvisoryAgent _).

(** [base_agent_raises e ex e']: in [run_all_agents] started on [e], one of
    the four base agents raises [ex] at its turn, the agents before it
    having returned; [e'] is the engine at that moment. *)
Inductive base_agent_raises (e : engine) (ex : exn) : engine -> Prop :=
| risk_raises ra :
    agent_analyze (Engine.market_data e) (Engine.risk_agent e) = (ra, Raise ex) ->
    base_agent_raises e ex (Engine.set_risk_agent ra e)
| forecast_raises ra r fa :
    agent_analyze (Engine.market_data e) (Engine.risk_agent e) = (ra, Return r) ->
    agent_analyze (Engine.market_data e) (Engine.forecast_agent e) = (fa, Raise ex) ->
    base_agent_raises e ex
      (Engine.set_forecast_agent fa (Engine.set_risk_agent ra e))
| sentiment_raises ra r fa f sa :
    agent_analyze (Engine.market_data e) (Engine.risk_agent e) = (ra, Return r) ->
    agent_analyze (Engine.market_data e) (Engine.forecast_agent e) = (fa, Return f) ->
    agent_analyze (Engine.news_data e) (Engine.sentiment_agent e) = (sa, Raise ex) ->
    base_agent_raises e ex
      (Engine.set_sentiment_agent sa
         (Engine.set_forecast_agent fa (Engine.set_risk_agent ra e)))
| correlation_raises ra r fa f sa s ca :
    agent_analyze (Engine.market_data e) (Engine.risk_agent e) = (ra, Return r) ->
    agent_analyze (Engine.market_data e) (Engine.forecast_agent e) = (fa, Return f) ->
    agent_analyze (Engine.news_data e) (Engine.sentiment_agent e) = (sa, Return s) ->
    agent_analyze (Engine.market_data e) (Engine.correlation_agent e) = (ca, Raise ex) ->
    base_agent_raises e ex
      (Engine.set_correlation_agent ca
         (Engine.set_sentiment_agent sa
            (Engine.set_forecast_agent fa (Engine.set_risk_agent ra e)))).

End AgentFaults.

Section ForecastFaults.
Context `{Sklearn} `{FeaturePipeline}.

(** An exception while preparing the features of a frame, or while fitting
    or predicting on its features. *)
Definition symbol_fault (self : Forecast.ForecastAgent) (df : DataFrame.t) : Prop :=
  (exists ex, _prepare_features df = Raise ex)
  \/ (exists features_df ex,
        _prepare_features df = Return features_df
        /\ DataFrame.empty features_df = false
        /\ Forecast._train_and_predict self features_df = Raise ex).

End ForecastFaults.

(* ===================================================================== *)
(** * Test doubles and scenarios *)
(* ===================================================================== *)

(** ** Test doubles for the libraries

    Small executable stand-ins for the third-party libraries, used to run
    the pipeline on concrete inputs. *)

Module Double.

(** The square root to twelve decimal places, rounded down; not a number
    for a negative argument. *)
Definition decimal_sqrt (x : pyfloat) : pyfloat :=
  match x with
  | Fin q =>
      if bool_decide (q < 0)%Qc then NaN
      else Fin (Q2Qc (Z.sqrt (Qnum q * 10 ^ 24 / Zpos (Qden q)) # 10 ^ 12))
  | NaN => NaN
  end.

(** Sample standard deviation of the values that are not missing. *)
Definition sample_std (xs : list pyfloat) : pyfloat :=
  let xs := DataFrame.dropna xs in
  let m := np_mean xs in
  let squares := (fun x => ((x - m) * (x - m))%F) <$> xs in
  decimal_sqrt (py_sum squares / (flen xs - num 1))%F.

Definition builtins : Builtins :=
  {| format := fun _ spec => "{:" +:+ spec +:+ "}";
     str_lower := fun s => s |}.

Definition numpy : Numpy := {| np_sqrt := decimal_sqrt |}.

Definition pandas_stats : PandasStats := {| series_std := sample_std |}.

(** A three-word lexicon. *)
Definition vader : Vader :=
  {| polarity_compound := fun text =>
       if bool_decide (text = "Record profits") then frac 8 10
       else if bool_decide (text = "Solid quarter") then frac 6 10
       else if bool_decide (text = "Minor delay") then frac (-1) 10
       else num 0 |}.

(** A regressor that predicts the mean of its training targets and refuses
    an empty training set. *)
Definition sklearn : Sklearn :=
  {| fitted_model := pyfloat;
     sk_fit := fun _ X y =>
       match X with
       | [] => Raise (ValueError "Found array with 0 sample(s)")
       | _ => Return (np_mean y)
       end;
     sk_predict := fun m X => Return ((fun _ => m) <$> X) |}.

(** The same regressor with a source of randomness: a forest that is not
    seeded adds the state of the generator to what it predicts. *)
Definition sklearn_random : SklearnRandom :=
  {| rng_state := Z;
     fitted_at := pyfloat;
     fit_at := fun g r X y =>
       match X with
       | [] => Raise (ValueError "Found array with 0 sample(s)")
       | _ => Return (if seeded r then np_mean y else (np_mean y + num g)%F)
       end;
     predict_at := fun m X => Return ((fun _ => m) <$> X) |}.

(** A feature pipeline that reads Close, Returns and Volume, and fills
    every feature with the closing price and the target with the return. *)
Definition feature_pipeline : FeaturePipeline :=
  {| _prepare_features := fun df =>
       close ← Forecast.getitem df "Close";
       returns ← Forecast.getitem df "Returns";
       _ ← Forecast.getitem df "Volume";
       mret {| DataFrame.index := DataFrame.index df;
               DataFrame.columns :=
                 DataFrame.columns df
                 ++ ((fun c => (c, close)) <$> Forecast.feature_cols)
                 ++ [("Target", returns)] |} |}.

(** The value of a series at a label, missing when the label is absent. *)
Definition label_value (index : list Z) (values : list pyfloat) (label : Z) : pyfloat :=
  match list_find (fun l => l = label) index with
  | Some (i, _) => nth i values NaN
  | None => NaN
  end.

(** [pd.DataFrame(d).dropna()].  Series with one common index are joined by
    position; otherwise they are joined on their labels, which pandas
    refuses when an index holds a label twice. *)
Definition join_dropna (d : pydict (list Z * list pyfloat)) : outcome DataFrame.t :=
  let indexes := (fun kv : string * (list Z * list pyfloat) => kv.2.1) <$> d in
  match indexes with
  | [] => Return {| DataFrame.index := []; DataFrame.columns := [] |}
  | first :: others =>
      if forallb (fun index => bool_decide (index = first)) others then
        let complete i :=
          forallb (fun kv : string * (list Z * list pyfloat) =>
                     DataFrame.is_fin (nth i kv.2.2 NaN)) d in
        let rows := filter complete (seq 0 (length first)) in
        Return {| DataFrame.index := (fun i => nth i first 0%Z) <$> rows;
                  DataFrame.columns :=
                    (fun kv : string * (list Z * list pyfloat) =>
                       (kv.1, (fun i => nth i kv.2.2 NaN) <$> rows)) <$> d |}
      else if existsb (fun index => bool_decide (~ NoDup index)) indexes then
        Raise (ValueError "cannot reindex on an axis with duplicate labels")
      else
        let complete label :=
          forallb (fun kv : string * (list Z * list pyfloat) =>
                     DataFrame.is_fin (label_value kv.2.1 kv.2.2 label)) d in
        let labels := filter complete (merge_sort Z.le first) in
        Return {| DataFrame.index := labels;
                  DataFrame.columns :=
                    (fun kv : string * (list Z * list pyfloat) =>
                       (kv.1, label_value kv.2.1 kv.2.2 <$> labels)) <$> d |}
  end.

(** The correlation of two columns as pandas computes it: the sum of the
    products of the deviations from the means, over the square root of the
    product of the two sums of squared deviations, clipped to [[-1, 1]];
    not a number when that square root is zero. *)
Definition pearson (xs ys : list pyfloat) : pyfloat :=
  let mx := np_mean xs in
  let my := np_mean ys in
  let covxy := py_sum (zip_with (fun x y => ((x - mx) * (y - my))%F) xs ys) in
  let ssqdm_x := py_sum ((fun x => ((x - mx) * (x - mx))%F) <$> xs) in
  let ssqdm_y := py_sum ((fun y => ((y - my) * (y - my))%F) <$> ys) in
  let val := (covxy / decimal_sqrt (ssqdm_x * ssqdm_y))%F in
  if (val >? num 1)%F then num 1
  else if (val <? num (-1))%F then num (-1)
  else val.

Definition pandas_frame : PandasFrame :=
  {| frame_of_series_dropna := join_dropna;
     frame_corr := fun df a b => pearson (DataFrame.col df a) (DataFrame.col df b) |}.

(** A frame of [n] rows with the given returns and a flat closing price. *)
Definition frame (returns : list pyfloat) : DataFrame.t :=
  {| DataFrame.index := Z.of_nat <$> seq 0 (length returns);
     DataFrame.columns :=
       [ ("Close", (fun _ => num 100) <$> returns);
         ("Volume", (fun _ => num 1000) <$> returns);
         ("Returns", returns);
         ("Drawdown", (fun _ => num 0) <$> returns) ] |}.

(** A supplier that serves the same short frame for every symbol and no
    news. *)
Definition fetcher : DataFetcher :=
  {| PriceInfo := pyfloat;
     fetch_stock_data := fun symbols _ =>
       Return ((fun s => (s, frame [NaN; frac 1 100; frac (-2) 100; frac 15 1000]))
                 <$> symbols);
     fetch_current_prices := fun symbols => Return ((fun s => (s, num 100)) <$> symbols);
     fetch_news := fun symbols => Return ((fun s => (s, [])) <$> symbols);
     calculate_portfolio_metrics := fun _ => Return [] |}.

(** Twenty-five rows of returns, the first one missing. *)
Definition returns25 : list pyfloat :=
  NaN :: concat (replicate 8 [frac 1 100; frac (-2) 100; frac 15 1000]).

(** A supplier of twenty-five rows per symbol; after the first symbol the
    frames carry the last date twice. *)
Definition fetcher_duplicate_date : DataFetcher :=
  {| PriceInfo := pyfloat;
     fetch_stock_data := fun symbols _ =>
       Return (imap (fun i s =>
                       let df := frame returns25 in
                       (s, if bool_decide (i = 0%nat) then df
                           else {| DataFrame.index :=
                                     (Z.of_nat <$> seq 0 24) ++ [23%Z];
                                   DataFrame.columns := DataFrame.columns df |}))
                    symbols);
     fetch_current_prices := fun symbols => Return ((fun s => (s, num 100)) <$> symbols);
     fetch_news := fun symbols => Return ((fun s => (s, [])) <$> symbols);
     calculate_portfolio_metrics := fun _ => Return [] |}.

(** A risk agent whose [analyze] always raises. *)
Definition faulty_risk : Analyzer unit MarketData Risk.result :=
  {| agent_analyze := fun _ => raise (Exception "risk agent failed") |}.

End Double.

(** The scenario of the specification: one symbol, three return
    observations (the first row of a return series is missing). *)
Definition three_returns : MarketData :=
  [ ("AAPL", Double.frame [NaN; frac 1 100; frac (-2) 100; frac 15 1000]) ].

(** The alerts of a result, reduced to symbol, type and severity. *)
Definition alert_heads (alerts : list Alert.t)
  : list (option string * string * option string) :=
  (fun a => (Alert.symbol a, Alert.type a, Alert.severity a)) <$> alerts.

(** Three symbols with one headline each, scored 0.8, 0.6 and -0.1 by the
    lexicon of [Double.vader]. *)
Definition scenario_news : Sentiment.NewsData :=
  [ ("AAPL", [ Sentiment.mk_article (Some "Record profits") "wire" "" ]);
    ("MSFT", [ Sentiment.mk_article (Some "Solid quarter") "wire" "" ]);
    ("GOOGL", [ Sentiment.mk_article (Some "Minor delay") "wire" "" ]) ].

Definition scenario_result : Sentiment.result :=
  (@Sentiment.analyze Double.builtins Double.vader Sentiment.new scenario_news).2.

(** A frame without closing prices, on which the feature pipeline raises,
    in a batch with a frame of forty rows. *)
Definition no_close : DataFrame.t :=
  {| DataFrame.index := Z.of_nat <$> seq 0 40;
     DataFrame.columns := [ ("Returns", replicate 40 (frac 1 100)) ] |}.

Definition forty_rows : DataFrame.t := Double.frame (replicate 40 (frac 1 100)).

(** Agent results with one risk alert of the severity NOTICE, which the
    ranking does not know, and one sentiment alert of the severity LOW. *)
Definition notice_alert : Alert.t :=
  Alert.mk (Some "AAPL") "HIGH_VOLATILITY" (Some "NOTICE") "" (num 1) None.
Definition low_alert : Alert.t :=
  Alert.mk (Some "AAPL") "POSITIVE_SENTIMENT" (Some "LOW") "" (frac 6 10) None.
Definition notice_and_low : pydict Engine.agent_result :=
  results_of
    (Risk.mk_result (num 0) (num 0) "LOW" [] [] [] [notice_alert] (num 1))
    Forecast._empty_result
    (Sentiment.mk_result (frac 6 10) "POSITIVE" [("AAPL", frac 6 10)]
       [("AAPL", "POSITIVE")] [("AAPL", 1%nat)] (Sentiment.mk_distribution 1 0 0)
       [low_alert] (frac 1 10))
    Correlation._empty_result
    (Advisory.mk_result "MAINTAIN_CURRENT_STRATEGY" [] [] [] (num 1) "").

(** Engines over the test doubles. *)
Section EngineScenarios.
#[local] Existing Instance Double.builtins.
#[local] Existing Instance Double.numpy.
#[local] Existing Instance Double.pandas_stats.
#[local] Existing Instance Double.vader.
#[local] Existing Instance Double.sklearn.
#[local] Existing Instance Double.feature_pipeline.
#[local] Existing Instance Double.pandas_frame.
#[local] Existing Instance Double.faulty_risk.
#[local] Existing Instance Agents.risk.
#[local] Existing Instance Agents.forecast.
#[local] Existing Instance Agents.sentiment.
#[local] Existing Instance Agents.correlation.
#[local] Existing Instance Agents.advisory.

(** The confidence of the advisory result among the agent results. *)
Definition advisory_confidence_of (results : pydict Engine.agent_result)
  : option pyfloat :=
  match dict_get results "advisory" with
  | Some (Engine.AdvisoryResult a) => Some (Advisory.confidence a)
  | _ => None
  end.

(** An engine whose risk agent raises. *)
Definition faulty_engine
  : @Engine.ARIONEngine unit Forecast.ForecastAgent Sentiment.SentimentAgent
      Correlation.CorrelationAgent Advisory.AdvisoryAgent Double.fetcher :=
  Engine.__init__ ["AAPL"; "MSFT"] tt Forecast.new Sentiment.new Correlation.new
    Advisory.new.

(** The engine after [fetch_all_data('3mo')]. *)
Definition fetched_engine := (Engine.fetch_all_data "3mo" faulty_engine).1.

(** The engine of the repository on four rows per symbol. *)
Definition short_history_engine
  : @Engine.ARIONEngine Risk.RiskAgent Forecast.ForecastAgent Sentiment.SentimentAgent
      Correlation.CorrelationAgent Advisory.AdvisoryAgent Double.fetcher :=
  Engine.__init__ ["AAPL"; "MSFT"] Risk.new Forecast.new Sentiment.new
    Correlation.new Advisory.new.

Definition short_history_run := Engine.run "5d" short_history_engine.

(** The engine of the repository on frames of which one repeats a date. *)
Definition duplicate_date_engine
  : @Engine.ARIONEngine Risk.RiskAgent Forecast.ForecastAgent Sentiment.SentimentAgent
      Correlation.CorrelationAgent Advisory.AdvisoryAgent
      Double.fetcher_duplicate_date :=
  Engine.__init__ ["AAPL"; "MSFT"] Risk.new Forecast.new Sentiment.new
    Correlation.new Advisory.new.

Definition duplicate_date_run := Engine.run "1mo" duplicate_date_engine.

End EngineScenarios.

(* ===================================================================== *)
(** * Vocabulary of the further properties *)
(* ===================================================================== *)

(** ** Ranges of floats *)

(** [x] is a number in the interval [[lo, hi]]. *)
Definition within (lo hi : Qc) (x : pyfloat) : Prop :=
  exists q, x = Fin q /\ (lo <= q)%Qc /\ (q <= hi)%Qc.

(** [x] is a number and not negative. *)
Definition nonneg (x : pyfloat) : Prop := exists q, x = Fin q /\ (Q2Qc 0 <= q)%Qc.

Definition of_nat (n : nat) : Qc := Q2Qc (Z.of_nat n # 1).

(** ** The risk agent *)

(** A well-formed alert of the risk agent about one of [symbols]. *)
Definition risk_alert_ok (symbols : list string) (a : Alert.t) : Prop :=
  (exists s, Alert.symbol a = Some s /\ s ∈ symbols)
  /\ Alert.type a ∈ ["HIGH_VOLATILITY"; "SIGNIFICANT_DRAWDOWN"; "VOLATILITY_SPIKE"]
  /\ Alert.severity a ∈ [Some "HIGH"; Some "MEDIUM"]
  /\ (Alert.type a = "VOLATILITY_SPIKE" -> Alert.severity a = Some "MEDIUM")
  /\ Alert.source a = None.

(** A frame that the loop of [analyze] scores and on which the drawdown
    ratio is the integer [0] divided by a threshold that is zero: the frame
    has no [Drawdown] column. *)
Definition divides_by_zero (self : Risk.RiskAgent) (df : DataFrame.t) : bool :=
  negb (insufficient df)
  && negb (DataFrame.has_column df "Drawdown")
  && bool_decide (Risk.drawdown_threshold self = num 0).

(** The number of frames with full credit and with half credit in
    [RiskAgent._calculate_confidence]. *)
Definition full_credit (dfs : list DataFrame.t) : nat :=
  length (filter (fun df => (60 <= DataFrame.len df)%nat) dfs).
Definition half_credit (dfs : list DataFrame.t) : nat :=
  length (filter (fun df => (20 <= DataFrame.len df < 60)%nat) dfs).

(** A standard deviation that is the same for every series. *)
Definition flat_stats : PandasStats := {| series_std := fun _ => frac 2 100 |}.

(** The signal that [RiskAgent.return_signal] gives for a cached overall
    score. *)
Definition risk_signal_of_score (score : pyfloat) : string :=
  if (score <? num 20)%F then "STABLE"
  else if (score <? num 50)%F then "WATCH"
  else if (score <? num 80)%F then "CAUTION"
  else "DANGER".

(** Two symbols: twenty-five rows of returns, and two rows. *)
Definition month_and_two_rows : MarketData :=
  [ ("AAPL", Double.frame Double.returns25);
    ("MSFT", Double.frame [NaN; frac 1 100]) ].

(** A risk agent whose drawdown threshold is zero. *)
Definition zero_drawdown_agent : Risk.RiskAgent := Risk.__init__ (frac 3 10) (num 0).

(** ** The sentiment agent *)

(** The labels of a dictionary of scores. *)
Definition label_map (scores : pydict pyfloat) : pydict string :=
  (fun kv : string * pyfloat => (kv.1, Sentiment._get_sentiment_label kv.2))
    <$> scores.

(** An article with a title that is not empty. *)
Definition has_title (a : Sentiment.article) : bool :=
  match Sentiment.title a with
  | Some t => negb (bool_decide (t = ""))
  | None => false
  end.

(** A score below -0.5 or above 0.5. *)
Definition extreme (score : pyfloat) : bool :=
  (score <? frac (-5) 10)%F || (score >? frac 5 10)%F.

(** A well-formed alert of the sentiment agent in the result [r]: it is
    about a scored symbol, carries its score, and its type and severity
    agree with the score and with the label of the symbol. *)
Definition sentiment_alert_ok (r : Sentiment.result) (a : Alert.t) : Prop :=
  exists symbol score,
    (symbol, score) ∈ Sentiment.individual_scores r
    /\ Alert.symbol a = Some symbol
    /\ Alert.value a = score
    /\ Alert.source a = None
    /\ ((Alert.type a = "NEGATIVE_SENTIMENT"
         /\ (score <? frac (-5) 10)%F = true
         /\ Alert.severity a
            = Some (if (score <? frac (-7) 10)%F then "HIGH" else "MEDIUM")
         /\ (symbol, "NEGATIVE") ∈ Sentiment.individual_labels r)
        \/ (Alert.type a = "POSITIVE_SENTIMENT"
            /\ (score >? frac 5 10)%F = true
            /\ Alert.severity a = Some "LOW"
            /\ (symbol, "POSITIVE") ∈ Sentiment.individual_labels r)).

(** The signal that [SentimentAgent.return_signal] gives for a cached
    overall score. *)
Definition sentiment_signal_of_score (score : pyfloat) : string :=
  if (score <? frac (-5) 10)%F then "VERY_NEGATIVE"
  else if (score <? frac (-2) 10)%F then "NEGATIVE"
  else if (score >? frac 5 10)%F then "VERY_POSITIVE"
  else if (score >? frac 2 10)%F then "POSITIVE"
  else "NEUTRAL".

(** ** The forecast agent *)

(** The direction of a predicted return; a prediction that is not a number
    is FLAT. *)
Definition direction_of (prediction : pyfloat) : string :=
  if (prediction >? num 0)%F then "UP"
  else if (prediction <? num 0)%F then "DOWN"
  else "FLAT".

(** A confidence that is a number of [[0, 1]] or not a number. *)
Definition confidence_or_nan (c : pyfloat) : Prop := c = NaN \/ valid_confidence c.

(** A well-formed entry of [forecasts]. *)
Definition forecast_ok (f : Forecast.forecast) : Prop :=
  Forecast.predicted_direction f = direction_of (Forecast.predicted_return f)
  /\ Forecast.trend f ∈ ["UPTREND"; "DOWNTREND"; "SIDEWAYS"]
  /\ confidence_or_nan (Forecast.fc_confidence f).

(** The signal that [ForecastAgent.return_signal] gives for the numbers of
    UP and DOWN forecasts. *)
Definition forecast_signal_of_counts (up down : nat) : string :=
  if bool_decide (down < up)%nat then "BULLISH"
  else if bool_decide (up < down)%nat then "BEARISH"
  else "NEUTRAL".

(** The feature frame of forty rows of [Double.feature_pipeline]. *)
Definition forty_features : DataFrame.t :=
  match @_prepare_features Double.feature_pipeline forty_rows with
  | Return features_df => features_df
  | Raise _ => DataFrame.mk [] []
  end.

(** That feature frame without its RSI column, and without its target. *)
Definition no_rsi : DataFrame.t :=
  {| DataFrame.index := DataFrame.index forty_features;
     DataFrame.columns :=
       filter (fun kv : string * list pyfloat => kv.1 <> "RSI")
              (DataFrame.columns forty_features) |}.
Definition no_target : DataFrame.t :=
  {| DataFrame.index := DataFrame.index forty_features;
     DataFrame.columns :=
       filter (fun kv : string * list pyfloat => kv.1 <> "Target")
              (DataFrame.columns forty_features) |}.

Section ForecastVocabulary.
Context `{Sklearn} `{FeaturePipeline}.

(** [k] is a symbol of [data] whose frame has at least thirty rows and for
    which the body of the [try] block returned a forecast. *)
Definition forecast_source (self : Forecast.ForecastAgent) (data : MarketData)
    (k : string) : Prop :=
  exists df x,
    (k, df) ∈ data
    /\ DataFrame.empty df = false
    /\ (30 <= DataFrame.len df)%nat
    /\ Forecast.forecast_symbol self df = Return (Some x).

End ForecastVocabulary.

(** The confidences of a dictionary of forecasts. *)
Definition confidence_map (forecasts : pydict Forecast.forecast) : pydict pyfloat :=
  (fun kv : string * Forecast.forecast => (kv.1, Forecast.fc_confidence kv.2))
    <$> forecasts.

(** ** The correlation agent *)


(** The signal that [CorrelationAgent.return_signal] gives for a cached
    average correlation. *)
Definition correlation_signal_of (avg_correlation : pyfloat) : string :=
  if (fabs avg_correlation >? frac 8 10)%F then "HIGH_CORRELATION"
  else if (fabs avg_correlation >? frac 6 10)%F then "MODERATE_CORRELATION"
  else "WELL_DIVERSIFIED".

(** A well-formed alert of the correlation agent: it is about the whole
    portfolio and is a HIGH portfolio alert or a MEDIUM increase alert. *)
Definition correlation_alert_ok (a : Alert.t) : Prop :=
  Alert.symbol a = None
  /\ Alert.source a = None
  /\ (Alert.type a, Alert.severity a)
       ∈ [ ("HIGH_PORTFOLIO_CORRELATION", Some "HIGH");
           ("CORRELATION_INCREASE", Some "MEDIUM") ].

(** Two symbols with the same twenty-five rows of returns. *)
Definition month_pair : MarketData :=
  [ ("AAPL", Double.frame Double.returns25);
    ("MSFT", Double.frame Double.returns25) ].

(** What the correlation agent returns on them. *)
Definition month_pair_result : Correlation.result :=
  match (@Correlation.analyze Double.builtins Double.pandas_frame month_pair
           Correlation.new).2 with
  | Return r => r
  | Raise _ => Correlation._empty_result
  end.

(** ** The advisory agent *)

(** The conditions under which [AdvisoryAgent.analyze] adds its priority
    actions. *)
Definition advisory_high_risk (risk : Risk.result) : bool :=
  bool_decide (Risk.risk_level risk = "HIGH")
  || bool_decide (Risk.risk_level risk = "CRITICAL").

Definition advisory_aligned_negative (forecast : Forecast.result)
    (sentiment : Sentiment.result) : bool :=
  bool_decide (Forecast.market_sentiment forecast = "BEARISH")
  && bool_decide (Sentiment.overall_label sentiment = "NEGATIVE").

Definition advisory_correlated (correlation : Correlation.result) : bool :=
  bool_decide (Correlation.risk_level correlation = "HIGH").

(** Some risk alert is about volatility and some sentiment alert is
    negative. *)
Definition advisory_alert_combination (risk : Risk.result)
    (sentiment : Sentiment.result) : bool :=
  bool_decide (Exists (fun a => Alert.type a = "HIGH_VOLATILITY"
                                \/ Alert.type a = "VOLATILITY_SPIKE")
                      (Risk.alerts risk))
  && bool_decide (Exists (fun a => Alert.type a = "NEGATIVE_SENTIMENT")
                         (Sentiment.alerts sentiment)).

(** Results with a given level or label and a given confidence, and
    otherwise empty. *)
Definition risk_with (risk_level : string) (confidence : pyfloat) : Risk.result :=
  {| Risk.overall_risk_score := num 60; Risk.max_risk_score := num 60;
     Risk.risk_level := risk_level; Risk.individual_scores := [];
     Risk.volatility := []; Risk.drawdowns := []; Risk.alerts := [];
     Risk.confidence := confidence |}.

Definition forecast_with (market_sentiment : string) (confidence : pyfloat)
  : Forecast.result :=
  {| Forecast.forecasts := []; Forecast.market_sentiment := market_sentiment;
     Forecast.average_prediction := num 0; Forecast.confidence := confidence |}.

Definition sentiment_with (overall_label : string) (confidence : pyfloat)
  : Sentiment.result :=
  {| Sentiment.overall_score := num 0; Sentiment.overall_label := overall_label;
     Sentiment.individual_scores := []; Sentiment.individual_labels := [];
     Sentiment.article_counts := [];
     Sentiment.distribution := Sentiment.mk_distribution 0 0 0;
     Sentiment.alerts := []; Sentiment.confidence := confidence |}.

Definition correlation_with (risk_level : string) (confidence : pyfloat)
  : Correlation.result :=
  {| Correlation.correlation_matrix := [];
     Correlation.average_correlation := num 0;
     Correlation.diversification_score := num 0;
     Correlation.high_correlations := []; Correlation.correlation_increases := [];
     Correlation.risk_level := risk_level; Correlation.alerts := [];
     Correlation.confidence := confidence |}.

(** ** The engine *)

(** The keys under which [run_all_agents] stores the results. *)
Definition agent_names : list string :=
  ["risk"; "forecast"; "sentiment"; "correlation"; "advisory"].

(** The summary of [short_history_run]. *)
Definition short_history_summary
  : @Engine.summary Double.fetcher :=
  match short_history_run.2 with
  | Return (Some summary) => summary
  | _ => Engine.mk_summary NaN "" [] [] [] [] []
  end.

(* ===================================================================== *)
(** * Properties *)
(* ===================================================================== *)

(** ** Arithmetic on floats *)

Ltac qc_consts :=
  repeat match goal with
  | |- context [Qred ?c] =>
      let v := eval vm_compute in (Qred c) in change (Qred c) with v
  | H : context [Qred ?c] |- _ =>
      let v := eval vm_compute in (Qred c) in change (Qred c) with v in H
  end.

(** Linear arithmetic on canonical rationals, through [Q]. *)
Ltac qc_lra :=
  unfold Qclt, Qcle in *; cbn [this Q2Qc] in *; qc_consts; lra.

(** Case analysis on every float comparison of the goal. *)
Ltac float_cases :=
  unfold py_min, py_max, fgt, fge, flt, fle in *; simpl in *;
  repeat case_bool_decide; simpl in *.

Lemma flt_spec (x y : Qc) : (Fin x <? Fin y)%F = true <-> (x < y)%Qc.
Proof. simpl. apply bool_decide_eq_true. Qed.

Lemma fle_spec (x y : Qc) : (Fin x <=? Fin y)%F = true <-> (x <= y)%Qc.
Proof. simpl. apply bool_decide_eq_true. Qed.

Lemma flt_nan_l y : (NaN <? y)%F = false.
Proof. reflexivity. Qed.

Lemma flt_nan_r x : (x <? NaN)%F = false.
Proof. by destruct x. Qed.

(** [min(hi, max(lo, x))] clamps [x] to [[lo, hi]] whenever [lo <= hi]; a
    [NaN] is sent to [lo]. *)
Lemma min_max_clamped (lo hi : Qc) (x : pyfloat) :
  (lo <= hi)%Qc ->
  Spec.clamped (Fin lo) (Fin hi) x (py_min (Fin hi) (py_max (Fin lo) x)).
Proof.
  intros Hlh. unfold Spec.clamped. destruct x as [q|].
  - float_cases; repeat split; intros; try done;
      try (exfalso; qc_lra); try (f_equal; apply Qc_is_canon; qc_lra);
      try (apply bool_decide_eq_true; qc_lra).
  - float_cases; repeat split; intros; try done;
      try (exfalso; qc_lra); try (apply bool_decide_eq_true; qc_lra).
Qed.

(** ** The engine *)

Section EngineProperties.
Context {RiskAgent ForecastAgent SentimentAgent CorrelationAgent AdvisoryAgent : Type}.
Context `{!Analyzer RiskAgent MarketData Risk.result}.
Context `{!Analyzer ForecastAgent MarketData Forecast.result}.
Context `{!Analyzer SentimentAgent Sentiment.NewsData Sentiment.result}.
Context `{!Analyzer CorrelationAgent MarketData Correlation.result}.
Context `{!Analyzer AdvisoryAgent
            (Risk.result * Forecast.result * Sentiment.result * Correlation.result)
            Advisory.result}.
Context `{DataFetcher}.

Abbreviation ARIONEngine :=
  (@Engine.ARIONEngine RiskAgent ForecastAgent SentimentAgent CorrelationAgent
     AdvisoryAgent _).

Lemma forecast_score_code (market_sentiment : string) :
  (if bool_decide (market_sentiment = "BEARISH") then num 70
   else if bool_decide (market_sentiment = "BULLISH") then num 30
   else num 50) = Spec.forecast_score market_sentiment.
Proof. unfold Spec.forecast_score. repeat case_bool_decide; repeat case_decide; done. Qed.

Lemma sentiment_score_code (label : string) (raw : pyfloat) :
  (if bool_decide (label = "NEGATIVE") then (num 50 + fabs raw * num 50)%F
   else if bool_decide (label = "POSITIVE") then (num 50 - raw * num 50)%F
   else num 50) = Spec.sentiment_score label raw.
Proof. unfold Spec.sentiment_score. repeat case_bool_decide; repeat case_decide; done. Qed.

Lemma correlation_score_code (level : string) :
  (if bool_decide (level = "HIGH") then num 75
   else if bool_decide (level = "MEDIUM") then num 50
   else num 25) = Spec.correlation_score level.
Proof. unfold Spec.correlation_score. repeat case_bool_decide; repeat case_decide; done. Qed.

(** The weighted combination of the code is the clamped weighted sum of
    the specification. *)
Lemma unified_score_of_results risk forecast sentiment correlation advisory :
  exists s,
    Engine.unified_score_of (results_of risk forecast sentiment correlation advisory)
    = Return s
    /\ Spec.clamped (num 0) (num 100)
         (Spec.weighted_sum risk forecast sentiment correlation) s.
Proof.
  exists (py_min (num 100)
            (py_max (num 0) (Spec.weighted_sum risk forecast sentiment correlation))).
  split; [|apply min_max_clamped; qc_lra].
  unfold Spec.weighted_sum.
  rewrite <- forecast_score_code, <- sentiment_score_code, <- correlation_score_code.
  reflexivity.
Qed.

(** The score as a closed form of the four results. *)
Lemma unified_score_of_formula risk forecast sentiment correlation advisory :
  Engine.unified_score_of (results_of risk forecast sentiment correlation advisory)
  = Return (py_min (num 100)
              (py_max (num 0) (Spec.weighted_sum risk forecast sentiment correlation))).
Proof.
  unfold Spec.weighted_sum.
  rewrite <- forecast_score_code, <- sentiment_score_code, <- correlation_score_code.
  reflexivity.
Qed.

(** C1. For every four agent results stored by [run_all_agents], the unified
    risk score that [calculate_unified_risk_score] stores and returns is the
    weighted sum risk × 0.40 + forecast-derived × 0.20 + sentiment-derived ×
    0.20 + correlation-derived × 0.20 clamped to [0, 100], with the three
    mappings of the specification. *)
Theorem unified_risk_score_is_clamped_weighted_sum
    (risk : Risk.result) (forecast : Forecast.result) (sentiment : Sentiment.result)
    (correlation : Correlation.result) (advisory : Advisory.result)
    (e : ARIONEngine) :
  let e0 :=
    Engine.set_agent_results
      (results_of risk forecast sentiment correlation advisory) e in
  exists s,
    Engine.calculate_unified_risk_score e0 = (Engine.set_unified_score s e0, Return s)
    /\ Spec.clamped (num 0) (num 100)
         (Spec.weighted_sum risk forecast sentiment correlation) s.
Proof.
  intros e0.
  destruct (unified_score_of_results risk forecast sentiment correlation advisory)
    as (s & Hs & Hclamp).
  exists s. split; [|exact Hclamp].
  unfold Engine.calculate_unified_risk_score, mbind, M_bind, bind, get_self,
    lift_outcome, Engine.assign, mret, M_ret, ret.
  subst e0. cbn [Engine.agent_results Engine.set_agent_results truthy results_of negb].
  fold (results_of risk forecast sentiment correlation advisory).
  rewrite Hs. reflexivity.
Qed.

(** C3. The reported risk level is the step function of the unified score
    with thresholds 20, 50 and 80 (LOW below 20, MEDIUM from 20, HIGH from
    50, CRITICAL from 80), the boundary scores 20, 50 and 80 give MEDIUM,
    HIGH and CRITICAL, and the risk agent's level function agrees with the
    engine's. *)
Theorem risk_level_is_step_function (s : Qc) (e : ARIONEngine) :
  Spec.is_risk_level s (Engine.get_risk_level (Engine.set_unified_score (Fin s) e))
  /\ Risk._get_risk_level (Fin s)
     = Engine.get_risk_level (Engine.set_unified_score (Fin s) e)
  /\ Engine.get_risk_level (Engine.set_unified_score (num 20) e) = "MEDIUM"
  /\ Engine.get_risk_level (Engine.set_unified_score (num 50) e) = "HIGH"
  /\ Engine.get_risk_level (Engine.set_unified_score (num 80) e) = "CRITICAL".
Proof.
  unfold Engine.get_risk_level, Risk._get_risk_level, Spec.is_risk_level.
  cbn [Engine.unified_score Engine.set_unified_score].
  split; [|split; [reflexivity|by vm_compute]].
  unfold num, frac. float_cases; repeat split; intros; try done; exfalso; qc_lra.
Qed.

End EngineProperties.

(** Closed equalities between results are decided by evaluation. *)
Ltac by_evaluation := apply (bool_decide_eq_true_1 _); vm_compute; reflexivity.

(** ** The risk agent *)

Section RiskProperties.
Context `{Builtins} `{Numpy} `{PandasStats}.

Lemma analyze_symbol_insufficient self st symbol df :
  insufficient df = true -> Risk.analyze_symbol self st (symbol, df) = Return st.
Proof.
  unfold insufficient, Risk.analyze_symbol. intros Hins.
  destruct (DataFrame.empty df || negb (DataFrame.has_column df "Returns")); [done|].
  simpl in Hins. by rewrite Hins.
Qed.

Lemma analyze_loop_insufficient self st (data : MarketData) :
  Forall (fun item => insufficient item.2 = true) data ->
  for_in (Risk.analyze_symbol self) st data = Return st.
Proof.
  intros Hall. revert st. induction Hall as [|[symbol df] data Hdf _ IH]; intros st.
  - reflexivity.
  - cbn [for_in]. rewrite analyze_symbol_insufficient by exact Hdf. apply IH.
Qed.

(** Empty input takes the empty-result path. *)
Lemma risk_analyze_empty self :
  Risk.analyze self [] = (self, Return Risk._empty_result)
  /\ Risk.risk_level Risk._empty_result = "UNKNOWN"
  /\ Risk.overall_risk_score Risk._empty_result = num 0.
Proof. done. Qed.

(** Non-empty input from which no symbol yields a score does not take the
    empty-result path: [analyze] returns and caches a result whose score is
    0 and whose level is the level of 0. *)
Lemma risk_analyze_insufficient self (data : MarketData) :
  data <> [] ->
  Forall (fun item => insufficient item.2 = true) data ->
  exists r,
    Risk.analyze self data = (Risk.set_last_analysis self r, Return r)
    /\ Risk.overall_risk_score r = num 0
    /\ Risk.risk_level r = "LOW"
    /\ Risk.individual_scores r = []
    /\ Risk.alerts r = [].
Proof.
  intros Hne Hall. unfold Risk.analyze.
  destruct data as [|item data]; [done|].
  cbn [truthy negb]. rewrite analyze_loop_insufficient by exact Hall.
  eexists. split; [reflexivity|]. cbn. repeat split; reflexivity.
Qed.

(** C4. On a single symbol with only three return observations [analyze]
    returns: the symbol is skipped and the overall score is 0, but the
    result does not come from the empty-result path: the level is LOW, the
    level of score 0, where the specification has UNKNOWN, and this result
    is cached. *)
Theorem risk_three_returns_is_low_not_unknown (self : Risk.RiskAgent) :
  exists r,
    (Risk.analyze self three_returns).2 = Return r
    /\ Risk.individual_scores r = []
    /\ Risk.overall_risk_score r = num 0
    /\ Risk.risk_level r = "LOW"
    /\ Risk.risk_level r <> Risk.risk_level Risk._empty_result
    /\ Risk.last_analysis (Risk.analyze self three_returns).1 = Some r.
Proof.
  assert (Hins : Forall (fun item : string * DataFrame.t => insufficient item.2 = true)
                   three_returns).
  { repeat constructor. }
  destruct (risk_analyze_insufficient self three_returns ltac:(done) Hins)
    as (r & Hrun & Hscore & Hlevel & Hscores & _).
  exists r. rewrite Hrun, Hlevel. cbn [fst snd]. repeat split; try assumption. done.
Qed.

End RiskProperties.

(** ** The sentiment agent *)

(** The scenario as the specification states it fails: the per-symbol scores
    are 0.8, 0.6 and -0.1 and the overall label is POSITIVE, but the alerts
    are not for the first symbol only, the second symbol (0.6 > 0.5) has a
    POSITIVE_SENTIMENT alert as well. *)
Lemma sentiment_second_symbol_also_alerted :
  Sentiment.individual_scores scenario_result
  = [ ("AAPL", frac 8 10); ("MSFT", frac 6 10); ("GOOGL", frac (-1) 10) ]
  /\ Sentiment.overall_label scenario_result = "POSITIVE"
  /\ ~ (alert_heads (Sentiment.alerts scenario_result)
        = [ (Some "AAPL", "POSITIVE_SENTIMENT", Some "LOW") ])
  /\ (Some "MSFT", "POSITIVE_SENTIMENT", Some "LOW")
       ∈ alert_heads (Sentiment.alerts scenario_result).
Proof.
  split; [by_evaluation|]. split; [by vm_compute|]. split.
  - intros Heq. apply (f_equal length) in Heq. vm_compute in Heq. discriminate.
  - apply (bool_decide_eq_true_1 _). by vm_compute.
Qed.

Section SentimentProperties.
Context `{Builtins} `{Vader}.

(** C5 (amended). When three symbols have the per-symbol average scores 0.8,
    0.6 and -0.1, the overall label is POSITIVE with overall score 13/30
    (about 0.43), and POSITIVE_SENTIMENT alerts of severity LOW are emitted
    for the first and for the second symbol (both above 0.5), and for no
    other symbol. *)
Theorem sentiment_scenario_alerts (self : Sentiment.SentimentAgent)
    (news_data : Sentiment.NewsData) (s1 s2 s3 : string) :
  Sentiment.sentiment_scores (Sentiment.collect news_data)
  = [ (s1, frac 8 10); (s2, frac 6 10); (s3, frac (-1) 10) ] ->
  let r := (Sentiment.analyze self news_data).2 in
  Sentiment.overall_label r = "POSITIVE"
  /\ Sentiment.overall_score r = frac 13 30
  /\ alert_heads (Sentiment.alerts r)
     = [ (Some s1, "POSITIVE_SENTIMENT", Some "LOW");
         (Some s2, "POSITIVE_SENTIMENT", Some "LOW") ].
Proof.
  intros Hscores. unfold Sentiment.analyze.
  destruct news_data as [|item news_data]; [discriminate Hscores|].
  cbn [truthy negb snd]. unfold Sentiment.summarise. rewrite Hscores.
  cbn [truthy]. split; [|split].
  - by vm_compute.
  - apply (bool_decide_eq_true_1 _). by vm_compute.
  - by vm_compute.
Qed.

End SentimentProperties.

(** The scenario is an instance of the amended statement. *)
Lemma sentiment_scenario_alerts_witness :
  Sentiment.sentiment_scores
    (@Sentiment.collect Double.vader scenario_news)
  = [ ("AAPL", frac 8 10); ("MSFT", frac 6 10); ("GOOGL", frac (-1) 10) ]
  /\ alert_heads (Sentiment.alerts scenario_result)
     = [ (Some "AAPL", "POSITIVE_SENTIMENT", Some "LOW");
         (Some "MSFT", "POSITIVE_SENTIMENT", Some "LOW") ].
Proof.
  assert (Hscores :
    Sentiment.sentiment_scores (@Sentiment.collect Double.vader scenario_news)
    = [ ("AAPL", frac 8 10); ("MSFT", frac 6 10); ("GOOGL", frac (-1) 10) ]).
  { apply (bool_decide_eq_true_1 _). vm_compute. reflexivity. }
  split; [exact Hscores|].
  exact (proj2 (proj2 (@sentiment_scenario_alerts Double.builtins Double.vader
                         Sentiment.new scenario_news "AAPL" "MSFT" "GOOGL" Hscores))).
Defined.

(** ** The advisory agent *)

Section AdvisoryProperties.
Context `{Builtins}.

(** The two fields of the advisory result that depend on the inputs only
    through the levels, labels and confidences. *)
Lemma advisory_analyze_fields self risk forecast sentiment correlation :
  let r := (Advisory.analyze self risk forecast sentiment correlation).2 in
  Advisory.overall_recommendation r
  = Advisory._generate_overall_recommendation
      (Risk.risk_level risk) (Forecast.market_sentiment forecast)
      (Sentiment.overall_label sentiment) (Correlation.risk_level correlation)
  /\ Advisory.confidence r
     = np_mean (Advisory.positive_confidences
                  [ Risk.confidence risk; Forecast.confidence forecast;
                    Sentiment.confidence sentiment; Correlation.confidence correlation ])
  /\ Advisory.last_analysis
       (Advisory.analyze self risk forecast sentiment correlation).1 = Some r.
Proof.
  unfold Advisory.analyze.
  destruct (bool_decide (Forecast.market_sentiment forecast = "BEARISH")
            && bool_decide (Sentiment.overall_label sentiment = "NEGATIVE"));
    [|destruct (bool_decide (Forecast.market_sentiment forecast = "BULLISH")
                && bool_decide (Sentiment.overall_label sentiment = "POSITIVE"));
      [|destruct (negb (bool_decide (Forecast.market_sentiment forecast
                                     = Sentiment.overall_label sentiment)))]];
    (destruct (bool_decide (Correlation.risk_level correlation = "HIGH"));
     [|destruct (Correlation.diversification_score correlation >? num 70)%F]);
    repeat split; reflexivity.
Qed.

Lemma generate_overall_recommendation_table risk forecast sentiment corr_risk :
  Advisory._generate_overall_recommendation risk forecast sentiment corr_risk
  = Spec.overall_recommendation risk forecast sentiment.
Proof. reflexivity. Qed.

(** C7. For every combination of risk level, forecast market sentiment,
    sentiment label and correlation risk, the overall recommendation of the
    advisory agent is the outcome of the first matching row of the decision
    table, MAINTAIN_CURRENT_STRATEGY when no row matches. *)
Theorem overall_recommendation_is_first_match (self : Advisory.AdvisoryAgent)
    (risk : Risk.result) (forecast : Forecast.result)
    (sentiment : Sentiment.result) (correlation : Correlation.result) :
  Advisory.overall_recommendation
    (Advisory.analyze self risk forecast sentiment correlation).2
  = Spec.first_match Spec.decision_table "MAINTAIN_CURRENT_STRATEGY"
      (Risk.risk_level risk) (Forecast.market_sentiment forecast)
      (Sentiment.overall_label sentiment).
Proof.
  destruct (advisory_analyze_fields self risk forecast sentiment correlation)
    as (Hrec & _ & _).
  rewrite Hrec. apply generate_overall_recommendation_table.
Qed.

(** The rows of the table, read one by one. *)
Lemma decision_table_rows (risk forecast sentiment : string) :
  (risk = "CRITICAL" ->
   Spec.overall_recommendation risk forecast sentiment = "REDUCE_RISK_IMMEDIATELY")
  /\ (risk = "HIGH" -> forecast = "BEARISH" \/ sentiment = "NEGATIVE" ->
      Spec.overall_recommendation risk forecast sentiment = "DEFENSIVE_STANCE")
  /\ (risk = "HIGH" -> forecast <> "BEARISH" -> sentiment <> "NEGATIVE" ->
      Spec.overall_recommendation risk forecast sentiment = "MONITOR_CLOSELY")
  /\ (risk = "MEDIUM" -> forecast = "BEARISH" -> sentiment = "NEGATIVE" ->
      Spec.overall_recommendation risk forecast sentiment = "CAUTIOUS_APPROACH")
  /\ (risk = "LOW" -> forecast = "BULLISH" -> sentiment = "POSITIVE" ->
      Spec.overall_recommendation risk forecast sentiment = "FAVORABLE_CONDITIONS").
Proof.
  unfold Spec.overall_recommendation. cbn [Spec.first_match Spec.decision_table].
  split; [by intros ->|].
  split; [intros -> [-> | ->]; repeat case_bool_decide; done|].
  split; [intros -> Hf Hs; repeat case_bool_decide; done|].
  split; [by intros -> -> ->|by intros -> -> ->].
Qed.

Lemma positive_confidences_nonzero (cs : list pyfloat) :
  Forall valid_confidence cs ->
  Advisory.positive_confidences cs = filter (fun c => c <> num 0) cs.
Proof.
  unfold Advisory.positive_confidences.
  induction 1 as [|c cs (q & -> & Hq0 & Hq1) _ IH]; [done|].
  rewrite !filter_cons, IH.
  assert (Hiff : (Fin q >? num 0)%F = true <-> Fin q <> num 0).
  { unfold fgt, num, frac. rewrite flt_spec. split.
    - intros Hlt Heq. injection Heq as ->. by apply Qclt_not_eq in Hlt.
    - intros Hne. apply Qcle_lt_or_eq in Hq0 as [Hlt | Heq]; [done|].
      exfalso. apply Hne. by rewrite <- Heq. }
  repeat case_decide; tauto.
Qed.

(** Whenever some input confidence is not zero, the advisory confidence is
    the mean of the non-zero input confidences. *)
Lemma advisory_confidence_some_nonzero self risk forecast sentiment correlation :
  let cs := [ Risk.confidence risk; Forecast.confidence forecast;
              Sentiment.confidence sentiment; Correlation.confidence correlation ] in
  Forall valid_confidence cs ->
  Exists (fun c => c <> num 0) cs ->
  Advisory.confidence (Advisory.analyze self risk forecast sentiment correlation).2
  = Spec.confidence cs.
Proof.
  intros cs Hvalid Hsome.
  destruct (advisory_analyze_fields self risk forecast sentiment correlation)
    as (_ & Hconf & _).
  rewrite Hconf. fold cs. rewrite positive_confidences_nonzero by exact Hvalid.
  unfold Spec.confidence.
  destruct (filter (fun c => c <> num 0) cs) eqn:Hkept; [|reflexivity].
  exfalso. apply Exists_exists in Hsome as (c & Hin & Hc).
  exact (filter_nil_not_elem_of _ _ c Hkept Hc Hin).
Qed.

(** C6. When the four input confidences are all zero, as for the four empty
    results, the list that enters the mean is empty and the advisory
    confidence is NaN, where the specification has 0. *)
Theorem advisory_confidence_all_zero_is_nan (self : Advisory.AdvisoryAgent) :
  let r := (Advisory.analyze self Risk._empty_result Forecast._empty_result
              Sentiment._empty_result Correlation._empty_result).2 in
  Advisory.confidence r = NaN
  /\ Spec.confidence
       [ Risk.confidence Risk._empty_result;
         Forecast.confidence Forecast._empty_result;
         Sentiment.confidence Sentiment._empty_result;
         Correlation.confidence Correlation._empty_result ] = num 0
  /\ Advisory.return_confidence
       (Advisory.analyze self Risk._empty_result Forecast._empty_result
          Sentiment._empty_result Correlation._empty_result).1 = NaN.
Proof.
  destruct (advisory_analyze_fields self Risk._empty_result Forecast._empty_result
              Sentiment._empty_result Correlation._empty_result)
    as (_ & Hconf & Hlast).
  cbv zeta. unfold Advisory.return_confidence. rewrite Hlast, Hconf.
  split; [by vm_compute|]. split; [by vm_compute|by vm_compute].
Qed.

End AdvisoryProperties.

(** ** Stable sorting *)

Section SortProperties.
Context {A : Type} (key : A -> nat).

Lemma insert_Permutation (x : A) (l : list A) : PySort.insert key x l ≡ₚ x :: l.
Proof.
  induction l as [|y l IH]; [done|].
  cbn [PySort.insert]. case_bool_decide; [done|].
  rewrite IH. apply Permutation_swap.
Qed.

Lemma sorted_Permutation (l : list A) : PySort.sorted key l ≡ₚ l.
Proof.
  induction l as [|x l IH]; [done|].
  cbn [PySort.sorted foldr]. rewrite insert_Permutation. by constructor.
Qed.

Lemma sorted_length (l : list A) : length (PySort.sorted key l) = length l.
Proof. by rewrite sorted_Permutation. Qed.

Lemma insert_StronglySorted (x : A) (l : list A) :
  StronglySorted (PySort.key_le key) l -> StronglySorted (PySort.key_le key) (PySort.insert key x l).
Proof.
  induction 1 as [|y l Hsorted IH Hy]; cbn [PySort.insert].
  - repeat constructor.
  - case_bool_decide as Hxy.
    + constructor; [by constructor|].
      constructor; [exact Hxy|].
      eapply Forall_impl; [exact Hy|]. unfold PySort.key_le. intros z Hz. lia.
    + constructor; [exact IH|].
      rewrite insert_Permutation. constructor; [|exact Hy]. unfold PySort.key_le. lia.
Qed.

Lemma sorted_StronglySorted (l : list A) :
  StronglySorted (PySort.key_le key) (PySort.sorted key l).
Proof.
  induction l as [|x l IH]; [constructor|].
  cbn [PySort.sorted foldr]. by apply insert_StronglySorted.
Qed.

(** Stability: the elements of one key keep their order. *)
Lemma insert_filter_key (k : nat) (x : A) (l : list A) :
  filter (fun a => key a = k) (PySort.insert key x l)
  = filter (fun a => key a = k) (x :: l).
Proof.
  induction l as [|y l IH]; [done|].
  cbn [PySort.insert]. case_bool_decide as Hxy; [done|].
  rewrite filter_cons, IH, !filter_cons.
  repeat case_decide; try done. lia.
Qed.

Lemma sorted_filter_key (k : nat) (l : list A) :
  filter (fun a => key a = k) (PySort.sorted key l) = filter (fun a => key a = k) l.
Proof.
  induction l as [|x l IH]; [done|].
  cbn [PySort.sorted foldr]. rewrite insert_filter_key, !filter_cons.
  fold (PySort.sorted key l). by rewrite IH.
Qed.

End SortProperties.

Lemma StronglySorted_weaken {A} (R R' : A -> A -> Prop) (l : list A) :
  (forall a b, R a b -> R' a b) -> StronglySorted R l -> StronglySorted R' l.
Proof.
  intros Himpl. induction 1 as [|x l _ IH Hx]; constructor; [exact IH|].
  eapply Forall_impl; [exact Hx|]. intros y. apply Himpl.
Qed.

Lemma StronglySorted_weaken_on {A} (P : A -> Prop) (R R' : A -> A -> Prop)
    (l : list A) :
  (forall a b, P a -> P b -> R a b -> R' a b) ->
  Forall P l -> StronglySorted R l -> StronglySorted R' l.
Proof.
  intros Himpl HP. induction 1 as [|x l _ IH Hx]; [constructor|].
  apply Forall_cons in HP as [Px Pl]. constructor; [by apply IH|].
  rewrite Forall_forall in Hx, Pl. apply Forall_forall. intros y Hy.
  apply Himpl; [exact Px|by apply Pl|by apply Hx].
Qed.

(** The rank table of the code is the amended ranking. *)
Lemma rank_table_lookup (s : string) :
  default 3%nat (PySort.rank_table !! s) = Spec.amended_severity_rank s.
Proof.
  unfold PySort.rank_table, Spec.amended_severity_rank.
  repeat case_decide; simplify_map_eq; try done.
  destruct (decide (s = "LOW")); simplify_map_eq; done.
Qed.

Lemma severity_key_rank (a : Alert.t) :
  Engine.severity_key a
  = Spec.amended_severity_rank (default "LOW" (Alert.severity a)).
Proof. apply rank_table_lookup. Qed.

(** On the four severities of the ranking the amended ranking is the
    ranking of the specification. *)
Lemma known_severity_rank (s : string) :
  Spec.known_severity s -> Spec.amended_severity_rank s = Spec.severity_rank s.
Proof.
  unfold Spec.known_severity, Spec.amended_severity_rank, Spec.severity_rank.
  intros Hs. repeat case_decide; try done.
  repeat (apply elem_of_cons in Hs as [Hs | Hs]; [done|]).
  by apply elem_of_nil in Hs.
Qed.

(** In a list sorted by the amended rank, whatever follows an alert of the
    last rank has the last rank: no CRITICAL, HIGH or MEDIUM alert comes
    after an alert of unrecognised severity. *)
Lemma last_rank_sorts_last (before after : list Alert.t) (a : Alert.t) :
  Spec.sorted_by_amended_rank (before ++ a :: after) ->
  Spec.amended_severity_rank (default "LOW" (Alert.severity a)) = 3%nat ->
  Forall (fun b => Spec.amended_severity_rank (default "LOW" (Alert.severity b))
                   = 3%nat) after.
Proof.
  unfold Spec.sorted_by_amended_rank. intros Hsorted Ha.
  apply StronglySorted_app in Hsorted as (_ & _ & Hsorted).
  apply StronglySorted_cons in Hsorted as [Hafter _].
  eapply Forall_impl; [exact Hafter|]. cbn beta. intros b Hb.
  assert (Hle : (Spec.amended_severity_rank (default "LOW" (Alert.severity b))
                 <= 3)%nat).
  { unfold Spec.amended_severity_rank. repeat case_decide; lia. }
  lia.
Qed.

(** An unrecognised severity ties with LOW: the sort is stable, so of two
    such alerts the one that came first stays first. *)
Example unknown_severity_ties_with_low :
  Alert.severity
    <$> PySort.sorted Engine.severity_key
          [ Alert.mk None "A" (Some "NOTICE") "" NaN None;
            Alert.mk None "B" (Some "LOW") "" NaN None;
            Alert.mk None "C" (Some "HIGH") "" NaN None;
            Alert.mk None "D" None "" NaN None;
            Alert.mk None "E" (Some "CRITICAL") "" NaN None ]
  = [ Some "CRITICAL"; Some "HIGH"; Some "NOTICE"; Some "LOW"; None ].
Proof. by vm_compute. Qed.

(** ** Merging the alerts *)

Section MergeProperties.
Context {RiskAgent ForecastAgent SentimentAgent CorrelationAgent AdvisoryAgent : Type}.
Context `{DataFetcher}.

Abbreviation ARIONEngine' :=
  (@Engine.ARIONEngine RiskAgent ForecastAgent SentimentAgent CorrelationAgent
     AdvisoryAgent _).

Lemma stamped_alerts_from_named_agent risk sentiment correlation a :
  a ∈ stamped_alerts risk sentiment correlation ->
  from_named_agent risk sentiment correlation a.
Proof.
  unfold stamped_alerts, from_named_agent. rewrite !elem_of_app, !list_elem_of_fmap.
  intros [(a0 & -> & Hin) | [(a0 & -> & Hin) | (a0 & -> & Hin)]].
  - exists "risk", (Risk.alerts risk), a0. set_solver.
  - exists "sentiment", (Sentiment.alerts sentiment), a0. set_solver.
  - exists "correlation", (Correlation.alerts correlation), a0. set_solver.
Qed.

Lemma collected_from_results risk forecast sentiment correlation advisory :
  concat (Engine.collected_from
            <$> results_of risk forecast sentiment correlation advisory)
  = stamped_alerts risk sentiment correlation.
Proof.
  unfold results_of, stamped_alerts. cbn. by rewrite !app_nil_r.
Qed.

(** C2 (amended). For every five agent results stored by [run_all_agents],
    the merged list returned by [get_all_alerts] consists of exactly the
    alerts of the risk, sentiment and correlation lists (the forecast
    result has no list and the advisory result contributes none), each
    stamped with the name of its agent; its length is the sum of the
    lengths of the base lists; it is sorted by the rank CRITICAL, HIGH,
    MEDIUM, LOW, any other severity sharing the rank of LOW; alerts of one
    rank keep the order of the concatenation; and when every severity is
    one of the four, the list is sorted by the ranking of the
    specification. *)
Theorem all_alerts_sorted_concatenation
    (risk : Risk.result) (forecast : Forecast.result) (sentiment : Sentiment.result)
    (correlation : Correlation.result) (advisory : Advisory.result)
    (e : ARIONEngine') :
  let results := results_of risk forecast sentiment correlation advisory in
  let e0 := Engine.set_agent_results results e in
  exists merged,
    Engine.get_all_alerts e0
    = (Engine.set_agent_results (Engine.stamped <$> results) e0, Return merged)
    /\ merged ≡ₚ stamped_alerts risk sentiment correlation
    /\ length merged
       = (length (Risk.alerts risk) + length (Sentiment.alerts sentiment)
          + length (Correlation.alerts correlation))%nat
    /\ Forall (from_named_agent risk sentiment correlation) merged
    /\ Spec.sorted_by_amended_rank merged
    /\ (forall k,
          filter (fun a => Engine.severity_key a = k) merged
          = filter (fun a => Engine.severity_key a = k)
              (stamped_alerts risk sentiment correlation))
    /\ (Forall (fun a => Spec.known_severity (default "LOW" (Alert.severity a)))
               merged ->
        Spec.sorted_by_severity merged).
Proof.
  intros results e0.
  exists (PySort.sorted Engine.severity_key (stamped_alerts risk sentiment correlation)).
  assert (Hsorted : Spec.sorted_by_amended_rank
                      (PySort.sorted Engine.severity_key
                         (stamped_alerts risk sentiment correlation))).
  { unfold Spec.sorted_by_amended_rank.
    eapply StronglySorted_weaken; [|apply (sorted_StronglySorted Engine.severity_key)].
    intros a b. unfold PySort.key_le. by rewrite !severity_key_rank. }
  split; [|split; [|split; [|split; [|split; [|split]]]]].
  - unfold Engine.get_all_alerts, Engine.all_alerts_of.
    subst e0 results.
    by rewrite <- (collected_from_results risk forecast sentiment correlation advisory).
  - apply sorted_Permutation.
  - rewrite sorted_length. unfold stamped_alerts.
    rewrite !length_app, !length_fmap. lia.
  - apply Forall_forall. intros a Ha. apply stamped_alerts_from_named_agent.
    by rewrite sorted_Permutation in Ha.
  - exact Hsorted.
  - intros k. apply sorted_filter_key.
  - intros Hknown. unfold Spec.sorted_by_severity.
    eapply StronglySorted_weaken_on; [|exact Hknown|exact Hsorted].
    intros a b Ha Hb. cbn beta.
    by rewrite (known_severity_rank _ Ha), (known_severity_rank _ Hb).
Qed.

End MergeProperties.

(** C2 as stated fails. With a risk alert of the severity NOTICE and a
    sentiment alert of the severity LOW among the agent results,
    [get_all_alerts] returns the NOTICE alert before the LOW alert: an
    unrecognised severity does not sort last, it shares the rank of LOW
    and keeps its place in the concatenation. *)
Lemma unknown_severity_precedes_low :
  exists merged,
    (Engine.get_all_alerts
       (Engine.set_agent_results notice_and_low short_history_engine)).2
    = Return merged
    /\ Alert.severity <$> merged = [Some "NOTICE"; Some "LOW"]
    /\ Alert.source <$> merged = [Some "risk"; Some "sentiment"]
    /\ ~ Spec.sorted_by_severity merged.
Proof.
  eexists. split; [by vm_compute|]. split; [done|]. split; [done|].
  unfold Spec.sorted_by_severity. intros Hsorted.
  apply StronglySorted_cons in Hsorted as [Hhead _].
  apply Forall_cons in Hhead as [Hle _].
  vm_compute in Hle. lia.
Qed.

(** ** Exceptions raised by an agent *)

Ltac unfold_M :=
  unfold mbind, M_bind, bind, mret, M_ret, ret, get_self, put_self, lift_outcome,
    Engine.assign, Engine.call, raise, try_except in *.

Section PropagationProperties.
Context {RiskAgent ForecastAgent SentimentAgent CorrelationAgent AdvisoryAgent : Type}.
Context `{!Analyzer RiskAgent MarketData Risk.result}.
Context `{!Analyzer ForecastAgent MarketData Forecast.result}.
Context `{!Analyzer SentimentAgent Sentiment.NewsData Sentiment.result}.
Context `{!Analyzer CorrelationAgent MarketData Correlation.result}.
Context `{!Analyzer AdvisoryAgent
            (Risk.result * Forecast.result * Sentiment.result * Correlation.result)
            Advisory.result}.
Context `{DataFetcher}.

Abbreviation ARIONEngine'' :=
  (@Engine.ARIONEngine RiskAgent ForecastAgent SentimentAgent CorrelationAgent
     AdvisoryAgent _).

Lemma run_all_agents_raises (e e' : ARIONEngine'') (ex : exn) :
  base_agent_raises e ex e' -> Engine.run_all_agents e = (e', Raise ex).
Proof.
  unfold Engine.run_all_agents.
  intros [ra Hr | ra r fa Hr Hf | ra r fa f sa Hr Hf Hs
          | ra r fa f sa s ca Hr Hf Hs Hc]; unfold_M.
  - by rewrite Hr.
  - rewrite Hr. cbn. by rewrite Hf.
  - rewrite Hr. cbn. rewrite Hf. cbn. by rewrite Hs.
  - rewrite Hr. cbn. rewrite Hf. cbn. rewrite Hs. cbn. by rewrite Hc.
Qed.

(** When every agent returns, [run_all_agents] stores the five results
    under the five agent names, in this order, and leaves the data and the
    score as they were. *)
Lemma run_all_agents_returns (e e' : ARIONEngine'') (results : pydict Engine.agent_result) :
  Engine.run_all_agents e = (e', Return results) ->
  exists risk forecast sentiment correlation advisory,
    results = results_of risk forecast sentiment correlation advisory
    /\ Engine.agent_results e' = results
    /\ Engine.market_data e' = Engine.market_data e
    /\ Engine.unified_score e' = Engine.unified_score e
    /\ Engine.symbols e' = Engine.symbols e
    /\ Engine.current_prices e' = Engine.current_prices e.
Proof.
  unfold Engine.run_all_agents. unfold_M.
  destruct (agent_analyze (Engine.market_data e) (Engine.risk_agent e))
    as [ra [risk|?]] eqn:Hr; cbn; [|discriminate].
  destruct (agent_analyze (Engine.market_data e) (Engine.forecast_agent e))
    as [fa [forecast|?]] eqn:Hf; cbn; [|discriminate].
  destruct (agent_analyze (Engine.news_data e) (Engine.sentiment_agent e))
    as [sa [sentiment|?]] eqn:Hs; cbn; [|discriminate].
  destruct (agent_analyze (Engine.market_data e) (Engine.correlation_agent e))
    as [ca [correlation|?]] eqn:Hc; cbn; [|discriminate].
  destruct (agent_analyze (risk, forecast, sentiment, correlation)
              (Engine.advisory_agent e))
    as [aa [advisory|?]] eqn:Ha; cbn; [|discriminate].
  intros [= <- <-]. by exists risk, forecast, sentiment, correlation, advisory.
Qed.

(** A run in which the data is fetched, every agent returns and the
    portfolio metrics are computed returns a summary: its score is the
    weighted combination of the stored results, its level the level of that
    score, its alerts the merged alerts of the stored results. *)
Lemma run_returns_summary (period : string) (e0 e1 e2 : ARIONEngine'')
    (results : pydict Engine.agent_result) (metrics : pydict pyfloat) :
  Engine.fetch_all_data period e0 = (e1, Return true) ->
  Engine.run_all_agents e1 = (e2, Return results) ->
  calculate_portfolio_metrics (Engine.market_data e1) = Return metrics ->
  exists e3 summary score,
    Engine.run period e0 = (e3, Return (Some summary))
    /\ Engine.unified_score_of results = Return score
    /\ Engine.sum_unified_risk_score summary = score
    /\ Engine.sum_risk_level summary
       = Engine.get_risk_level (Engine.set_unified_score score e2)
    /\ Engine.sum_all_alerts summary = Engine.all_alerts_of results
    /\ Engine.sum_agent_results summary = Engine.stamped <$> results
    /\ Engine.sum_portfolio_metrics summary = metrics.
Proof.
  intros Hfetch Hrun Hmetrics.
  destruct (run_all_agents_returns e1 e2 results Hrun)
    as (risk & forecast & sentiment & correlation & advisory
        & -> & Hres & Hmd & _ & _ & _).
  destruct (unified_score_of_results risk forecast sentiment correlation advisory)
    as (score & Hscore & _).
  unfold Engine.run.
  unfold mbind at 1, M_bind at 1, bind at 1. rewrite Hfetch. cbn [negb].
  unfold mbind at 1, M_bind at 1, bind at 1. rewrite Hrun.
  unfold Engine.calculate_unified_risk_score, Engine.get_summary,
    Engine.get_all_alerts.
  unfold_M. rewrite Hres. cbn [truthy results_of negb].
  fold (results_of risk forecast sentiment correlation advisory).
  rewrite Hscore.
  cbn [Engine.agent_results Engine.set_unified_score Engine.set_agent_results
       Engine.market_data truthy results_of negb fmap list_fmap].
  rewrite Hres. cbn [truthy results_of negb].
  rewrite Hmd, Hmetrics.
  do 3 eexists. split; [reflexivity|]. by repeat split.
Qed.

Lemma base_agent_raises_keeps_results (e e' : ARIONEngine'') (ex : exn) :
  base_agent_raises e ex e' ->
  Engine.agent_results e' = Engine.agent_results e
  /\ Engine.unified_score e' = Engine.unified_score e
  /\ Engine.advisory_agent e' = Engine.advisory_agent e.
Proof. by intros []. Qed.

Lemma run_raises (period : string) (e0 e e' : ARIONEngine'') (ex : exn) :
  Engine.fetch_all_data period e0 = (e, Return true) ->
  Engine.run_all_agents e = (e', Raise ex) ->
  Engine.run period e0 = (e', Raise ex).
Proof.
  intros Hfetch Hrun. unfold Engine.run.
  unfold mbind at 1, M_bind at 1, bind at 1. rewrite Hfetch. cbn [negb].
  unfold mbind at 1, M_bind at 1, bind at 1. by rewrite Hrun.
Qed.

(** The four empty results are scored without an exception: an UNKNOWN
    forecast counts 50, the NEUTRAL sentiment 50 and an UNKNOWN correlation
    risk 25, which with the risk score 0 gives 25. *)
Lemma unified_score_of_empty_results (advisory : Advisory.result) :
  Engine.unified_score_of
    (results_of Risk._empty_result Forecast._empty_result Sentiment._empty_result
       Correlation._empty_result advisory)
  = Return (num 25).
Proof.
  assert (Hany : forall a b : Advisory.result,
            Engine.unified_score_of
              (results_of Risk._empty_result Forecast._empty_result
                 Sentiment._empty_result Correlation._empty_result a)
            = Engine.unified_score_of
                (results_of Risk._empty_result Forecast._empty_result
                   Sentiment._empty_result Correlation._empty_result b)) by done.
  rewrite (Hany advisory (Advisory.mk_result "" [] [] [] NaN "")).
  apply (bool_decide_eq_true_1 _). by vm_compute.
Qed.

(** C8 (amended). An exception raised inside a base agent's [analyze] during
    [run_all_agents] is not caught by the engine: [run_all_agents] raises it,
    and so does [run] after a successful fetch; the stored agent results,
    the unified score and the advisory agent are left as they were, so no
    sentinel result is substituted and neither the advisory nor the
    unified-score stage takes place.  The results that the agents return
    themselves are scored without an exception, whatever they are: a
    forecast whose market sentiment is UNKNOWN counts 50 in the weighted
    sum, a correlation result whose risk level is UNKNOWN counts 25, and
    the four empty results together give the score 25. *)
Theorem agent_exception_propagates (period : string) (e0 e e' : ARIONEngine'')
    (ex : exn) (advisory : Advisory.result) :
  Engine.fetch_all_data period e0 = (e, Return true) ->
  base_agent_raises e ex e' ->
  Engine.run_all_agents e = (e', Raise ex)
  /\ Engine.run period e0 = (e', Raise ex)
  /\ Engine.agent_results e' = Engine.agent_results e
  /\ Engine.unified_score e' = Engine.unified_score e
  /\ Engine.advisory_agent e' = Engine.advisory_agent e
  /\ (forall risk forecast sentiment correlation,
        Forecast.market_sentiment forecast = "UNKNOWN" ->
        Engine.unified_score_of
          (results_of risk forecast sentiment correlation advisory)
        = Return
            (py_min (num 100)
               (py_max (num 0)
                  (Risk.overall_risk_score risk * frac 40 100
                   + num 50 * frac 20 100
                   + Spec.sentiment_score (Sentiment.overall_label sentiment)
                       (Sentiment.overall_score sentiment) * frac 20 100
                   + Spec.correlation_score (Correlation.risk_level correlation)
                     * frac 20 100)%F)))
  /\ (forall risk forecast sentiment correlation,
        Correlation.risk_level correlation = "UNKNOWN" ->
        Engine.unified_score_of
          (results_of risk forecast sentiment correlation advisory)
        = Return
            (py_min (num 100)
               (py_max (num 0)
                  (Risk.overall_risk_score risk * frac 40 100
                   + Spec.forecast_score (Forecast.market_sentiment forecast)
                     * frac 20 100
                   + Spec.sentiment_score (Sentiment.overall_label sentiment)
                       (Sentiment.overall_score sentiment) * frac 20 100
                   + num 25 * frac 20 100)%F)))
  /\ Engine.unified_score_of
       (results_of Risk._empty_result Forecast._empty_result Sentiment._empty_result
          Correlation._empty_result advisory)
     = Return (num 25).
Proof.
  intros Hfetch Hraises.
  pose proof (run_all_agents_raises e e' ex Hraises) as Hrun.
  destruct (base_agent_raises_keeps_results e e' ex Hraises) as (Hres & Hscore & Hadv).
  split; [exact Hrun|]. split; [by eapply run_raises|].
  repeat (split; [assumption|]).
  split; [|split; [|apply unified_score_of_empty_results]].
  - intros risk forecast sentiment correlation Hunknown.
    rewrite unified_score_of_formula. unfold Spec.weighted_sum.
    by rewrite Hunknown.
  - intros risk forecast sentiment correlation Hunknown.
    rewrite unified_score_of_formula. unfold Spec.weighted_sum.
    by rewrite Hunknown.
Qed.

End PropagationProperties.

(** The engine whose risk agent raises. *)
Section FaultyEngine.
#[local] Existing Instance Double.builtins.
#[local] Existing Instance Double.numpy.
#[local] Existing Instance Double.pandas_stats.
#[local] Existing Instance Double.vader.
#[local] Existing Instance Double.sklearn.
#[local] Existing Instance Double.feature_pipeline.
#[local] Existing Instance Double.pandas_frame.
#[local] Existing Instance Double.faulty_risk.
#[local] Existing Instance Agents.risk.
#[local] Existing Instance Agents.forecast.
#[local] Existing Instance Agents.sentiment.
#[local] Existing Instance Agents.correlation.
#[local] Existing Instance Agents.advisory.

(** The degradation that the specification describes does not happen: when
    the risk agent raises, [run] does not return a summary in which the risk
    agent's contribution is its empty result; it raises the agent's
    exception and stores no result at all. *)
Lemma faulty_risk_agent_aborts_run :
  (Engine.run "3mo" faulty_engine).2 = Raise (Exception "risk agent failed")
  /\ Engine.agent_results (Engine.run "3mo" faulty_engine).1 = []
  /\ ~ (exists e' summary,
          Engine.run "3mo" faulty_engine = (e', Return (Some summary))
          /\ dict_get (Engine.sum_agent_results summary) "risk"
             = Some (Engine.RiskResult Risk._empty_result)).
Proof.
  assert (Hout : (Engine.run "3mo" faulty_engine).2
                 = Raise (Exception "risk agent failed")) by (by vm_compute).
  split; [exact Hout|]. split; [by vm_compute|].
  intros (e' & summary & Hrun & _). rewrite Hrun in Hout. discriminate Hout.
Qed.

Lemma agent_exception_propagates_witness :
  Engine.fetch_all_data "3mo" faulty_engine = (fetched_engine, Return true)
  /\ base_agent_raises fetched_engine (Exception "risk agent failed")
       (Engine.set_risk_agent tt fetched_engine)
  /\ Engine.run "3mo" faulty_engine
     = (Engine.set_risk_agent tt fetched_engine,
        Raise (Exception "risk agent failed")).
Proof.
  assert (Hfetch : Engine.fetch_all_data "3mo" faulty_engine
                   = (fetched_engine, Return true)) by (by vm_compute).
  assert (Hraises : base_agent_raises fetched_engine (Exception "risk agent failed")
                      (Engine.set_risk_agent tt fetched_engine))
    by (by apply risk_raises).
  split; [exact Hfetch|]. split; [exact Hraises|].
  exact (proj1 (proj2 (agent_exception_propagates "3mo" faulty_engine fetched_engine
                         (Engine.set_risk_agent tt fetched_engine)
                         (Exception "risk agent failed")
                         (Advisory.mk_result "" [] [] [] NaN "") Hfetch Hraises))).
Defined.

(** On four rows per symbol the whole pipeline runs: the risk agent reports
    LOW on no score at all, the unified score is 25, hence MEDIUM, and the
    advisory confidence is NaN. *)
Example short_history_run_summary :
  match short_history_run.2 with
  | Return (Some summary) =>
      bool_decide (Engine.sum_unified_risk_score summary = num 25)
      && bool_decide (Engine.sum_risk_level summary = "MEDIUM")
      && bool_decide (Engine.key_risk_level
                        <$> dict_get (Engine.sum_agent_results summary) "risk"
                      = Some (Some "LOW"))
      && bool_decide (advisory_confidence_of (Engine.sum_agent_results summary)
                      = Some NaN)
  | _ => false
  end = true.
Proof. by vm_compute. Qed.

(** With a repeated date in one frame the correlation agent raises while it
    joins the return series, and so does the run: nothing is stored. *)
Example duplicate_date_run_raises :
  duplicate_date_run.2
  = Raise (ValueError "cannot reindex on an axis with duplicate labels")
  /\ Engine.agent_results duplicate_date_run.1 = []
  /\ Risk.return_signal (Engine.risk_agent duplicate_date_run.1) <> "NO_DATA".
Proof. split; [by vm_compute|]. split; by vm_compute. Qed.

End FaultyEngine.

(** ** The forecast agent *)

Section ForecastProperties.
Context `{Sklearn} `{FeaturePipeline}.

Lemma forecast_symbol_fault self df :
  symbol_fault self df -> exists ex, Forecast.forecast_symbol self df = Raise ex.
Proof.
  unfold Forecast.forecast_symbol.
  intros [(ex & Hprep) | (features_df & ex & Hprep & Hempty & Htrain)];
    exists ex; rewrite Hprep; unfold mbind, outcome_bind; [done|].
  by rewrite Hempty, Htrain.
Qed.

Lemma analyze_symbol_fault self st symbol df :
  symbol_fault self df -> Forecast.analyze_symbol self st (symbol, df) = st.
Proof.
  intros (ex & Hfault)%forecast_symbol_fault. unfold Forecast.analyze_symbol.
  rewrite Hfault. by destruct (_ || _).
Qed.

Lemma analyze_loop_fault self st (before after : MarketData) symbol df :
  symbol_fault self df ->
  foldl (Forecast.analyze_symbol self) st (before ++ (symbol, df) :: after)
  = foldl (Forecast.analyze_symbol self) st (before ++ after).
Proof.
  intros Hfault. rewrite !foldl_app. cbn [foldl].
  by rewrite analyze_symbol_fault.
Qed.

(** The result of a batch without forecasts is the empty result. *)
Lemma analyze_no_forecasts self (data : MarketData) :
  Forecast.l_forecasts
    (foldl (Forecast.analyze_symbol self)
           (Forecast.mk_locals [] [] []) data) = [] ->
  Forecast.confidences
    (foldl (Forecast.analyze_symbol self)
           (Forecast.mk_locals [] [] []) data) = [] ->
  (Forecast.analyze self data).2 = Forecast._empty_result.
Proof.
  intros Hf Hc. unfold Forecast.analyze. destruct data; [done|].
  cbn [truthy negb]. by rewrite Hf, Hc.
Qed.

(** C9. An exception raised for one symbol while its features are prepared
    or its model is fitted or asked to predict does not abort the batch:
    [analyze] returns, and its result is the result of the batch without
    that symbol. *)
Theorem forecast_fault_skips_symbol (self : Forecast.ForecastAgent)
    (before after : MarketData) (symbol : string) (df : DataFrame.t) :
  symbol_fault self df ->
  (Forecast.analyze self (before ++ (symbol, df) :: after)).2
  = (Forecast.analyze self (before ++ after)).2.
Proof.
  intros Hfault.
  destruct (before ++ after) as [|item rest] eqn:Hrest.
  - apply app_eq_nil in Hrest as [-> ->]. unfold Forecast.analyze.
    cbn [app truthy negb foldl]. rewrite analyze_symbol_fault by exact Hfault.
    reflexivity.
  - unfold Forecast.analyze.
    assert (Hne : truthy (before ++ (symbol, df) :: after) = true)
      by (by destruct before).
    rewrite Hne. cbn [truthy negb].
    rewrite analyze_loop_fault by exact Hfault. by rewrite Hrest.
Qed.

End ForecastProperties.

Lemma forecast_fault_skips_symbol_witness :
  @symbol_fault Double.sklearn Double.feature_pipeline Forecast.new no_close
  /\ (@Forecast.analyze Double.sklearn Double.feature_pipeline Forecast.new
        ([] ++ ("TSLA", no_close) :: [("AAPL", forty_rows)])).2
     = (@Forecast.analyze Double.sklearn Double.feature_pipeline Forecast.new
          ([] ++ [("AAPL", forty_rows)])).2.
Proof.
  assert (Hfault : @symbol_fault Double.sklearn Double.feature_pipeline
                     Forecast.new no_close).
  { left. exists (KeyError "Close"). reflexivity. }
  split; [exact Hfault|].
  exact (@forecast_fault_skips_symbol Double.sklearn Double.feature_pipeline
           Forecast.new [] [("AAPL", forty_rows)] "TSLA" no_close Hfault).
Defined.

(** The remaining symbol of that batch is forecast. *)
Example forecast_batch_keeps_other_symbol :
  let r := (@Forecast.analyze Double.sklearn Double.feature_pipeline Forecast.new
              [("TSLA", no_close); ("AAPL", forty_rows)]).2 in
  (Forecast.forecasts r).*1 = ["AAPL"]
  /\ Forecast.market_sentiment r = "BULLISH".
Proof. by vm_compute. Qed.

(** ** Repeated analysis *)

Section RepeatedAnalysis.
Context `{Builtins} `{Numpy} `{PandasStats} `{Vader} `{SklearnRandom}
        `{FeaturePipeline} `{PandasFrame}.

(** What an agent remembers of its last analysis has no part in the next
    one: the result depends on the thresholds and on the input. *)
Lemma risk_result_ignores_cache (self : Risk.RiskAgent) (cache : option Risk.result)
    (data : MarketData) :
  (Risk.analyze
     (Risk.mk_agent (Risk.volatility_threshold self) (Risk.drawdown_threshold self) cache)
     data).2
  = (Risk.analyze self data).2.
Proof.
  destruct self as [vt dt c]. unfold Risk.analyze. destruct data; [done|].
  cbn [truthy negb Risk.volatility_threshold Risk.drawdown_threshold].
  change (Risk.analyze_symbol (Risk.mk_agent vt dt cache))
    with (Risk.analyze_symbol (Risk.mk_agent vt dt c)).
  by destruct (for_in _ _ _).
Qed.

Lemma forecast_result_ignores_cache (g : rng_state) (self : Forecast.ForecastAgent)
    (cache : option Forecast.result) (data : MarketData) :
  (@Forecast.analyze (sklearn_at g) _
     (Forecast.mk_agent (Forecast.forecast_days self) (Forecast.model_type self) cache)
     data).2
  = (@Forecast.analyze (sklearn_at g) _ self data).2.
Proof. unfold Forecast.analyze. by destruct data. Qed.

(** The agent builds a seeded estimator, whatever its [model_type]: the
    forest with [random_state=42], or the linear regression. *)
Lemma train_and_predict_ignores_state (g g' : rng_state)
    (self : Forecast.ForecastAgent) (features_df : DataFrame.t) :
  seeded_fit_ignores_state ->
  @Forecast._train_and_predict (sklearn_at g') self features_df
  = @Forecast._train_and_predict (sklearn_at g) self features_df.
Proof.
  intros Hseeded. unfold Forecast._train_and_predict.
  destruct (Forecast.getitems features_df Forecast.feature_cols) as [rows|ex];
    [|done].
  cbn [mbind outcome_bind].
  destruct (Forecast.getitem features_df "Target") as [target|ex]; [|done].
  cbn [mbind outcome_bind sk_fit sk_predict sklearn_at].
  rewrite (Hseeded g' g); [done|].
  by destruct (bool_decide (Forecast.model_type self = "random_forest")).
Qed.

Lemma forecast_symbol_ignores_state (g g' : rng_state)
    (self : Forecast.ForecastAgent) (df : DataFrame.t) :
  seeded_fit_ignores_state ->
  @Forecast.forecast_symbol (sklearn_at g') _ self df
  = @Forecast.forecast_symbol (sklearn_at g) _ self df.
Proof.
  intros Hseeded. unfold Forecast.forecast_symbol.
  destruct (_prepare_features df) as [features_df|ex]; [|done].
  cbn [mbind outcome_bind].
  by rewrite (train_and_predict_ignores_state g g' self features_df Hseeded).
Qed.

Lemma forecast_loop_ignores_state (g g' : rng_state)
    (self : Forecast.ForecastAgent) (data : MarketData) (st : Forecast.locals) :
  seeded_fit_ignores_state ->
  foldl (@Forecast.analyze_symbol (sklearn_at g') _ self) st data
  = foldl (@Forecast.analyze_symbol (sklearn_at g) _ self) st data.
Proof.
  intros Hseeded. revert st.
  induction data as [|[symbol df] data IH]; intros st; [done|].
  cbn [foldl]. rewrite IH. f_equal.
  unfold Forecast.analyze_symbol.
  by rewrite (forecast_symbol_ignores_state g g' self df Hseeded).
Qed.

(** The forecast of a batch is the same in every state of the generator. *)
Lemma forecast_result_ignores_state (g g' : rng_state)
    (self : Forecast.ForecastAgent) (data : MarketData) :
  seeded_fit_ignores_state ->
  (@Forecast.analyze (sklearn_at g') _ self data).2
  = (@Forecast.analyze (sklearn_at g) _ self data).2.
Proof.
  intros Hseeded. unfold Forecast.analyze.
  by rewrite (forecast_loop_ignores_state g g' self data _ Hseeded).
Qed.

Lemma sentiment_result_ignores_cache (self self' : Sentiment.SentimentAgent)
    (news_data : Sentiment.NewsData) :
  (Sentiment.analyze self' news_data).2 = (Sentiment.analyze self news_data).2.
Proof. unfold Sentiment.analyze. by destruct news_data. Qed.

Lemma correlation_result_ignores_cache (self : Correlation.CorrelationAgent)
    (cache : option Correlation.result) (data : MarketData) :
  (Correlation.analyze data
     (Correlation.mk_agent (Correlation.high_correlation_threshold self) cache)).2
  = (Correlation.analyze data self).2.
Proof.
  unfold Correlation.analyze.
  destruct (negb (truthy data) || bool_decide (length data < 2)%nat); [done|].
  destruct (bool_decide (length (foldl Correlation.returns_step [] data) < 2)%nat);
    [done|].
  destruct (frame_of_series_dropna (foldl Correlation.returns_step [] data))
    as [returns_df|ex]; [|done].
  by destruct (DataFrame.empty returns_df
               || bool_decide (DataFrame.len returns_df < 20)%nat).
Qed.

(** The agent after [analyze] has the thresholds it had before. *)
Lemma risk_analyze_keeps_thresholds (self : Risk.RiskAgent) (data : MarketData) :
  exists cache,
    (Risk.analyze self data).1
    = Risk.mk_agent (Risk.volatility_threshold self) (Risk.drawdown_threshold self) cache.
Proof.
  assert (Hself : self = Risk.mk_agent (Risk.volatility_threshold self)
                           (Risk.drawdown_threshold self) (Risk.last_analysis self))
    by (by destruct self).
  unfold Risk.analyze. destruct data; cbn [truthy negb fst]; [by eexists|].
  destruct (for_in _ _ _); eexists; [reflexivity|exact Hself].
Qed.

Lemma forecast_analyze_keeps_parameters (g : rng_state)
    (self : Forecast.ForecastAgent) (data : MarketData) :
  exists cache,
    (@Forecast.analyze (sklearn_at g) _ self data).1
    = Forecast.mk_agent (Forecast.forecast_days self) (Forecast.model_type self) cache.
Proof.
  unfold Forecast.analyze. destruct data as [|item data]; cbn [truthy negb fst].
  - exists (Forecast.last_analysis self). by destruct self.
  - destruct (truthy (Forecast.l_forecasts _)); eexists; reflexivity.
Qed.

Lemma correlation_analyze_keeps_threshold (self : Correlation.CorrelationAgent)
    (data : MarketData) :
  exists cache,
    (Correlation.analyze data self).1
    = Correlation.mk_agent (Correlation.high_correlation_threshold self) cache.
Proof.
  assert (Hself : self = Correlation.mk_agent
                           (Correlation.high_correlation_threshold self)
                           (Correlation.last_analysis self)) by (by destruct self).
  unfold Correlation.analyze.
  destruct (negb (truthy data) || bool_decide (length data < 2)%nat); [by eexists|].
  destruct (bool_decide (length (foldl Correlation.returns_step [] data) < 2)%nat);
    [by eexists|].
  destruct (frame_of_series_dropna (foldl Correlation.returns_step [] data))
    as [returns_df|ex]; [|by eexists].
  destruct (DataFrame.empty returns_df
            || bool_decide (DataFrame.len returns_df < 20)%nat); [by eexists|].
  eexists. reflexivity.
Qed.

(** C10. For each of the four base agents, a second call of [analyze] with
    the same input, on the agent as the first call left it, returns what
    the first call returned (for the risk and the correlation agent: the
    same result or the same exception).  The only estimators that could
    draw from the global random generator are those of the forecast agent,
    and it builds them seeded (the forest with [random_state=42]): given
    that scikit-learn fits a seeded estimator alike in every state of the
    generator, the second forecast equals the first whatever the states
    [g] and [g'] of the generator during the two calls. *)
Theorem analyze_twice_same_result :
  seeded_fit_ignores_state ->
  (forall (self : Risk.RiskAgent) (data : MarketData),
     (Risk.analyze (Risk.analyze self data).1 data).2 = (Risk.analyze self data).2)
  /\ (forall (g g' : rng_state) (self : Forecast.ForecastAgent) (data : MarketData),
        (@Forecast.analyze (sklearn_at g') _
           (@Forecast.analyze (sklearn_at g) _ self data).1 data).2
        = (@Forecast.analyze (sklearn_at g) _ self data).2)
  /\ (forall (self : Sentiment.SentimentAgent) (news_data : Sentiment.NewsData),
        (Sentiment.analyze (Sentiment.analyze self news_data).1 news_data).2
        = (Sentiment.analyze self news_data).2)
  /\ (forall (self : Correlation.CorrelationAgent) (data : MarketData),
        (Correlation.analyze data (Correlation.analyze data self).1).2
        = (Correlation.analyze data self).2).
Proof.
  intros Hseeded. split; [|split; [|split]].
  - intros self data.
    destruct (risk_analyze_keeps_thresholds self data) as (cache & ->).
    apply risk_result_ignores_cache.
  - intros g g' self data.
    destruct (forecast_analyze_keeps_parameters g self data) as (cache & ->).
    rewrite (forecast_result_ignores_state g g' _ data Hseeded).
    apply forecast_result_ignores_cache.
  - intros self news_data. apply sentiment_result_ignores_cache.
  - intros self data.
    destruct (correlation_analyze_keeps_threshold self data) as (cache & ->).
    apply correlation_result_ignores_cache.
Qed.

End RepeatedAnalysis.

(** The regressor of the test doubles fits a seeded estimator alike in
    every state of the generator. *)
Lemma double_seeded_fit_ignores_state :
  @seeded_fit_ignores_state Double.sklearn_random.
Proof.
  intros g g' r X y Hseeded. cbn [fit_at Double.sklearn_random].
  by rewrite Hseeded.
Qed.

Lemma analyze_twice_same_result_witness :
  @seeded_fit_ignores_state Double.sklearn_random
  /\ (@Forecast.analyze (@sklearn_at Double.sklearn_random 7%Z)
        Double.feature_pipeline
        (@Forecast.analyze (@sklearn_at Double.sklearn_random 3%Z)
           Double.feature_pipeline (Forecast.__init__ 5 "random_forest")
           [("AAPL", forty_rows)]).1
        [("AAPL", forty_rows)]).2
     = (@Forecast.analyze (@sklearn_at Double.sklearn_random 3%Z)
          Double.feature_pipeline (Forecast.__init__ 5 "random_forest")
          [("AAPL", forty_rows)]).2.
Proof.
  split; [exact double_seeded_fit_ignores_state|].
  exact (proj1 (proj2 (@analyze_twice_same_result Double.builtins Double.numpy
                         Double.pandas_stats Double.vader Double.sklearn_random
                         Double.feature_pipeline Double.pandas_frame
                         double_seeded_fit_ignores_state))
           3%Z 7%Z (Forecast.__init__ 5 "random_forest") [("AAPL", forty_rows)]).
Defined.

(** The seed matters: a forest built without [random_state] fits
    differently in two states of the generator of the test doubles, and
    the forecast of that batch is not the empty one. *)
Example unseeded_forest_depends_on_state :
  @fit_at Double.sklearn_random 3%Z (RandomForestRegressor 50 5 None)
     [[num 1]] [num 1]
  <> @fit_at Double.sklearn_random 7%Z (RandomForestRegressor 50 5 None)
       [[num 1]] [num 1]
  /\ (Forecast.forecasts
        (@Forecast.analyze (@sklearn_at Double.sklearn_random 3%Z)
           Double.feature_pipeline (Forecast.__init__ 5 "random_forest")
           [("AAPL", forty_rows)]).2).*1 = ["AAPL"].
Proof. split; [by vm_compute|by vm_compute]. Qed.


(* ===================================================================== *)
(** * Further properties of the agents and of the engine *)
(* ===================================================================== *)

(** ** Arithmetic on bounded floats *)

(** Linear arithmetic on canonical rationals with open terms, through [Q]. *)
Ltac qc_to_q :=
  unfold Qcle, Qclt, Qcdiv, Qcminus, Qcopp, Qcmult, Qcplus, Qcinv, Qcabs in *;
  cbn [this Q2Qc] in *;
  rewrite ?Qred_correct in *.

(** Membership in a list that is written out. *)
Ltac elem_of_list :=
  repeat first [apply list_elem_of_here | apply list_elem_of_further].

Lemma of_nat_S (n : nat) : of_nat (S n) = (of_nat n + Q2Qc 1)%Qc.
Proof.
  apply Qc_is_canon. unfold of_nat. qc_to_q.
  unfold Qeq, Qplus. cbn [Qnum Qden]. lia.
Qed.

Lemma of_nat_nonneg (n : nat) : (Q2Qc 0 <= of_nat n)%Qc.
Proof. unfold of_nat. qc_to_q. unfold Qle. cbn [Qnum Qden]. lia. Qed.

Lemma of_nat_pos (n : nat) : (0 < n)%nat -> (Q2Qc 0 < of_nat n)%Qc.
Proof. intros Hn. unfold of_nat. qc_to_q. unfold Qlt. cbn [Qnum Qden]. lia. Qed.

Lemma flen_of_nat {A} (xs : list A) : flen xs = Fin (of_nat (length xs)).
Proof. reflexivity. Qed.

Lemma Qcle_div_r (x y c : Qc) : (Q2Qc 0 < y)%Qc -> (x <= c * y)%Qc -> (x / y <= c)%Qc.
Proof.
  intros Hy H. apply (Qcmult_lt_0_le_reg_r _ _ y Hy).
  replace (x / y * y)%Qc with x; [done|].
  field. intros ->. by apply Qclt_not_eq in Hy.
Qed.

Lemma Qcle_div_l (x y c : Qc) : (Q2Qc 0 < y)%Qc -> (c * y <= x)%Qc -> (c <= x / y)%Qc.
Proof.
  intros Hy H. apply (Qcmult_lt_0_le_reg_r _ _ y Hy).
  replace (x / y * y)%Qc with x; [done|].
  field. intros ->. by apply Qclt_not_eq in Hy.
Qed.

Lemma fdiv_fin (x y : Qc) : (Q2Qc 0 < y)%Qc -> (Fin x / Fin y)%F = Fin (x / y)%Qc.
Proof.
  intros Hy. unfold fdiv. case_bool_decide as Heq; [|done].
  subst y. by apply Qclt_not_eq in Hy.
Qed.

(** Sums and means of bounded floats stay bounded. *)
Lemma foldl_fadd_within (lo hi : Qc) (xs : list pyfloat) (acc : Qc) :
  Forall (within lo hi) xs ->
  exists s, foldl fadd (Fin acc) xs = Fin s
            /\ (acc + lo * of_nat (length xs) <= s)%Qc
            /\ (s <= acc + hi * of_nat (length xs))%Qc.
Proof.
  intros Hall. revert acc.
  induction Hall as [|x xs (q & -> & Hlo & Hhi) _ IH]; intros acc.
  - exists acc. split; [done|]. cbn [length].
    change (of_nat 0) with (Q2Qc 0). qc_to_q. split; lra.
  - cbn [foldl length]. destruct (IH (acc + q)%Qc) as (s & Hs & Hs1 & Hs2).
    exists s. split; [exact Hs|]. rewrite of_nat_S.
    qc_to_q. split; lra.
Qed.

Lemma np_mean_within (lo hi : Qc) (xs : list pyfloat) :
  xs <> [] -> Forall (within lo hi) xs -> within lo hi (np_mean xs).
Proof.
  intros Hne Hall. destruct xs as [|x xs]; [done|].
  unfold np_mean, py_sum.
  destruct (foldl_fadd_within lo hi (x :: xs) (Q2Qc 0) Hall) as (s & Hs & Hs1 & Hs2).
  change (num 0) with (Fin (Q2Qc 0)). rewrite Hs, flen_of_nat.
  assert (Hpos : (Q2Qc 0 < of_nat (length (x :: xs)))%Qc)
    by (apply of_nat_pos; cbn; lia).
  rewrite fdiv_fin by exact Hpos.
  exists (s / of_nat (length (x :: xs)))%Qc. split; [done|]. split.
  - apply Qcle_div_l; [exact Hpos|]. revert Hs1. generalize (of_nat (length (x :: xs))).
    intros n Hs1. qc_to_q. lra.
  - apply Qcle_div_r; [exact Hpos|]. revert Hs2. generalize (of_nat (length (x :: xs))).
    intros n Hs2. qc_to_q. lra.
Qed.

(** ** Dictionaries *)

Lemma dict_set_keys_fresh {V} (d : pydict V) (k : string) (v : V) :
  k ∉ d.*1 -> dict_set d k v = d ++ [(k, v)].
Proof.
  induction d as [|[k' v'] d IH]; [done|].
  cbn [dict_set fmap list_fmap fst]. rewrite not_elem_of_cons. intros [Hne Hnin].
  rewrite bool_decide_eq_false_2 by congruence. cbn. by rewrite IH.
Qed.

Lemma dict_set_elem_of_keys {V} (d : pydict V) (k k' : string) (v : V) :
  k' ∈ (dict_set d k v).*1 <-> k' = k \/ k' ∈ d.*1.
Proof.
  induction d as [|[k0 v0] d IH]; cbn [dict_set].
  - cbn. set_solver.
  - case_bool_decide as Heq; rewrite !fmap_cons, !elem_of_cons.
    + subst k0. cbn. tauto.
    + rewrite IH. cbn. tauto.
Qed.

Lemma dict_set_fmap {V W} (g : V -> W) (d : pydict V) (k : string) (v : V) :
  (fun kv : string * V => (kv.1, g kv.2)) <$> dict_set d k v
  = dict_set ((fun kv : string * V => (kv.1, g kv.2)) <$> d) k (g v).
Proof.
  induction d as [|[k' v'] d IH]; [done|].
  cbn [dict_set fmap list_fmap fst snd]. case_bool_decide; [done|].
  cbn [fmap list_fmap fst snd]. f_equal. exact IH.
Qed.

Lemma dict_set_keys_same {V W} (d : pydict V) (d' : pydict W) k v w :
  d.*1 = d'.*1 -> (dict_set d k v).*1 = (dict_set d' k w).*1.
Proof.
  revert d'. induction d as [|[k1 v1] d IH]; intros [|[k2 v2] d'] Heq;
    try discriminate Heq; [done|].
  cbn in Heq. injection Heq as <- Heq. cbn [dict_set].
  case_bool_decide; cbn; [by rewrite Heq|]. f_equal. by apply IH.
Qed.

Lemma dict_set_Forall_values {V} (P : V -> Prop) (d : pydict V) k v :
  Forall P (dict_values d) -> P v -> Forall P (dict_values (dict_set d k v)).
Proof.
  unfold dict_values. induction d as [|[k' v'] d IH]; cbn [dict_set]; intros Hd Hv.
  - by constructor.
  - cbn in Hd. apply Forall_cons in Hd as [Hv' Hd].
    case_bool_decide; cbn; constructor; auto.
Qed.

Lemma dict_set_nonempty {V} (d : pydict V) k v : truthy (dict_set d k v) = true.
Proof. destruct d as [|[k' v'] d]; cbn; [done|]. by case_bool_decide. Qed.

(** ** More on the risk agent *)

Section RiskMore.
Context `{Builtins} `{Numpy} `{PandasStats}.

Lemma confidence_loop (dfs : list DataFrame.t) (t v : Qc) :
  (Q2Qc 0 <= v)%Qc -> (v <= t)%Qc ->
  exists v',
    foldl Risk.confidence_step (Fin t, Fin v) dfs
    = (Fin (t + of_nat (length dfs)), Fin v')
    /\ (Q2Qc 0 <= v')%Qc /\ (v' <= t + of_nat (length dfs))%Qc.
Proof.
  revert t v. induction dfs as [|df dfs IH]; intros t v Hv0 Hvt.
  - exists v. cbn [foldl length]. change (of_nat 0) with (Q2Qc 0).
    replace (t + Q2Qc 0)%Qc with t by ring. done.
  - cbn [foldl length]. rewrite of_nat_S.
    replace (t + (of_nat (length dfs) + Q2Qc 1))%Qc
      with (t + Q2Qc 1 + of_nat (length dfs))%Qc by ring.
    unfold Risk.confidence_step.
    change (Fin t + num 1)%F with (Fin (t + Q2Qc 1)).
    repeat case_bool_decide.
    + change (Fin v + num 1)%F with (Fin (v + Q2Qc 1)).
      apply IH; qc_to_q; lra.
    + change (Fin v + frac 5 10)%F with (Fin (v + Q2Qc (5 # 10))).
      apply IH; qc_to_q; lra.
    + apply IH; qc_to_q; lra.
Qed.

Lemma calculate_confidence_within (data : MarketData) :
  within (Q2Qc 0) (Q2Qc 1) (Risk._calculate_confidence data).
Proof.
  unfold Risk._calculate_confidence. destruct data as [|item data].
  - exists (Q2Qc 0). by vm_compute.
  - cbn [truthy negb].
    destruct (confidence_loop (dict_values (item :: data)) (Q2Qc 0) (Q2Qc 0))
      as (v & Hloop & Hv0 & Hvt); [done..|].
    change (num 0, num 0) with (Fin (Q2Qc 0), Fin (Q2Qc 0)). rewrite Hloop.
    set (n := (Q2Qc 0 + of_nat (length (dict_values (item :: data))))%Qc) in *.
    assert (Hn : (Q2Qc 0 < n)%Qc).
    { subst n. unfold dict_values. cbn [fmap list_fmap length]. rewrite of_nat_S.
      pose proof (of_nat_nonneg (length (data.*2))). qc_to_q. lra. }
    replace (Fin n >? num 0)%F with true
      by (symmetry; apply bool_decide_eq_true; exact Hn).
    rewrite fdiv_fin by exact Hn. exists (v / n)%Qc. split; [done|]. split.
    + apply Qcle_div_l; [exact Hn|]. revert Hv0. generalize n. intros m Hv0.
      qc_to_q. lra.
    + apply Qcle_div_r; [exact Hn|]. revert Hvt. generalize n. intros m Hvt.
      qc_to_q. lra.
Qed.

Lemma confidence_loop_closed (dfs : list DataFrame.t) (t v : Qc) :
  foldl Risk.confidence_step (Fin t, Fin v) dfs
  = (Fin (t + of_nat (length dfs)),
     Fin (v + of_nat (full_credit dfs) + of_nat (half_credit dfs) * Q2Qc (1 # 2))).
Proof.
  unfold full_credit, half_credit.
  revert t v. induction dfs as [|df dfs IH]; intros t v.
  - cbn. change (of_nat 0) with (Q2Qc 0). f_equal; f_equal; ring.
  - cbn [foldl length]. rewrite !filter_cons. unfold Risk.confidence_step.
    change (Fin t + num 1)%F with (Fin (t + Q2Qc 1)).
    repeat case_bool_decide.
    + rewrite decide_True, decide_False by lia.
      change (Fin v + num 1)%F with (Fin (v + Q2Qc 1)). rewrite IH.
      cbn [length]. rewrite !of_nat_S. f_equal; f_equal; ring.
    + rewrite decide_False, decide_True by lia.
      change (Fin v + frac 5 10)%F with (Fin (v + Q2Qc (5 # 10))). rewrite IH.
      cbn [length]. rewrite !of_nat_S.
      replace (Q2Qc (5 # 10)) with (Q2Qc (1 # 2)) by (by apply Qc_is_canon).
      f_equal; f_equal; ring.
    + rewrite !decide_False by lia.
      rewrite IH. rewrite !of_nat_S. f_equal; f_equal; ring.
Qed.

Lemma analyze_symbol_raises self st symbol df :
  divides_by_zero self df = true ->
  Risk.analyze_symbol self st (symbol, df) = Raise ZeroDivisionError.
Proof.
  unfold divides_by_zero, insufficient. intros Hdiv.
  apply andb_true_iff in Hdiv as [Hdiv Hzero].
  apply andb_true_iff in Hdiv as [Hins Hdd].
  apply negb_true_iff, orb_false_iff in Hins as [Hguard Hlen].
  unfold Risk.analyze_symbol. rewrite Hguard, Hlen, Hdd, Hzero. reflexivity.
Qed.

Lemma analyze_symbol_sufficient self st symbol df :
  insufficient df = false ->
  divides_by_zero self df = false ->
  let vol := (series_std (DataFrame.tail 20 (DataFrame.dropna (DataFrame.col df "Returns")))
              * np_sqrt (num 252))%F in
  let dd := if DataFrame.has_column df "Drawdown"
            then DataFrame.iloc_last (DataFrame.col df "Drawdown") else num 0 in
  let score :=
    ((py_min (num 100) (vol / Risk.volatility_threshold self * num 50)
      + py_min (num 100) (fabs (dd / Risk.drawdown_threshold self) * num 50))
     / num 2)%F in
  exists st',
    Risk.analyze_symbol self st (symbol, df) = Return st'
    /\ Risk.risk_scores st' = dict_set (Risk.risk_scores st) symbol score
    /\ Risk.volatility_data st' = dict_set (Risk.volatility_data st) symbol vol
    /\ Risk.drawdown_data st' = dict_set (Risk.drawdown_data st) symbol dd
    /\ exists new,
         Risk.l_alerts st' = Risk.l_alerts st ++ new
         /\ Forall (risk_alert_ok [symbol]) new
         /\ (length new <= 3)%nat.
Proof.
  intros Hsuff Hdiv. unfold divides_by_zero in Hdiv. rewrite Hsuff in Hdiv.
  cbn [negb andb] in Hdiv.
  unfold insufficient in Hsuff.
  apply orb_false_iff in Hsuff as [Hguard Hlen].
  cbv zeta. unfold Risk.analyze_symbol. rewrite Hguard, Hlen, Hdiv.
  cbn [mbind outcome_bind mret outcome_ret].
  eexists. split; [reflexivity|].
  cbn [Risk.risk_scores Risk.volatility_data Risk.drawdown_data Risk.l_alerts].
  do 3 (split; [reflexivity|]).
  assert (Hok : forall ty sev msg val,
            ty ∈ ["HIGH_VOLATILITY"; "SIGNIFICANT_DRAWDOWN"; "VOLATILITY_SPIKE"] ->
            sev ∈ [Some "HIGH"; Some "MEDIUM"] ->
            (ty = "VOLATILITY_SPIKE" -> sev = Some "MEDIUM") ->
            risk_alert_ok [symbol] (Alert.mk (Some symbol) ty sev msg val None)).
  { intros. repeat split; cbn; eauto. exists symbol. split; [done|elem_of_list]. }
  repeat match goal with
         | |- context [if ?c then _ else _] => destruct c
         end;
    rewrite <- ?app_assoc; cbn [app];
    first [ exists []; split; [by rewrite app_nil_r|]
          | eexists; split; [reflexivity|] ];
    (split; [repeat (apply Forall_cons_2;
                       [apply Hok; [elem_of_list | elem_of_list | done]|]);
             apply Forall_nil_2
            | cbn; lia]).
Qed.

(** What one iteration that returns has done. *)
Lemma analyze_symbol_returns_inv self st symbol df st' :
  Risk.analyze_symbol self st (symbol, df) = Return st' ->
  (insufficient df = true /\ st' = st)
  \/ (insufficient df = false
      /\ divides_by_zero self df = false
      /\ Risk.risk_scores st'
         = dict_set (Risk.risk_scores st) symbol
             ((py_min (num 100)
                 (series_std (DataFrame.tail 20
                                (DataFrame.dropna (DataFrame.col df "Returns")))
                  * np_sqrt (num 252) / Risk.volatility_threshold self * num 50)
               + py_min (num 100)
                   (fabs ((if DataFrame.has_column df "Drawdown"
                           then DataFrame.iloc_last (DataFrame.col df "Drawdown")
                           else num 0) / Risk.drawdown_threshold self) * num 50))
              / num 2)%F
      /\ (Risk.volatility_data st').*1 = (dict_set (Risk.volatility_data st) symbol NaN).*1
      /\ (Risk.drawdown_data st').*1 = (dict_set (Risk.drawdown_data st) symbol NaN).*1
      /\ exists new,
           Risk.l_alerts st' = Risk.l_alerts st ++ new
           /\ Forall (risk_alert_ok [symbol]) new).
Proof.
  intros Hstep. destruct (insufficient df) eqn:Hins.
  - left. rewrite analyze_symbol_insufficient in Hstep by exact Hins.
    split; [done|]. congruence.
  - right. destruct (divides_by_zero self df) eqn:Hdiv.
    { rewrite analyze_symbol_raises in Hstep by exact Hdiv. done. }
    destruct (analyze_symbol_sufficient self st symbol df Hins Hdiv)
      as (st1 & Hst1 & Hscores & Hvols & Hdds & new & Halerts & Hnew & _).
    cbv zeta in Hscores, Hvols, Hdds.
    rewrite Hst1 in Hstep. injection Hstep as <-.
    split; [done|]. split; [done|]. split; [exact Hscores|].
    split; [rewrite Hvols; by apply dict_set_keys_same|].
    split; [rewrite Hdds; by apply dict_set_keys_same|].
    by exists new.
Qed.

(** The loop returns unless some frame divides by zero, and then it raises
    [ZeroDivisionError]. *)
Lemma risk_loop_outcome self (data : MarketData) st :
  if existsb (divides_by_zero self) data.*2
  then for_in (Risk.analyze_symbol self) st data = Raise ZeroDivisionError
  else exists st', for_in (Risk.analyze_symbol self) st data = Return st'.
Proof.
  revert st. induction data as [|[symbol df] data IH]; intros st.
  - cbn. by eexists.
  - rewrite fmap_cons. cbn [existsb snd for_in].
    destruct (divides_by_zero self df) eqn:Hdiv; cbn [orb].
    + by rewrite analyze_symbol_raises.
    + destruct (insufficient df) eqn:Hins.
      * rewrite analyze_symbol_insufficient by exact Hins. apply IH.
      * destruct (analyze_symbol_sufficient self st symbol df Hins Hdiv)
          as (st1 & -> & _). apply IH.
Qed.

(** An invariant of the iterations holds of what the loop returns. *)
Lemma for_in_invariant {A B} (body : B -> A -> outcome B) (P : B -> Prop)
    (xs : list A) (st st' : B) :
  (forall st x st1, body st x = Return st1 -> P st -> P st1) ->
  for_in body st xs = Return st' -> P st -> P st'.
Proof.
  intros Hbody. revert st. induction xs as [|x xs IH]; intros st Hrun Hst.
  - cbn in Hrun. congruence.
  - cbn [for_in] in Hrun. destruct (body st x) as [st1|e] eqn:Hstep; [|done].
    eapply IH; [exact Hrun|]. by eapply Hbody.
Qed.

Lemma risk_alert_ok_mono (S S' : list string) (a : Alert.t) :
  (forall s, s ∈ S -> s ∈ S') -> risk_alert_ok S a -> risk_alert_ok S' a.
Proof.
  intros Hsub ((s & Hs & Hin) & Hrest). split; [|exact Hrest].
  exists s. auto.
Qed.

Lemma risk_loop_keys self (data : MarketData) st st' :
  for_in (Risk.analyze_symbol self) st data = Return st' ->
  NoDup data.*1 ->
  (forall k, k ∈ data.*1 -> k ∉ (Risk.risk_scores st).*1) ->
  (Risk.volatility_data st).*1 = (Risk.risk_scores st).*1 ->
  (Risk.drawdown_data st).*1 = (Risk.risk_scores st).*1 ->
  (Risk.risk_scores st').*1
  = (Risk.risk_scores st).*1
    ++ (filter (fun item : string * DataFrame.t => insufficient item.2 = false) data).*1
  /\ (Risk.volatility_data st').*1 = (Risk.risk_scores st').*1
  /\ (Risk.drawdown_data st').*1 = (Risk.risk_scores st').*1.
Proof.
  revert st. induction data as [|[symbol df] data IH];
    intros st Hrun Hnodup Hfresh Hvol Hdd.
  - cbn in Hrun. injection Hrun as <-. cbn. by rewrite app_nil_r.
  - cbn [for_in] in Hrun.
    destruct (Risk.analyze_symbol self st (symbol, df)) as [st1|e] eqn:Hstep;
      [|done].
    rewrite fmap_cons in Hnodup. apply NoDup_cons in Hnodup as [Hnew Hnodup].
    rewrite (filter_cons _ (symbol, df)). cbn [snd].
    apply analyze_symbol_returns_inv in Hstep
      as [[Hins ->] | (Hins & _ & Hscores & Hvols & Hdds & _)]; rewrite Hins.
    + rewrite decide_False by done.
      apply (IH st); [exact Hrun|exact Hnodup| |exact Hvol|exact Hdd].
      intros k Hk. apply Hfresh. rewrite fmap_cons. by apply list_elem_of_further.
    + rewrite decide_True by done.
      assert (Hfresh' : symbol ∉ (Risk.risk_scores st).*1).
      { apply Hfresh. rewrite fmap_cons. apply list_elem_of_here. }
      assert (Hkeys1 : (Risk.risk_scores st1).*1 = (Risk.risk_scores st).*1 ++ [symbol]).
      { rewrite Hscores, dict_set_keys_fresh by exact Hfresh'.
        by rewrite fmap_app. }
      destruct (IH st1) as (IH1 & IH2 & IH3).
      * exact Hrun.
      * exact Hnodup.
      * intros k Hk. rewrite Hkeys1, elem_of_app, list_elem_of_singleton.
        intros [Hin | ->]; [|done].
        revert Hin. apply Hfresh. rewrite fmap_cons. by apply list_elem_of_further.
      * rewrite Hvols, Hscores. by apply dict_set_keys_same.
      * rewrite Hdds, Hscores. by apply dict_set_keys_same.
      * split; [|done]. rewrite IH1, Hkeys1, fmap_cons, <- app_assoc. done.
Qed.

Lemma risk_loop_alerts self (data : MarketData) st st' :
  for_in (Risk.analyze_symbol self) st data = Return st' ->
  Forall (risk_alert_ok (Risk.risk_scores st).*1) (Risk.l_alerts st) ->
  Forall (risk_alert_ok (Risk.risk_scores st').*1) (Risk.l_alerts st').
Proof.
  apply (for_in_invariant (Risk.analyze_symbol self)
           (fun st => Forall (risk_alert_ok (Risk.risk_scores st).*1)
                        (Risk.l_alerts st))).
  clear st st'. intros st [symbol df] st1 Hstep Hst.
  apply analyze_symbol_returns_inv in Hstep
    as [[_ ->] | (_ & _ & Hscores & _ & _ & new & Halerts & Hnew)]; [done|].
  rewrite Halerts, Hscores. apply Forall_app. split.
  - eapply Forall_impl; [exact Hst|]. intros a. apply risk_alert_ok_mono.
    intros s Hs. apply dict_set_elem_of_keys. by right.
  - eapply Forall_impl; [exact Hnew|]. intros a. apply risk_alert_ok_mono.
    intros s Hs. apply dict_set_elem_of_keys. left.
    by apply list_elem_of_singleton in Hs.
Qed.

(** [analyze] raises exactly when some frame divides by zero, and then the
    agent stays as it was; otherwise it returns the result assembled from
    the locals of the loop, and remembers it unless the input is empty. *)
Lemma risk_analyze_outcome (self : Risk.RiskAgent) (data : MarketData) :
  if existsb (divides_by_zero self) data.*2
  then Risk.analyze self data = (self, Raise ZeroDivisionError)
  else exists r,
      (Risk.analyze self data).2 = Return r
      /\ (Risk.analyze self data).1
         = (if truthy data then Risk.set_last_analysis self r else self)
      /\ (if truthy data then
            exists st,
              for_in (Risk.analyze_symbol self) (Risk.mk_locals [] [] [] []) data
              = Return st
              /\ Risk.individual_scores r = Risk.risk_scores st
              /\ Risk.volatility r = Risk.volatility_data st
              /\ Risk.drawdowns r = Risk.drawdown_data st
              /\ Risk.alerts r = Risk.l_alerts st
              /\ Risk.overall_risk_score r
                 = (if truthy (Risk.risk_scores st)
                    then np_mean (dict_values (Risk.risk_scores st)) else num 0)
              /\ Risk.max_risk_score r
                 = (if truthy (Risk.risk_scores st)
                    then default (num 0) (py_max_list (dict_values (Risk.risk_scores st)))
                    else num 0)
              /\ Risk.risk_level r = Risk._get_risk_level (Risk.overall_risk_score r)
              /\ Risk.confidence r = Risk._calculate_confidence data
          else r = Risk._empty_result).
Proof.
  pose proof (risk_loop_outcome self data (Risk.mk_locals [] [] [] [])) as Hloop.
  unfold Risk.analyze. destruct data as [|item data]; [by eexists|].
  cbn [truthy negb].
  destruct (existsb (divides_by_zero self) (item :: data).*2).
  - by rewrite Hloop.
  - destruct Hloop as (st & ->). cbn [fst snd]. eexists.
    split; [reflexivity|]. split; [reflexivity|]. exists st. done.
Qed.

(** X1. With unique symbols: when the drawdown threshold is zero and some
    frame that would be scored has no [Drawdown] column, [analyze] raises
    [ZeroDivisionError] and leaves the agent as it was.  In every other
    case it returns; exactly the symbols whose frame is non-empty, has a
    [Returns] column and at least five valid recent returns are scored, in
    the order of the input, and the dictionaries of volatilities and
    drawdowns have the same keys as the dictionary of scores. *)
Theorem risk_scored_symbols (self : Risk.RiskAgent) (data : MarketData) :
  NoDup data.*1 ->
  if existsb (divides_by_zero self) data.*2
  then Risk.analyze self data = (self, Raise ZeroDivisionError)
  else exists r,
      (Risk.analyze self data).2 = Return r
      /\ (Risk.individual_scores r).*1
         = (filter (fun item : string * DataFrame.t => insufficient item.2 = false)
                   data).*1
      /\ (Risk.volatility r).*1 = (Risk.individual_scores r).*1
      /\ (Risk.drawdowns r).*1 = (Risk.individual_scores r).*1.
Proof.
  intros Hnodup. pose proof (risk_analyze_outcome self data) as Hcases.
  destruct (existsb (divides_by_zero self) data.*2); [exact Hcases|].
  destruct Hcases as (r & Hr & _ & Hshape). exists r. split; [exact Hr|].
  destruct data as [|item data]; cbn [truthy] in Hshape; [by subst r|].
  destruct Hshape as (st & Hloop & -> & -> & -> & _).
  apply (risk_loop_keys self (item :: data) (Risk.mk_locals [] [] [] []));
    [exact Hloop|exact Hnodup| |done..].
  intros k _. apply not_elem_of_nil.
Qed.

(** X2. Unless [analyze] raises [ZeroDivisionError] (the drawdown threshold
    is zero and a frame that would be scored has no [Drawdown] column), it
    returns, and every alert of its result names a scored symbol, has one
    of the three alert types and severity HIGH or MEDIUM (a volatility
    spike is always MEDIUM), and carries no source. *)
Theorem risk_alerts_well_formed (self : Risk.RiskAgent) (data : MarketData) :
  if existsb (divides_by_zero self) data.*2
  then Risk.analyze self data = (self, Raise ZeroDivisionError)
  else exists r,
      (Risk.analyze self data).2 = Return r
      /\ Forall (risk_alert_ok (Risk.individual_scores r).*1) (Risk.alerts r).
Proof.
  pose proof (risk_analyze_outcome self data) as Hcases.
  destruct (existsb (divides_by_zero self) data.*2); [exact Hcases|].
  destruct Hcases as (r & Hr & _ & Hshape). exists r. split; [exact Hr|].
  destruct data as [|item data]; cbn [truthy] in Hshape;
    [subst r; by constructor|].
  destruct Hshape as (st & Hloop & -> & _ & _ & -> & _).
  by apply (risk_loop_alerts self (item :: data) (Risk.mk_locals [] [] [] [])).
Qed.

(** *** The range of the scores *)

Lemma py_min_100_nonneg (x : pyfloat) :
  (x = NaN \/ nonneg x) -> within (Q2Qc 0) (Q2Qc 100) (py_min (num 100) x).
Proof.
  intros [-> | (q & -> & Hq)].
  - exists (Q2Qc 100). by vm_compute.
  - unfold py_min, num, frac. cbn [flt]. case_bool_decide as Hlt.
    + exists q. split; [done|]. split; [done|]. qc_to_q. lra.
    + exists (Q2Qc 100). split; [done|]. by vm_compute.
Qed.

Lemma fmul_50_nonneg (x : pyfloat) : nonneg x -> nonneg (x * num 50)%F.
Proof.
  intros (q & -> & Hq). exists (q * Q2Qc 50)%Qc. split; [done|].
  qc_to_q. lra.
Qed.

Lemma fdiv_nonneg_pos (x : pyfloat) (y : Qc) :
  nonneg x -> (Q2Qc 0 < y)%Qc -> nonneg (x / Fin y)%F.
Proof.
  intros (q & -> & Hq) Hy. rewrite fdiv_fin by exact Hy.
  exists (q / y)%Qc. split; [done|]. apply Qcle_div_l; [exact Hy|].
  qc_to_q. lra.
Qed.

Lemma fabs_fdiv_nonneg (x : pyfloat) (y : Qc) :
  y <> Q2Qc 0 -> fabs (x / Fin y)%F = NaN \/ nonneg (fabs (x / Fin y)%F).
Proof.
  intros Hy. destruct x as [q|]; [|by left]. right.
  unfold fdiv. rewrite bool_decide_eq_false_2 by exact Hy.
  eexists. split; [reflexivity|]. apply Qcabs_nonneg.
Qed.

Lemma half_sum_within (a b : pyfloat) :
  within (Q2Qc 0) (Q2Qc 100) a -> within (Q2Qc 0) (Q2Qc 100) b ->
  within (Q2Qc 0) (Q2Qc 100) ((a + b) / num 2)%F.
Proof.
  intros (x & -> & Hx0 & Hx1) (y & -> & Hy0 & Hy1).
  change ((Fin x + Fin y) / num 2)%F with (Fin (x + y) / Fin (Q2Qc 2))%F.
  rewrite fdiv_fin by (by vm_compute).
  exists ((x + y) / Q2Qc 2)%Qc. split; [done|]. split.
  - apply Qcle_div_l; [by vm_compute|]. qc_to_q. lra.
  - apply Qcle_div_r; [by vm_compute|]. qc_to_q. lra.
Qed.

Lemma py_max_within (lo hi : Qc) (a b : pyfloat) :
  within lo hi a -> within lo hi b -> within lo hi (py_max a b).
Proof. intros Ha Hb. unfold py_max. by destruct (b >? a)%F. Qed.

Lemma py_max_list_within (lo hi : Qc) (xs : list pyfloat) (d : pyfloat) :
  xs <> [] -> Forall (within lo hi) xs ->
  within lo hi (default d (py_max_list xs)).
Proof.
  intros Hne Hall. destruct xs as [|x xs]; [done|].
  apply Forall_cons in Hall as [Hx Hxs]. cbn [py_max_list default].
  clear Hne. revert x Hx. induction Hxs as [|y ys Hy _ IH]; intros x Hx; [done|].
  cbn [foldl]. apply IH. by apply py_max_within.
Qed.

Section Bounds.
Hypothesis std_nonneg :
  forall l, (5 <= length l)%nat -> Forall (fun x => DataFrame.is_fin x) l ->
            nonneg (series_std l).
Hypothesis sqrt_nonneg : nonneg (np_sqrt (num 252)).
Variable self : Risk.RiskAgent.
Hypothesis volatility_threshold_pos :
  exists vt, Risk.volatility_threshold self = Fin vt /\ (Q2Qc 0 < vt)%Qc.
Hypothesis drawdown_threshold_nonzero :
  exists dt, Risk.drawdown_threshold self = Fin dt /\ dt <> Q2Qc 0.

Lemma no_division_by_zero (df : DataFrame.t) : divides_by_zero self df = false.
Proof.
  unfold divides_by_zero. destruct drawdown_threshold_nonzero as (dt & -> & Hdt).
  rewrite (bool_decide_eq_false_2 (Fin dt = num 0)); [by rewrite andb_false_r|].
  intros Heq. apply Hdt. by injection Heq.
Qed.

Lemma no_frame_divides_by_zero (data : MarketData) :
  existsb (divides_by_zero self) data.*2 = false.
Proof.
  induction data as [|[symbol df] data IH]; [done|].
  rewrite fmap_cons. cbn [existsb snd]. by rewrite no_division_by_zero, IH.
Qed.

Lemma risk_loop_scores_within (data : MarketData) st st' :
  for_in (Risk.analyze_symbol self) st data = Return st' ->
  Forall (within (Q2Qc 0) (Q2Qc 100)) (dict_values (Risk.risk_scores st)) ->
  Forall (within (Q2Qc 0) (Q2Qc 100)) (dict_values (Risk.risk_scores st')).
Proof.
  apply (for_in_invariant (Risk.analyze_symbol self)
           (fun st => Forall (within (Q2Qc 0) (Q2Qc 100))
                        (dict_values (Risk.risk_scores st)))).
  clear st st'. intros st [symbol df] st1 Hstep Hst.
  apply analyze_symbol_returns_inv in Hstep
    as [[_ ->] | (Hins & _ & Hscores & _)]; [done|].
  rewrite Hscores.
  apply dict_set_Forall_values; [exact Hst|].
  destruct volatility_threshold_pos as (vt & -> & Hvt).
  destruct drawdown_threshold_nonzero as (dt & -> & Hdt).
  apply half_sum_within.
  - apply py_min_100_nonneg. right. apply fmul_50_nonneg.
    apply fdiv_nonneg_pos; [|exact Hvt].
    unfold insufficient in Hins. apply orb_false_iff in Hins as [_ Hlen].
    apply bool_decide_eq_false in Hlen.
    destruct (std_nonneg
                (DataFrame.tail 20 (DataFrame.dropna (DataFrame.col df "Returns"))))
      as (s & -> & Hs).
    + lia.
    + apply Forall_drop. unfold DataFrame.dropna. apply Forall_forall.
      intros x Hx. by apply list_elem_of_filter in Hx as [Hx _].
    + destruct sqrt_nonneg as (r & -> & Hr).
      exists (s * r)%Qc. split; [done|].
      rewrite <- (Qcmult_0_l r). by apply Qcmult_le_compat_r.
  - apply py_min_100_nonneg.
    destruct (fabs_fdiv_nonneg
                (if DataFrame.has_column df "Drawdown"
                 then DataFrame.iloc_last (DataFrame.col df "Drawdown")
                 else num 0) dt Hdt) as [-> | Hnn].
    + by left.
    + right. by apply fmul_50_nonneg.
Qed.

(** X3. When the standard deviation and the square root are finite and not
    negative, the volatility threshold is positive and the drawdown
    threshold is not zero, [analyze] returns, and every per-symbol score,
    the overall score and the maximal score lie in [0, 100]. *)
Theorem risk_scores_in_range (data : MarketData) :
  exists r,
    (Risk.analyze self data).2 = Return r
    /\ Forall (within (Q2Qc 0) (Q2Qc 100)) (dict_values (Risk.individual_scores r))
    /\ within (Q2Qc 0) (Q2Qc 100) (Risk.overall_risk_score r)
    /\ within (Q2Qc 0) (Q2Qc 100) (Risk.max_risk_score r).
Proof.
  assert (Hzero : within (Q2Qc 0) (Q2Qc 100) (num 0))
    by (exists (Q2Qc 0); by vm_compute).
  pose proof (risk_analyze_outcome self data) as Hcases.
  rewrite no_frame_divides_by_zero in Hcases.
  destruct Hcases as (r & Hr & _ & Hshape). exists r. split; [exact Hr|].
  destruct data as [|item data]; cbn [truthy] in Hshape.
  { subst r. cbn. split; [constructor|]. by split. }
  destruct Hshape as (st & Hloop & -> & _ & _ & _ & -> & -> & _).
  pose proof (risk_loop_scores_within (item :: data) (Risk.mk_locals [] [] [] []) st
                Hloop ltac:(constructor)) as Hall.
  split; [exact Hall|].
  destruct (Risk.risk_scores st) as [|kv rest]; cbn [truthy]; [by split|].
  split.
  - apply np_mean_within; [done|exact Hall].
  - apply py_max_list_within; [done|exact Hall].
Qed.

End Bounds.

(** X4. Unless [analyze] raises [ZeroDivisionError] (the drawdown threshold
    is zero and a frame that would be scored has no [Drawdown] column), it
    returns, and the confidence of its result lies in [0, 1].  On a
    non-empty input it is the number of frames of at least 60 rows plus
    half the number of frames of 20 to 59 rows, divided by the number of
    frames; on an empty input it is 0. *)
Theorem risk_confidence_closed_form (self : Risk.RiskAgent) (data : MarketData) :
  if existsb (divides_by_zero self) data.*2
  then Risk.analyze self data = (self, Raise ZeroDivisionError)
  else exists r,
      (Risk.analyze self data).2 = Return r
      /\ valid_confidence (Risk.confidence r)
      /\ Risk.confidence r
         = (if truthy data then
              Fin ((of_nat (full_credit (dict_values data))
                    + of_nat (half_credit (dict_values data)) * Q2Qc (1 # 2))
                   / of_nat (length data))
            else num 0).
Proof.
  pose proof (risk_analyze_outcome self data) as Hcases.
  destruct (existsb (divides_by_zero self) data.*2); [exact Hcases|].
  destruct Hcases as (r & Hr & _ & Hshape). exists r. split; [exact Hr|].
  destruct data as [|item data]; cbn [truthy] in Hshape |- *.
  { subst r. split; [exists (Q2Qc 0); by vm_compute|done]. }
  destruct Hshape as (st & _ & _ & _ & _ & _ & _ & _ & _ & ->).
  split; [apply calculate_confidence_within|].
  unfold Risk._calculate_confidence. cbn [truthy negb].
  change (num 0, num 0) with (Fin (Q2Qc 0), Fin (Q2Qc 0)).
  rewrite confidence_loop_closed.
  assert (Hlen : length (dict_values (item :: data)) = length (item :: data))
    by (unfold dict_values; by rewrite length_fmap).
  rewrite Hlen.
  assert (Hn : (Q2Qc 0 < of_nat (length (item :: data)))%Qc)
    by (apply of_nat_pos; cbn [length]; lia).
  replace (Q2Qc 0 + of_nat (length (item :: data)))%Qc
    with (of_nat (length (item :: data))) by ring.
  replace (Fin (of_nat (length (item :: data))) >? num 0)%F with true
    by (symmetry; apply bool_decide_eq_true; exact Hn).
  rewrite fdiv_fin by exact Hn. f_equal. f_equal. ring.
Qed.

(** X5. When [analyze] raises [ZeroDivisionError] (the drawdown threshold is
    zero and a frame that would be scored has no [Drawdown] column) the
    agent is left as it was, and so are its signal and its confidence.
    Otherwise [analyze] returns: after a non-empty input the signal of the
    agent is a step function of the overall score of that analysis (STABLE
    below 20, WATCH below 50, CAUTION below 80, DANGER otherwise) and its
    confidence is the one of that analysis; an empty input gives the empty
    result and leaves the agent as it was. *)
Theorem risk_signal_after_analysis (self : Risk.RiskAgent) (data : MarketData) :
  let self' := (Risk.analyze self data).1 in
  if existsb (divides_by_zero self) data.*2
  then (Risk.analyze self data).2 = Raise ZeroDivisionError /\ self' = self
  else exists r,
      (Risk.analyze self data).2 = Return r
      /\ (if truthy data then
            Risk.return_signal self' = risk_signal_of_score (Risk.overall_risk_score r)
            /\ Risk.return_confidence self' = Risk.confidence r
          else self' = self /\ r = Risk._empty_result).
Proof.
  cbv zeta. pose proof (risk_analyze_outcome self data) as Hcases.
  destruct (existsb (divides_by_zero self) data.*2); [by rewrite Hcases|].
  destruct Hcases as (r & Hr & -> & Hshape). exists r. split; [exact Hr|].
  destruct (truthy data); [|done].
  destruct Hshape as (st & _ & _ & _ & _ & _ & _ & _ & Hlevel & _).
  split; [|done].
  unfold Risk.return_signal, Risk.set_last_analysis.
  cbn [Risk.last_analysis]. rewrite Hlevel.
  unfold Risk._get_risk_level, risk_signal_of_score.
  by repeat destruct (_ <? _)%F.
Qed.

End RiskMore.

Lemma risk_scored_symbols_witness :
  NoDup month_and_two_rows.*1
  /\ exists r,
      (@Risk.analyze Double.builtins Double.numpy Double.pandas_stats
         Risk.new month_and_two_rows).2 = Return r
      /\ (Risk.individual_scores r).*1 = ["AAPL"]
      /\ (Risk.volatility r).*1 = (Risk.individual_scores r).*1
      /\ (Risk.drawdowns r).*1 = (Risk.individual_scores r).*1.
Proof.
  assert (Hnodup : NoDup month_and_two_rows.*1)
    by (apply (bool_decide_unpack _); by vm_compute).
  split; [exact Hnodup|].
  exact (@risk_scored_symbols Double.builtins Double.numpy Double.pandas_stats
           Risk.new month_and_two_rows Hnodup).
Defined.

Lemma risk_scores_in_range_witness :
  exists r,
    (@Risk.analyze Double.builtins Double.numpy flat_stats
       Risk.new month_and_two_rows).2 = Return r
    /\ Forall (within (Q2Qc 0) (Q2Qc 100)) (dict_values (Risk.individual_scores r))
    /\ within (Q2Qc 0) (Q2Qc 100) (Risk.overall_risk_score r)
    /\ within (Q2Qc 0) (Q2Qc 100) (Risk.max_risk_score r).
Proof.
  apply (@risk_scores_in_range Double.builtins Double.numpy flat_stats).
  - intros l _ _. exists (Q2Qc (2 # 100)). by vm_compute.
  - eexists. split; [vm_compute; reflexivity|]. by vm_compute.
  - exists (Q2Qc (3 # 10)). by vm_compute.
  - exists (Q2Qc (-15 # 100)). by vm_compute.
Defined.

(** With a drawdown threshold of zero, a frame of forty returns without a
    [Drawdown] column makes [analyze] raise, and the agent remembers
    nothing; the same agent scores a frame that has the column. *)
Example zero_threshold_raises :
  divides_by_zero zero_drawdown_agent no_close = true
  /\ @Risk.analyze Double.builtins Double.numpy Double.pandas_stats
       zero_drawdown_agent [("AAPL", forty_rows); ("TSLA", no_close)]
     = (zero_drawdown_agent, Raise ZeroDivisionError)
  /\ Risk.return_signal
       (@Risk.analyze Double.builtins Double.numpy Double.pandas_stats
          zero_drawdown_agent [("AAPL", forty_rows); ("TSLA", no_close)]).1
     = "NO_DATA"
  /\ (Risk.risk_level
        <$> (@Risk.analyze Double.builtins Double.numpy Double.pandas_stats
               zero_drawdown_agent [("AAPL", forty_rows)]).2)
     = Return "HIGH".
Proof. repeat split; by vm_compute. Qed.

(** ** More on the sentiment agent *)

Lemma foldl_fadd_nonneg (xs : list pyfloat) (acc : Qc) :
  Forall nonneg xs -> (Q2Qc 0 <= acc)%Qc ->
  exists s, foldl fadd (Fin acc) xs = Fin s /\ (Q2Qc 0 <= s)%Qc.
Proof.
  intros Hall. revert acc.
  induction Hall as [|x xs (q & -> & Hq) _ IH]; intros acc Hacc.
  - by exists acc.
  - cbn [foldl]. apply (IH (acc + q)%Qc). qc_to_q. lra.
Qed.

Lemma np_mean_nonneg (xs : list pyfloat) :
  xs <> [] -> Forall nonneg xs -> nonneg (np_mean xs).
Proof.
  intros Hne Hall. destruct xs as [|x xs]; [done|].
  unfold np_mean, py_sum.
  destruct (foldl_fadd_nonneg (x :: xs) (Q2Qc 0) Hall) as (s & Hs & Hs0); [done|].
  change (num 0) with (Fin (Q2Qc 0)). rewrite Hs, flen_of_nat.
  assert (Hpos : (Q2Qc 0 < of_nat (length (x :: xs)))%Qc)
    by (apply of_nat_pos; cbn; lia).
  rewrite fdiv_fin by exact Hpos.
  exists (s / of_nat (length (x :: xs)))%Qc. split; [done|].
  apply Qcle_div_l; [exact Hpos|]. qc_to_q. lra.
Qed.

Lemma label_of_zero : Sentiment._get_sentiment_label (num 0) = "NEUTRAL".
Proof. by vm_compute. Qed.

Lemma label_cases (score : pyfloat) :
  Sentiment._get_sentiment_label score ∈ ["POSITIVE"; "NEGATIVE"; "NEUTRAL"].
Proof.
  unfold Sentiment._get_sentiment_label.
  destruct (score >? _)%F; [elem_of_list|].
  destruct (score <? _)%F; elem_of_list.
Qed.

Lemma label_of_very_negative (score : pyfloat) :
  (score <? frac (-5) 10)%F = true ->
  Sentiment._get_sentiment_label score = "NEGATIVE".
Proof.
  destruct score as [q|]; [|done]. intros Hlt%flt_spec.
  unfold Sentiment._get_sentiment_label, fgt, frac. cbn [flt].
  rewrite bool_decide_eq_false_2 by (qc_to_q; lra).
  rewrite bool_decide_eq_true_2 by (qc_to_q; lra). done.
Qed.

Lemma label_of_very_positive (score : pyfloat) :
  (score >? frac 5 10)%F = true ->
  Sentiment._get_sentiment_label score = "POSITIVE".
Proof.
  destruct score as [q|]; [|done]. unfold fgt. intros Hlt%flt_spec.
  unfold Sentiment._get_sentiment_label, fgt, frac. cbn [flt].
  rewrite bool_decide_eq_true_2 by (qc_to_q; lra). done.
Qed.

Lemma count_labels_total (labels : pydict string) :
  Forall (fun l => l ∈ ["POSITIVE"; "NEGATIVE"; "NEUTRAL"]) (dict_values labels) ->
  (Sentiment.count_label labels "POSITIVE"
   + Sentiment.count_label labels "NEGATIVE"
   + Sentiment.count_label labels "NEUTRAL")%nat = length labels.
Proof.
  unfold Sentiment.count_label, dict_values.
  induction labels as [|[k l] labels IH]; [done|].
  rewrite fmap_cons, Forall_cons. cbn [snd]. intros [Hl Hall].
  specialize (IH Hall). rewrite !filter_cons. cbn [length].
  repeat (apply elem_of_cons in Hl as [-> | Hl]);
    [| | |by apply elem_of_nil in Hl];
    repeat (first [rewrite decide_True by done | rewrite decide_False by done]);
    cbn [length]; lia.
Qed.

Lemma label_map_values (scores : pydict pyfloat) :
  Forall (fun l => l ∈ ["POSITIVE"; "NEGATIVE"; "NEUTRAL"])
         (dict_values (label_map scores)).
Proof.
  unfold dict_values, label_map. apply Forall_forall. intros l Hl.
  apply list_elem_of_fmap in Hl as ([k l'] & -> & Hl).
  apply list_elem_of_fmap in Hl as ([k' s] & [= -> ->] & _).
  apply label_cases.
Qed.

Section SentimentMore.
Context `{Builtins} `{Vader}.

Lemma sentiment_step_labels (st : Sentiment.locals) (item : string * list Sentiment.article) :
  Sentiment.sentiment_labels st = label_map (Sentiment.sentiment_scores st) ->
  (Sentiment.l_article_counts st).*1 = (Sentiment.sentiment_scores st).*1 ->
  let st' := Sentiment.analyze_symbol st item in
  Sentiment.sentiment_labels st' = label_map (Sentiment.sentiment_scores st')
  /\ (Sentiment.l_article_counts st').*1 = (Sentiment.sentiment_scores st').*1.
Proof.
  intros Hlab Hkeys. destruct item as [symbol articles].
  unfold Sentiment.analyze_symbol. destruct (negb (truthy articles)); [done|].
  cbv zeta.
  destruct (truthy (Sentiment.article_scores articles));
    cbn [Sentiment.sentiment_labels Sentiment.sentiment_scores
         Sentiment.l_article_counts]; unfold label_map in *.
  - rewrite dict_set_fmap, <- Hlab. split; [done|]. by apply dict_set_keys_same.
  - rewrite dict_set_fmap, <- Hlab, label_of_zero. split; [done|].
    by apply dict_set_keys_same.
Qed.

Lemma sentiment_loop_labels (news : Sentiment.NewsData) (st : Sentiment.locals) :
  Sentiment.sentiment_labels st = label_map (Sentiment.sentiment_scores st) ->
  (Sentiment.l_article_counts st).*1 = (Sentiment.sentiment_scores st).*1 ->
  let st' := foldl Sentiment.analyze_symbol st news in
  Sentiment.sentiment_labels st' = label_map (Sentiment.sentiment_scores st')
  /\ (Sentiment.l_article_counts st').*1 = (Sentiment.sentiment_scores st').*1.
Proof.
  revert st. induction news as [|item news IH]; intros st Hlab Hkeys; [done|].
  cbn [foldl]. destruct (sentiment_step_labels st item Hlab Hkeys) as [Hlab' Hkeys'].
  by apply IH.
Qed.

Lemma collect_labels (news : Sentiment.NewsData) :
  let st := Sentiment.collect news in
  Sentiment.sentiment_labels st = label_map (Sentiment.sentiment_scores st)
  /\ (Sentiment.l_article_counts st).*1 = (Sentiment.sentiment_scores st).*1.
Proof. by apply sentiment_loop_labels. Qed.

Lemma summarise_fields (st : Sentiment.locals) :
  let r := Sentiment.summarise st in
  Sentiment.individual_scores r = Sentiment.sentiment_scores st
  /\ Sentiment.individual_labels r = Sentiment.sentiment_labels st
  /\ Sentiment.article_counts r = Sentiment.l_article_counts st
  /\ Sentiment.alerts r = foldl Sentiment.alert_step [] (Sentiment.sentiment_scores st)
  /\ Sentiment.confidence r
     = Sentiment._calculate_confidence (Sentiment.l_article_counts st).
Proof.
  unfold Sentiment.summarise. by destruct (truthy (Sentiment.sentiment_scores st)).
Qed.

(** X6. The label of every scored symbol is the label of its score, and the
    dictionary of article counts has the keys of the dictionary of scores. *)
Theorem sentiment_labels_follow_scores (self : Sentiment.SentimentAgent)
    (news : Sentiment.NewsData) :
  let r := (Sentiment.analyze self news).2 in
  Sentiment.individual_labels r = label_map (Sentiment.individual_scores r)
  /\ (Sentiment.article_counts r).*1 = (Sentiment.individual_scores r).*1.
Proof.
  unfold Sentiment.analyze. destruct news as [|item news]; [done|].
  cbn [truthy negb snd].
  destruct (summarise_fields (Sentiment.collect (item :: news)))
    as (-> & -> & -> & _).
  apply collect_labels.
Qed.

(** X7. The three counts of the distribution add up to the number of scored
    symbols. *)
Theorem sentiment_distribution_total (self : Sentiment.SentimentAgent)
    (news : Sentiment.NewsData) :
  let r := (Sentiment.analyze self news).2 in
  (Sentiment.positive (Sentiment.distribution r)
   + Sentiment.negative (Sentiment.distribution r)
   + Sentiment.neutral (Sentiment.distribution r))%nat
  = length (Sentiment.individual_scores r).
Proof.
  unfold Sentiment.analyze. destruct news as [|item news]; [done|].
  cbn [truthy negb snd].
  destruct (collect_labels (item :: news)) as [Hlab _].
  unfold Sentiment.summarise.
  destruct (Sentiment.sentiment_scores (Sentiment.collect (item :: news)))
    as [|kv scores] eqn:Hscores; [done|].
  cbn [truthy Sentiment.distribution Sentiment.individual_scores
       Sentiment.positive Sentiment.negative Sentiment.neutral].
  rewrite Hlab, count_labels_total by apply label_map_values.
  unfold label_map. by rewrite length_fmap.
Qed.

Lemma alert_step_app (acc : list Alert.t) (item : string * pyfloat) :
  Sentiment.alert_step acc item = acc ++ Sentiment.alert_step [] item.
Proof.
  destruct item as [symbol score]. unfold Sentiment.alert_step.
  destruct (score <? _)%F; [done|]. destruct (score >? _)%F; [done|].
  by rewrite app_nil_r.
Qed.

Lemma alert_loop_app (scores : pydict pyfloat) (acc : list Alert.t) :
  foldl Sentiment.alert_step acc scores
  = acc ++ foldl Sentiment.alert_step [] scores.
Proof.
  revert acc. induction scores as [|item scores IH]; intros acc.
  - by rewrite app_nil_r.
  - cbn [foldl]. rewrite IH, (IH (Sentiment.alert_step [] item)), alert_step_app.
    by rewrite app_assoc.
Qed.

Lemma alert_loop_cons (item : string * pyfloat) (scores : pydict pyfloat) :
  foldl Sentiment.alert_step [] (item :: scores)
  = Sentiment.alert_step [] item ++ foldl Sentiment.alert_step [] scores.
Proof. cbn [foldl]. apply alert_loop_app. Qed.

Lemma alert_loop_symbols (scores : pydict pyfloat) :
  Alert.symbol <$> foldl Sentiment.alert_step [] scores
  = Some <$> (filter (fun kv : string * pyfloat => extreme kv.2 = true) scores).*1.
Proof.
  induction scores as [|[symbol score] scores IH]; [done|].
  rewrite alert_loop_cons, fmap_app, IH, (filter_cons _ (symbol, score)). cbn [snd].
  unfold Sentiment.alert_step, extreme.
  destruct (score <? _)%F; [by rewrite decide_True by done|].
  destruct (score >? _)%F; [by rewrite decide_True by done|].
  by rewrite decide_False by done.
Qed.

Lemma alert_loop_ok (r : Sentiment.result) (scores : pydict pyfloat) :
  scores ⊆ Sentiment.individual_scores r ->
  Sentiment.individual_labels r = label_map (Sentiment.individual_scores r) ->
  Forall (sentiment_alert_ok r) (foldl Sentiment.alert_step [] scores).
Proof.
  intros Hsub Hlab.
  induction scores as [|[symbol score] scores IH]; [by constructor|].
  rewrite alert_loop_cons. apply Forall_app. split.
  - assert (Hin : (symbol, score) ∈ Sentiment.individual_scores r)
      by (apply Hsub; apply list_elem_of_here).
    assert (Hlabel : (symbol, Sentiment._get_sentiment_label score)
                       ∈ Sentiment.individual_labels r).
    { rewrite Hlab. unfold label_map. apply list_elem_of_fmap.
      by exists (symbol, score). }
    unfold Sentiment.alert_step.
    destruct (score <? frac (-5) 10)%F eqn:Hneg.
    { apply Forall_cons_2; [|apply Forall_nil_2].
      exists symbol, score. do 4 (split; [done|]). left.
      do 3 (split; [done|]). by rewrite <- (label_of_very_negative score Hneg). }
    destruct (score >? frac 5 10)%F eqn:Hpos; [|apply Forall_nil_2].
    apply Forall_cons_2; [|apply Forall_nil_2].
    exists symbol, score. do 4 (split; [done|]). right.
    do 3 (split; [done|]). by rewrite <- (label_of_very_positive score Hpos).
  - apply IH. intros x Hx. apply Hsub. by apply list_elem_of_further.
Qed.

(** X8. The alerts of the sentiment agent are, in the order of the scored
    symbols, one for every symbol whose score is below -0.5 or above 0.5.
    Each carries the score of its symbol; a NEGATIVE_SENTIMENT alert is
    HIGH below -0.7 and MEDIUM otherwise and its symbol is labelled
    NEGATIVE, a POSITIVE_SENTIMENT alert is LOW and its symbol is labelled
    POSITIVE. *)
Theorem sentiment_alerts_match_scores (self : Sentiment.SentimentAgent)
    (news : Sentiment.NewsData) :
  let r := (Sentiment.analyze self news).2 in
  Forall (sentiment_alert_ok r) (Sentiment.alerts r)
  /\ Alert.symbol <$> Sentiment.alerts r
     = Some <$> (filter (fun kv : string * pyfloat => extreme kv.2 = true)
                        (Sentiment.individual_scores r)).*1.
Proof.
  pose proof (sentiment_labels_helper := collect_labels news).
  unfold Sentiment.analyze. destruct news as [|item news]; [by split; [constructor|]|].
  cbn [truthy negb snd].
  set (st := Sentiment.collect (item :: news)) in *.
  destruct (summarise_fields st) as (Hs & Hl & _ & Ha & _).
  rewrite Ha. split.
  - apply alert_loop_ok; [by rewrite Hs|]. rewrite Hs, Hl.
    apply sentiment_labels_helper.
  - rewrite Hs. apply alert_loop_symbols.
Qed.

Lemma sentiment_confidence_valid (counts : pydict nat) :
  valid_confidence (Sentiment._calculate_confidence counts).
Proof.
  unfold Sentiment._calculate_confidence. destruct counts as [|kv counts].
  { exists (Q2Qc 0). by vm_compute. }
  cbn [truthy negb].
  destruct (np_mean_nonneg
              ((fun n : nat => num (Z.of_nat n)) <$> dict_values (kv :: counts)))
    as (m & -> & Hm).
  { done. }
  { apply Forall_fmap, Forall_forall. intros n _. exists (of_nat n).
    split; [done|]. apply of_nat_nonneg. }
  change (Fin m / num 10)%F with (Fin m / Fin (Q2Qc 10))%F.
  rewrite fdiv_fin by (by vm_compute).
  assert (Hq : (Q2Qc 0 <= m / Q2Qc 10)%Qc).
  { apply Qcle_div_l; [by vm_compute|]. qc_to_q. lra. }
  unfold py_min, num, frac. cbn [flt]. case_bool_decide as Hlt.
  - exists (m / Q2Qc 10)%Qc. split; [done|]. split; [exact Hq|].
    revert Hlt. generalize (m / Q2Qc 10)%Qc. intros q Hlt. qc_to_q. lra.
  - exists (Q2Qc 1). by vm_compute.
Qed.

(** X9. The confidence of the sentiment agent lies in [0, 1] for every
    input. *)
Theorem sentiment_confidence_in_unit_interval (self : Sentiment.SentimentAgent)
    (news : Sentiment.NewsData) :
  valid_confidence (Sentiment.confidence (Sentiment.analyze self news).2).
Proof.
  unfold Sentiment.analyze. destruct news as [|item news].
  - exists (Q2Qc 0). by vm_compute.
  - cbn [truthy negb snd].
    destruct (summarise_fields (Sentiment.collect (item :: news)))
      as (_ & _ & _ & _ & ->).
    apply sentiment_confidence_valid.
Qed.

(** X10. After the analysis of non-empty news the signal of the sentiment
    agent is a function of the overall score alone: VERY_NEGATIVE below
    -0.5, NEGATIVE below -0.2, VERY_POSITIVE above 0.5, POSITIVE above 0.2
    and NEUTRAL otherwise; empty news leave the agent as it was. *)
Theorem sentiment_signal_after_analysis (self : Sentiment.SentimentAgent)
    (news : Sentiment.NewsData) :
  let self' := (Sentiment.analyze self news).1 in
  let r := (Sentiment.analyze self news).2 in
  if truthy news then
    Sentiment.return_signal self' = sentiment_signal_of_score (Sentiment.overall_score r)
    /\ Sentiment.return_confidence self' = Sentiment.confidence r
  else self' = self /\ r = Sentiment._empty_result.
Proof.
  unfold Sentiment.analyze. destruct news as [|item news]; [done|].
  cbn [truthy negb fst snd]. split; [|done].
  unfold Sentiment.return_signal. cbn [Sentiment.last_analysis].
  unfold Sentiment.summarise.
  destruct (truthy (Sentiment.sentiment_scores (Sentiment.collect (item :: news))));
    cbn [Sentiment.overall_label Sentiment.overall_score]; [|by vm_compute].
  generalize (np_mean (dict_values
                (Sentiment.sentiment_scores (Sentiment.collect (item :: news))))).
  intros [q|]; [|done].
  unfold Sentiment._get_sentiment_label, sentiment_signal_of_score, fgt, frac.
  cbn [flt]. repeat case_bool_decide; try done; exfalso; qc_to_q; lra.
Qed.

Lemma article_scores_length (articles : list Sentiment.article) :
  length (Sentiment.article_scores articles)
  = length (filter (fun a => has_title a = true) articles).
Proof.
  unfold Sentiment.article_scores.
  induction articles as [|a articles IH]; [done|].
  rewrite (filter_cons _ a). cbn [omap list_omap].
  destruct (decide (has_title a = true)) as [Ht | Ht]; unfold has_title in Ht;
    destruct (Sentiment.title a) as [t|]; cbn [default] in *.
  - apply negb_true_iff, bool_decide_eq_false in Ht.
    rewrite bool_decide_eq_false_2 by exact Ht. cbn [length]. by f_equal.
  - done.
  - apply not_true_is_false, negb_false_iff, bool_decide_eq_true in Ht.
    by rewrite bool_decide_eq_true_2 by exact Ht.
  - by rewrite bool_decide_eq_true_2 by done.
Qed.

Lemma sentiment_loop_counts (news : Sentiment.NewsData) (st : Sentiment.locals) :
  NoDup news.*1 ->
  (forall k, k ∈ news.*1 -> k ∉ (Sentiment.l_article_counts st).*1) ->
  Sentiment.l_article_counts (foldl Sentiment.analyze_symbol st news)
  = Sentiment.l_article_counts st
    ++ ((fun item : string * list Sentiment.article =>
           (item.1, length (filter (fun a => has_title a = true) item.2)))
          <$> filter (fun item : string * list Sentiment.article => item.2 <> []) news).
Proof.
  revert st. induction news as [|[symbol articles] news IH]; intros st Hnodup Hfresh.
  - by rewrite app_nil_r.
  - rewrite fmap_cons in Hnodup. apply NoDup_cons in Hnodup as [Hnin Hnodup].
    cbn [foldl]. rewrite (filter_cons _ (symbol, articles)). cbn [snd].
    assert (Hsym : symbol ∉ (Sentiment.l_article_counts st).*1)
      by (apply Hfresh; rewrite fmap_cons; apply list_elem_of_here).
    unfold Sentiment.analyze_symbol at 2.
    destruct articles as [|a articles].
    + cbn [truthy negb]. rewrite decide_False by (intros Hne; by apply Hne).
      apply IH; [exact Hnodup|]. intros k Hk. apply Hfresh.
      rewrite fmap_cons. by apply list_elem_of_further.
    + cbn [truthy negb]. rewrite decide_True by done. cbv zeta.
      assert (Hcounts :
        Sentiment.l_article_counts
          (if truthy (Sentiment.article_scores (a :: articles)) then
             {| Sentiment.sentiment_scores :=
                  dict_set (Sentiment.sentiment_scores st) symbol
                    (np_mean (Sentiment.article_scores (a :: articles)));
                Sentiment.sentiment_labels :=
                  dict_set (Sentiment.sentiment_labels st) symbol
                    (Sentiment._get_sentiment_label
                       (np_mean (Sentiment.article_scores (a :: articles))));
                Sentiment.l_article_counts :=
                  dict_set (Sentiment.l_article_counts st) symbol
                    (length (Sentiment.article_scores (a :: articles))) |}
           else
             {| Sentiment.sentiment_scores :=
                  dict_set (Sentiment.sentiment_scores st) symbol (num 0);
                Sentiment.sentiment_labels :=
                  dict_set (Sentiment.sentiment_labels st) symbol "NEUTRAL";
                Sentiment.l_article_counts :=
                  dict_set (Sentiment.l_article_counts st) symbol 0%nat |})
        = Sentiment.l_article_counts st
          ++ [(symbol, length (filter (fun a => has_title a = true) (a :: articles)))]).
      { rewrite <- article_scores_length.
        destruct (Sentiment.article_scores (a :: articles)) eqn:Hscores;
          cbn [truthy Sentiment.l_article_counts length];
          by rewrite dict_set_keys_fresh. }
      rewrite IH; [|exact Hnodup|].
      * rewrite Hcounts, fmap_cons, <- app_assoc. done.
      * intros k Hk. rewrite Hcounts, fmap_app, elem_of_app.
        intros [Hin | Hin%list_elem_of_singleton].
        -- revert Hin. apply Hfresh. rewrite fmap_cons.
           by apply list_elem_of_further.
        -- cbn in Hin. by subst k.
Qed.

(** X11. With unique symbols, the sentiment agent counts for every symbol
    with at least one article the articles whose title is present and not
    empty, in the order of the input; symbols without articles are left
    out. *)
Theorem sentiment_counts_titled_articles (self : Sentiment.SentimentAgent)
    (news : Sentiment.NewsData) :
  NoDup news.*1 ->
  Sentiment.article_counts (Sentiment.analyze self news).2
  = (fun item : string * list Sentiment.article =>
       (item.1, length (filter (fun a => has_title a = true) item.2)))
      <$> filter (fun item : string * list Sentiment.article => item.2 <> []) news.
Proof.
  intros Hnodup. unfold Sentiment.analyze. destruct news as [|item news]; [done|].
  cbn [truthy negb snd].
  destruct (summarise_fields (Sentiment.collect (item :: news)))
    as (_ & _ & -> & _).
  unfold Sentiment.collect. rewrite sentiment_loop_counts; [done|exact Hnodup|].
  intros k _. apply not_elem_of_nil.
Qed.

Section VaderRange.
Hypothesis compound_range :
  forall text, within (Q2Qc (-1)) (Q2Qc 1) (polarity_compound text).

Lemma article_scores_within (articles : list Sentiment.article) :
  Forall (within (Q2Qc (-1)) (Q2Qc 1)) (Sentiment.article_scores articles).
Proof.
  unfold Sentiment.article_scores. apply Forall_forall. intros x Hx.
  apply list_elem_of_omap in Hx as (a & _ & Hx).
  destruct (bool_decide _); [done|]. injection Hx as <-. apply compound_range.
Qed.

Lemma sentiment_loop_scores_within (news : Sentiment.NewsData) (st : Sentiment.locals) :
  Forall (within (Q2Qc (-1)) (Q2Qc 1)) (dict_values (Sentiment.sentiment_scores st)) ->
  Forall (within (Q2Qc (-1)) (Q2Qc 1))
    (dict_values (Sentiment.sentiment_scores (foldl Sentiment.analyze_symbol st news))).
Proof.
  revert st. induction news as [|[symbol articles] news IH]; intros st Hst; [done|].
  cbn [foldl]. apply IH. unfold Sentiment.analyze_symbol.
  destruct (negb (truthy articles)); [done|]. cbv zeta.
  pose proof (article_scores_within articles) as Hall.
  destruct (Sentiment.article_scores articles) as [|x xs] eqn:Hscores;
    cbn [truthy Sentiment.sentiment_scores];
    (apply dict_set_Forall_values; [exact Hst|]).
  - exists (Q2Qc 0). by vm_compute.
  - by apply np_mean_within.
Qed.

(** X12. When every compound score of the analyser lies in [-1, 1], so do
    the score of every symbol and the overall score. *)
Theorem sentiment_scores_in_range (self : Sentiment.SentimentAgent)
    (news : Sentiment.NewsData) :
  let r := (Sentiment.analyze self news).2 in
  Forall (within (Q2Qc (-1)) (Q2Qc 1)) (dict_values (Sentiment.individual_scores r))
  /\ within (Q2Qc (-1)) (Q2Qc 1) (Sentiment.overall_score r).
Proof.
  assert (Hzero : within (Q2Qc (-1)) (Q2Qc 1) (num 0))
    by (exists (Q2Qc 0); by vm_compute).
  unfold Sentiment.analyze. destruct news as [|item news].
  { split; [constructor|exact Hzero]. }
  cbn [truthy negb snd].
  pose proof (sentiment_loop_scores_within (item :: news)
                (Sentiment.mk_locals [] [] []) ltac:(constructor)) as Hall.
  change (foldl Sentiment.analyze_symbol (Sentiment.mk_locals [] [] []) (item :: news))
    with (Sentiment.collect (item :: news)) in Hall.
  unfold Sentiment.summarise.
  destruct (Sentiment.sentiment_scores (Sentiment.collect (item :: news)))
    as [|kv scores] eqn:Hscores;
    cbn [truthy Sentiment.individual_scores Sentiment.overall_score].
  - split; [constructor|exact Hzero].
  - split; [exact Hall|]. by apply np_mean_within.
Qed.

End VaderRange.

End SentimentMore.

Lemma sentiment_counts_titled_articles_witness :
  Sentiment.article_counts scenario_result
  = [ ("AAPL", 1%nat); ("MSFT", 1%nat); ("GOOGL", 1%nat) ].
Proof.
  apply (@sentiment_counts_titled_articles Double.builtins Double.vader
           Sentiment.new scenario_news).
  apply (bool_decide_unpack _). by vm_compute.
Defined.

Lemma sentiment_scores_in_range_witness :
  Forall (within (Q2Qc (-1)) (Q2Qc 1))
         (dict_values (Sentiment.individual_scores scenario_result))
  /\ within (Q2Qc (-1)) (Q2Qc 1) (Sentiment.overall_score scenario_result).
Proof.
  apply (@sentiment_scores_in_range Double.builtins Double.vader).
  intros text. unfold polarity_compound, Double.vader.
  repeat case_bool_decide; eexists; (split; [reflexivity|by vm_compute]).
Defined.

(** ** More on the forecast agent *)

Lemma bind_Return_inv {A B} (m : outcome A) (k : A -> outcome B) (b : B) :
  (x ← m; k x) = Return b -> exists a, m = Return a /\ k a = Return b.
Proof. destruct m as [a|e]; [|done]. intros Hk. by exists a. Qed.

Lemma fmap_Return_inv {A B} (f : A -> B) (m : outcome A) (b : B) :
  f <$> m = Return b -> exists a, m = Return a /\ b = f a.
Proof. destruct m as [a|e]; [|done]. intros [= <-]. by exists a. Qed.

Lemma of_nat_le (n m : nat) : (n <= m)%nat -> (of_nat n <= of_nat m)%Qc.
Proof.
  intros Hle. unfold of_nat. qc_to_q. unfold Qle. cbn [Qnum Qden]. lia.
Qed.

Lemma direction_ratio (n m : nat) :
  (n <= m)%nat -> confidence_or_nan (num (Z.of_nat n) / num (Z.of_nat m))%F.
Proof.
  intros Hle. destruct m as [|m].
  - left. assert (n = 0%nat) as -> by lia. by vm_compute.
  - right. change (num (Z.of_nat n)) with (Fin (of_nat n)).
    change (num (Z.of_nat (S m))) with (Fin (of_nat (S m))).
    assert (Hpos : (Q2Qc 0 < of_nat (S m))%Qc) by (apply of_nat_pos; lia).
    rewrite fdiv_fin by exact Hpos.
    exists (of_nat n / of_nat (S m))%Qc. split; [done|].
    pose proof (of_nat_nonneg n) as Hn. pose proof (of_nat_le n (S m) Hle) as Hnm.
    split.
    + apply Qcle_div_l; [exact Hpos|]. revert Hn. generalize (of_nat n) (of_nat (S m)).
      intros x y Hx. qc_to_q. lra.
    + apply Qcle_div_r; [exact Hpos|]. revert Hnm. generalize (of_nat n) (of_nat (S m)).
      intros x y Hxy. qc_to_q. lra.
Qed.

Lemma correct_direction_le (recent_pred y_recent : list pyfloat) :
  (Forecast.correct_direction recent_pred y_recent <= length y_recent)%nat.
Proof.
  unfold Forecast.correct_direction.
  etransitivity; [apply length_filter|]. rewrite length_zip_with. lia.
Qed.

Section ForecastMore.
Context `{Sklearn} `{FeaturePipeline}.

Lemma train_and_predict_returns (self : Forecast.ForecastAgent)
    (features_df : DataFrame.t) (p c : pyfloat) (t : string) :
  Forecast._train_and_predict self features_df = Return (p, c, t) ->
  t ∈ ["UPTREND"; "DOWNTREND"; "SIDEWAYS"]
  /\ (if bool_decide (10 < DataFrame.len features_df)%nat
      then confidence_or_nan c else c = frac 5 10).
Proof.
  unfold Forecast._train_and_predict. intros Hret.
  apply bind_Return_inv in Hret as (rows & _ & Hret). cbv beta zeta in Hret.
  apply bind_Return_inv in Hret as (target & _ & Hret). cbv beta zeta in Hret.
  apply bind_Return_inv in Hret as (fitted & _ & Hret).
  apply bind_Return_inv in Hret as (predicted & _ & Hret).
  apply bind_Return_inv in Hret as (prediction & _ & Hret).
  apply bind_Return_inv in Hret as (confidence & Hconf & Hret).
  apply bind_Return_inv in Hret as (sma_5 & _ & Hret).
  apply bind_Return_inv in Hret as (sma_20 & _ & Hret).
  cbv zeta in Hret. injection Hret as _ -> <-. split.
  - destruct (sma_5 >? _)%F; [elem_of_list|].
    destruct (sma_5 <? _)%F; elem_of_list.
  - case_bool_decide as Hlen.
    + cbv zeta in Hconf.
      apply bind_Return_inv in Hconf as (recent_pred & _ & Hconf).
      injection Hconf as <-. apply direction_ratio, correct_direction_le.
    + by injection Hconf as <-.
Qed.

(** X13. When [_train_and_predict] returns, the trend is UPTREND, DOWNTREND
    or SIDEWAYS; the confidence is 0.5 on a feature frame of at most ten
    rows, and otherwise a number of [0, 1] or not a number. *)
Theorem train_and_predict_result_shape (self : Forecast.ForecastAgent)
    (features_df : DataFrame.t) (p c : pyfloat) (t : string) :
  Forecast._train_and_predict self features_df = Return (p, c, t) ->
  t ∈ ["UPTREND"; "DOWNTREND"; "SIDEWAYS"]
  /\ (if bool_decide (10 < DataFrame.len features_df)%nat
      then confidence_or_nan c else c = frac 5 10).
Proof. apply train_and_predict_returns. Qed.

Lemma getitem_missing (df : DataFrame.t) (c : string) :
  dict_get (DataFrame.columns df) c = None ->
  Forecast.getitem df c = Raise (KeyError c).
Proof. unfold Forecast.getitem. by intros ->. Qed.

Lemma getitem_present (df : DataFrame.t) (c : string) (s : list pyfloat) :
  dict_get (DataFrame.columns df) c = Some s -> Forecast.getitem df c = Return s.
Proof. unfold Forecast.getitem. by intros ->. Qed.

(** X14. On a feature frame that lacks some of the nine feature columns,
    [_train_and_predict] raises the [KeyError] that pandas builds for the
    selection of the nine columns, from the columns asked for and the
    absent ones; on a frame that has the nine and lacks the target column,
    it raises [KeyError('Target')]. *)
Theorem train_and_predict_missing_column (self : Forecast.ForecastAgent)
    (features_df : DataFrame.t) :
  let missing :=
    filter (fun c => dict_get (DataFrame.columns features_df) c = None)
           Forecast.feature_cols in
  missing <> [] \/ dict_get (DataFrame.columns features_df) "Target" = None ->
  Forecast._train_and_predict self features_df
  = Raise (if bool_decide (missing = []) then KeyError "Target"
           else KeyErrorNotInIndex Forecast.feature_cols missing).
Proof.
  cbv zeta. intros Hmissing.
  unfold Forecast._train_and_predict, Forecast.getitems.
  destruct (bool_decide (filter _ Forecast.feature_cols = [])) eqn:Hnone;
    [|reflexivity].
  apply bool_decide_eq_true in Hnone.
  destruct Hmissing as [Hne | Htarget]; [done|].
  cbn [mbind outcome_bind mret outcome_ret].
  by rewrite (getitem_missing _ _ Htarget).
Qed.

Lemma forecast_symbol_returns (self : Forecast.ForecastAgent) (df : DataFrame.t)
    (p c : pyfloat) (t : string) :
  Forecast.forecast_symbol self df = Return (Some (p, c, t)) ->
  exists features_df, Forecast._train_and_predict self features_df = Return (p, c, t).
Proof.
  unfold Forecast.forecast_symbol.
  intros (features_df & _ & Hret)%bind_Return_inv.
  destruct (DataFrame.empty features_df); [done|].
  apply fmap_Return_inv in Hret as (x & Hret & [= ->]). by exists features_df.
Qed.

Lemma forecast_loop_inv (self : Forecast.ForecastAgent) (data items : MarketData)
    (st : Forecast.locals) :
  items ⊆ data ->
  Forall forecast_ok (dict_values (Forecast.l_forecasts st)) ->
  Forecast.confidences st = confidence_map (Forecast.l_forecasts st) ->
  Forall (forecast_source self data) (Forecast.l_forecasts st).*1 ->
  let st' := foldl (Forecast.analyze_symbol self) st items in
  Forall forecast_ok (dict_values (Forecast.l_forecasts st'))
  /\ Forecast.confidences st' = confidence_map (Forecast.l_forecasts st')
  /\ Forall (forecast_source self data) (Forecast.l_forecasts st').*1.
Proof.
  revert st. induction items as [|[symbol df] items IH];
    intros st Hsub Hok Hconf Hsrc; [done|].
  cbn [foldl]. apply IH.
  { intros x Hx. apply Hsub. by apply list_elem_of_further. }
  all: unfold Forecast.analyze_symbol.
  all: destruct (DataFrame.empty df) eqn:Hempty; cbn [orb]; [done|].
  all: case_bool_decide as Hlen; [done|].
  all: destruct (Forecast.forecast_symbol self df) as [[[[p c] t]|]|e] eqn:Hf;
         [|done..].
  all: cbn [Forecast.l_forecasts Forecast.confidences].
  - apply dict_set_Forall_values; [exact Hok|].
    destruct (forecast_symbol_returns self df p c t Hf) as (features_df & Hret).
    apply train_and_predict_returns in Hret as [Htrend Hc].
    split; [done|]. split; [exact Htrend|].
    cbn [Forecast.fc_confidence]. case_bool_decide; [exact Hc|].
    subst c. right. exists (Q2Qc (5 # 10)). by vm_compute.
  - unfold confidence_map. rewrite dict_set_fmap. cbn [Forecast.fc_confidence].
    by rewrite Hconf.
  - apply Forall_forall. intros k [-> | Hk]%dict_set_elem_of_keys.
    + exists df, (p, c, t). split; [apply Hsub; apply list_elem_of_here|].
      split; [done|]. split; [lia|done].
    + rewrite Forall_forall in Hsrc. by apply Hsrc.
Qed.

Lemma forecast_analyze_inv (self : Forecast.ForecastAgent) (data : MarketData) :
  let st := foldl (Forecast.analyze_symbol self) (Forecast.mk_locals [] [] []) data in
  Forall forecast_ok (dict_values (Forecast.l_forecasts st))
  /\ Forecast.confidences st = confidence_map (Forecast.l_forecasts st)
  /\ Forall (forecast_source self data) (Forecast.l_forecasts st).*1.
Proof. apply forecast_loop_inv; [done|constructor|done|constructor]. Qed.

Lemma market_sentiment_known (up down : nat) :
  (if bool_decide (down < up)%nat then "BULLISH"
   else if bool_decide (up < down)%nat then "BEARISH" else "NEUTRAL")
  <> "UNKNOWN".
Proof. by repeat case_bool_decide. Qed.

(** X15. In every result of the forecast agent, each forecast has the
    direction of its predicted return (FLAT when that is zero or not a
    number), one of the three trends and a confidence in [0, 1] or not a
    number; the market sentiment is UNKNOWN exactly when there is no
    forecast; and the overall confidence is the mean of the confidences of
    the forecasts, or 0 when there is none. *)
Theorem forecast_result_consistent (self : Forecast.ForecastAgent)
    (data : MarketData) :
  let r := (Forecast.analyze self data).2 in
  Forall forecast_ok (dict_values (Forecast.forecasts r))
  /\ (Forecast.market_sentiment r = "UNKNOWN" <-> Forecast.forecasts r = [])
  /\ Forecast.confidence r
     = (if truthy (Forecast.forecasts r)
        then np_mean (Forecast.fc_confidence <$> dict_values (Forecast.forecasts r))
        else num 0).
Proof.
  unfold Forecast.analyze. destruct data as [|item data].
  { cbn. split; [constructor|]. by split. }
  cbn [truthy negb snd].
  destruct (forecast_analyze_inv self (item :: data)) as (Hok & Hconf & _).
  set (st := foldl _ _ _) in *.
  destruct (Forecast.l_forecasts st) as [|kv fs] eqn:Hfs;
    cbn [truthy snd Forecast.forecasts Forecast.market_sentiment Forecast.confidence].
  - rewrite Hconf. cbn. split; [constructor|]. by split.
  - split; [exact Hok|]. split.
    + split; [|done]. intros Hunknown. by apply market_sentiment_known in Hunknown.
    + rewrite Hconf. unfold confidence_map, dict_values. cbn [fmap list_fmap truthy].
      do 2 f_equal. rewrite <- !list_fmap_compose. by apply list_fmap_ext.
Qed.

(** X16. Every symbol with a forecast comes from a frame of the input that
    is not empty and has at least thirty rows, and for which feature
    preparation, training and prediction returned without an exception. *)
Theorem forecast_symbols_have_history (self : Forecast.ForecastAgent)
    (data : MarketData) :
  Forall (forecast_source self data)
         (Forecast.forecasts (Forecast.analyze self data).2).*1.
Proof.
  unfold Forecast.analyze. destruct data as [|item data]; [constructor|].
  cbn [truthy negb snd].
  destruct (forecast_analyze_inv self (item :: data)) as (_ & _ & Hsrc).
  set (st := foldl _ _ _) in *.
  by destruct (truthy (Forecast.l_forecasts st)).
Qed.

(** X17. After the analysis of a non-empty input the signal of the forecast
    agent is BULLISH when the UP forecasts outnumber the DOWN forecasts,
    BEARISH when the DOWN forecasts outnumber the UP forecasts and NEUTRAL
    otherwise, also when there is no forecast; an empty input leaves the
    agent as it was. *)
Theorem forecast_signal_after_analysis (self : Forecast.ForecastAgent)
    (data : MarketData) :
  let self' := (Forecast.analyze self data).1 in
  let r := (Forecast.analyze self data).2 in
  if truthy data then
    Forecast.return_signal self'
    = forecast_signal_of_counts
        (Forecast.count_direction (Forecast.forecasts r) "UP")
        (Forecast.count_direction (Forecast.forecasts r) "DOWN")
    /\ Forecast.return_confidence self' = Forecast.confidence r
  else self' = self /\ r = Forecast._empty_result.
Proof.
  unfold Forecast.analyze. destruct data as [|item data]; [done|].
  cbn [truthy negb]. set (st := foldl _ _ _).
  destruct (Forecast.l_forecasts st) as [|kv fs] eqn:Hfs;
    cbn [truthy fst snd Forecast.forecasts Forecast.market_sentiment
         Forecast.confidence].
  all: unfold Forecast.return_signal, Forecast.return_confidence,
         Forecast.set_last_analysis.
  all: cbn [Forecast.last_analysis Forecast.market_sentiment Forecast.confidence].
  - done.
  - split; [|done]. unfold forecast_signal_of_counts. by repeat case_bool_decide.
Qed.

End ForecastMore.

Lemma train_and_predict_result_shape_witness :
  "SIDEWAYS" ∈ ["UPTREND"; "DOWNTREND"; "SIDEWAYS"]
  /\ (if bool_decide (10 < DataFrame.len forty_features)%nat
      then confidence_or_nan (num 1) else num 1 = frac 5 10).
Proof.
  apply (@train_and_predict_result_shape Double.sklearn
           Forecast.new forty_features (frac 1 100) (num 1) "SIDEWAYS").
  apply (bool_decide_eq_true_1 _). by vm_compute.
Defined.

Lemma train_and_predict_missing_column_witness :
  (filter (fun c => dict_get (DataFrame.columns no_rsi) c = None)
          Forecast.feature_cols <> []
   \/ dict_get (DataFrame.columns no_rsi) "Target" = None)
  /\ @Forecast._train_and_predict Double.sklearn Forecast.new no_rsi
     = Raise (KeyErrorNotInIndex Forecast.feature_cols ["RSI"]).
Proof.
  assert (Hmissing :
            filter (fun c => dict_get (DataFrame.columns no_rsi) c = None)
                   Forecast.feature_cols <> []
            \/ dict_get (DataFrame.columns no_rsi) "Target" = None)
    by (left; by vm_compute).
  split; [exact Hmissing|].
  exact (@train_and_predict_missing_column Double.sklearn Forecast.new no_rsi
           Hmissing).
Defined.

(** A frame with none of the nine columns, and a frame with the nine and
    no target. *)
Example train_and_predict_missing_columns :
  @Forecast._train_and_predict Double.sklearn Forecast.new no_close
  = Raise (KeyErrorNotInIndex Forecast.feature_cols Forecast.feature_cols)
  /\ @Forecast._train_and_predict Double.sklearn Forecast.new no_target
     = Raise (KeyError "Target").
Proof. split; by vm_compute. Qed.

(** ** More on the correlation agent *)



Section CorrelationMore.
Context `{Builtins} `{PandasFrame}.

Lemma pair_loop_short (self : Correlation.CorrelationAgent) (df : DataFrame.t)
    (w : nat) (ps : list (string * string))
    (st : list Correlation.high_correlation * list Correlation.correlation_increase) :
  (DataFrame.len df <= 60)%nat ->
  (foldl (Correlation.pair_step self df w) st ps).2 = st.2.
Proof.
  intros Hlen. revert st. induction ps as [|[s1 s2] ps IH]; intros [h i]; [done|].
  cbn [foldl]. rewrite IH. unfold Correlation.pair_step.
  by rewrite bool_decide_eq_false_2 by lia.
Qed.

Lemma diversification_within (avg : pyfloat) :
  within (Q2Qc 0) (Q2Qc 100) (py_max (num 0) (num 100 * (num 1 - fabs avg))%F).
Proof.
  destruct avg as [a|]; [|exists (Q2Qc 0); by vm_compute].
  unfold py_max, fgt, num, frac. cbn [fabs fsub fmul lift2 flt].
  pose proof (Qcabs_nonneg a) as Habs. revert Habs. generalize (Qcabs a).
  intros b Hb. case_bool_decide as Hlt.
  - eexists. split; [reflexivity|]. split; qc_to_q; lra.
  - exists (Q2Qc 0). by vm_compute.
Qed.

Lemma frame_confidence (df : DataFrame.t) :
  DataFrame.empty df = false -> (20 <= DataFrame.len df)%nat ->
  Correlation._calculate_confidence df ∈ [frac 6 10; frac 8 10; num 1]
  /\ (Correlation._calculate_confidence df <> num 1 -> (DataFrame.len df <= 60)%nat).
Proof.
  intros Hempty Hlen. unfold Correlation._calculate_confidence. rewrite Hempty.
  repeat case_bool_decide; try lia; (split; [elem_of_list|]); intros Hne;
    first [done | lia].
Qed.

Lemma analyze_frame_fields (self : Correlation.CorrelationAgent) (df : DataFrame.t) :
  let r := Correlation.analyze_frame self df in
  let avg := Correlation.average_correlation r in
  within (Q2Qc 0) (Q2Qc 100) (Correlation.diversification_score r)
  /\ Correlation.confidence r = Correlation._calculate_confidence df
  /\ Correlation.risk_level r
     = (if (fabs avg >? frac 8 10)%F then "HIGH"
        else if (fabs avg >? frac 6 10)%F then "MEDIUM" else "LOW")
  /\ Correlation.alerts r
     = (if (fabs avg >? Correlation.high_correlation_threshold self)%F then
          [ {| Alert.symbol := None;
               Alert.type := "HIGH_PORTFOLIO_CORRELATION";
               Alert.severity := Some "HIGH";
               Alert.message :=
                 "Portfolio shows high average correlation ("
                   +:+ format avg ".2f" +:+ ")";
               Alert.value := avg;
               Alert.source := None |} ]
        else [])
       ++ (Correlation.increase_alert <$> Correlation.correlation_increases r)
  /\ ((DataFrame.len df <= 60)%nat -> Correlation.correlation_increases r = []).
Proof.
  unfold Correlation.analyze_frame. cbv zeta.
  pose proof (pair_loop_short self df (Nat.min 20 (DataFrame.len df / 3))
                (Correlation.pairs (DataFrame.columns df).*1) ([], [])) as Hshort.
  destruct (foldl _ _ _) as [h i].
  cbn [Correlation.diversification_score Correlation.confidence
       Correlation.risk_level Correlation.alerts Correlation.average_correlation
       Correlation.correlation_increases].
  split; [apply diversification_within|]. do 3 (split; [done|]). exact Hshort.
Qed.

Lemma correlation_analyze_cases (self : Correlation.CorrelationAgent)
    (data : MarketData) :
  Correlation.analyze data self = (self, Return Correlation._empty_result)
  \/ (exists e, Correlation.analyze data self = (self, Raise e))
  \/ (exists df,
        DataFrame.empty df = false /\ (20 <= DataFrame.len df)%nat
        /\ Correlation.analyze data self
           = (Correlation.set_last_analysis self (Correlation.analyze_frame self df),
              Return (Correlation.analyze_frame self df))).
Proof.
  unfold Correlation.analyze.
  destruct (negb (truthy data) || bool_decide (length data < 2)%nat); [by left|].
  case_bool_decide; [by left|].
  destruct (frame_of_series_dropna _) as [df|e]; [|right; left; by exists e].
  destruct (DataFrame.empty df) eqn:Hempty; cbn [orb]; [by left|].
  case_bool_decide as Hlen; [by left|].
  right. right. exists df. split; [done|]. split; [lia|done].
Qed.

Lemma analyze_frame_alerts_ok (self : Correlation.CorrelationAgent) (df : DataFrame.t) :
  Forall correlation_alert_ok (Correlation.alerts (Correlation.analyze_frame self df)).
Proof.
  destruct (analyze_frame_fields self df) as (_ & _ & _ & -> & _).
  apply Forall_app. split.
  - destruct (_ >? _)%F; [|constructor].
    apply Forall_cons_2; [|apply Forall_nil_2].
    split; [done|]. split; [done|]. elem_of_list.
  - apply Forall_fmap, Forall_forall. intros c _.
    split; [done|]. split; [done|]. cbn. elem_of_list.
Qed.

(** X18. Whenever the correlation agent returns, the diversification score
    lies in [0, 100], the confidence is 0, 0.6, 0.8 or 1, the risk level is
    UNKNOWN, LOW, MEDIUM or HIGH, and every alert is portfolio-wide (no
    symbol) and is a HIGH portfolio alert or a MEDIUM increase alert. *)
Theorem correlation_result_well_formed (self : Correlation.CorrelationAgent)
    (data : MarketData) :
  match (Correlation.analyze data self).2 with
  | Return r =>
      within (Q2Qc 0) (Q2Qc 100) (Correlation.diversification_score r)
      /\ Correlation.confidence r ∈ [num 0; frac 6 10; frac 8 10; num 1]
      /\ Correlation.risk_level r ∈ ["UNKNOWN"; "LOW"; "MEDIUM"; "HIGH"]
      /\ Forall correlation_alert_ok (Correlation.alerts r)
  | Raise _ => True
  end.
Proof.
  destruct (correlation_analyze_cases self data)
    as [-> | [(e & ->) | (df & Hempty & Hlen & ->)]]; cbn [snd]; [|done|].
  - split; [exists (Q2Qc 0); by vm_compute|].
    split; [elem_of_list|]. split; [elem_of_list|]. constructor.
  - destruct (analyze_frame_fields self df) as (Hdiv & -> & -> & _).
    split; [exact Hdiv|]. split; [|split].
    + apply list_elem_of_further. by apply frame_confidence.
    + destruct (_ >? _)%F; [elem_of_list|]. destruct (_ >? _)%F; elem_of_list.
    + apply analyze_frame_alerts_ok.
Qed.

(** X19. The correlation agent analyses, and caches, exactly when the input
    has at least two symbols, at least two of them have a non-empty
    [Returns] series, and the frame that joins these series and drops the
    incomplete rows is not empty and has at least twenty rows.  With fewer
    than two symbols or series, or a joined frame of fewer than twenty
    rows, it returns the empty result and leaves the agent as it was; when
    pandas raises while it joins the series, so does the agent, and it is
    left as it was.  After a cached analysis the threshold is unchanged,
    the level is not UNKNOWN, the signal is HIGH_CORRELATION when the
    absolute average correlation is above 0.8, MODERATE_CORRELATION when it
    is above 0.6 and WELL_DIVERSIFIED otherwise, and the confidence of the
    agent is the one of the result: 1 from sixty rows, 0.8 from thirty,
    0.6 otherwise. *)
Theorem correlation_cache_discipline (self : Correlation.CorrelationAgent)
    (data : MarketData) :
  let returns_dict := foldl Correlation.returns_step [] data in
  let self' := (Correlation.analyze data self).1 in
  if bool_decide (length data < 2)%nat || bool_decide (length returns_dict < 2)%nat
  then Correlation.analyze data self = (self, Return Correlation._empty_result)
  else
    match frame_of_series_dropna returns_dict with
    | Raise e => Correlation.analyze data self = (self, Raise e)
    | Return returns_df =>
        if DataFrame.empty returns_df
           || bool_decide (DataFrame.len returns_df < 20)%nat
        then Correlation.analyze data self = (self, Return Correlation._empty_result)
        else exists r,
            (Correlation.analyze data self).2 = Return r
            /\ Correlation.last_analysis self' = Some r
            /\ Correlation.high_correlation_threshold self'
               = Correlation.high_correlation_threshold self
            /\ Correlation.risk_level r <> "UNKNOWN"
            /\ Correlation.return_signal self'
               = correlation_signal_of (Correlation.average_correlation r)
            /\ Correlation.return_confidence self' = Correlation.confidence r
            /\ Correlation.confidence r
               = (if bool_decide (60 <= DataFrame.len returns_df)%nat then num 1
                  else if bool_decide (30 <= DataFrame.len returns_df)%nat
                       then frac 8 10 else frac 6 10)
    end.
Proof.
  cbv zeta. unfold Correlation.analyze.
  destruct data as [|item data]; [done|]. cbn [truthy negb orb].
  destruct (bool_decide (length (item :: data) < 2)%nat); [done|]. cbn [orb].
  destruct (bool_decide (length (foldl Correlation.returns_step [] (item :: data)) < 2)%nat);
    [done|].
  destruct (frame_of_series_dropna _) as [df|e]; [|done].
  destruct (DataFrame.empty df) eqn:Hempty; cbn [orb]; [done|].
  case_bool_decide as Hlen; [done|].
  cbn [fst snd]. eexists. split; [reflexivity|]. split; [done|]. split; [done|].
  destruct (analyze_frame_fields self df) as (_ & Hconf & Hlevel & _).
  split; [|split; [|split]].
  - rewrite Hlevel. destruct (_ >? _)%F; [done|]. by destruct (_ >? _)%F.
  - unfold Correlation.return_signal.
    cbn [Correlation.set_last_analysis Correlation.last_analysis].
    rewrite Hlevel. unfold correlation_signal_of.
    destruct (_ >? _)%F; [done|]. by destruct (_ >? _)%F.
  - done.
  - rewrite Hconf. unfold Correlation._calculate_confidence. rewrite Hempty.
    repeat case_bool_decide; first [done | lia].
Qed.


(** X21. A result of the correlation agent whose confidence is below 1 was
    computed on at most sixty rows: it lists no correlation increase and
    has at most one alert. *)
Theorem correlation_short_history_no_increase (self : Correlation.CorrelationAgent)
    (data : MarketData) :
  match (Correlation.analyze data self).2 with
  | Return r =>
      Correlation.confidence r <> num 1 ->
      Correlation.correlation_increases r = []
      /\ (length (Correlation.alerts r) <= 1)%nat
  | Raise _ => True
  end.
Proof.
  destruct (correlation_analyze_cases self data)
    as [-> | [(e & ->) | (df & Hempty & Hlen & ->)]]; cbn [snd]; [|done|].
  - intros _. split; [done|]. cbn. lia.
  - destruct (analyze_frame_fields self df) as (_ & Hconf & _ & Halerts & Hshort).
    rewrite Hconf, Halerts. intros Hne.
    destruct (frame_confidence df Hempty Hlen) as [_ Hsixty].
    rewrite (Hshort (Hsixty Hne)). split; [done|].
    cbn [fmap list_fmap]. rewrite app_nil_r. destruct (_ >? _)%F; cbn; lia.
Qed.

(** X22. With a threshold of at most 0.8, a result of risk level HIGH that
    the correlation agent returns starts with a HIGH_PORTFOLIO_CORRELATION
    alert of severity HIGH that carries the average correlation. *)
Theorem correlation_high_risk_alerted (self : Correlation.CorrelationAgent)
    (data : MarketData) (t : Qc) (r : Correlation.result) :
  Correlation.high_correlation_threshold self = Fin t ->
  (t <= Q2Qc (8 # 10))%Qc ->
  (Correlation.analyze data self).2 = Return r ->
  Correlation.risk_level r = "HIGH" ->
  exists a rest,
    Correlation.alerts r = a :: rest
    /\ Alert.type a = "HIGH_PORTFOLIO_CORRELATION"
    /\ Alert.severity a = Some "HIGH"
    /\ Alert.value a = Correlation.average_correlation r.
Proof.
  intros Hthr Ht.
  destruct (correlation_analyze_cases self data)
    as [-> | [(e & ->) | (df & Hempty & Hlen & ->)]]; cbn [snd].
  - by intros [= <-].
  - done.
  - intros [= <-].
    destruct (analyze_frame_fields self df) as (_ & _ & -> & -> & _).
    rewrite Hthr.
    destruct (Correlation.average_correlation _) as [a|]; [|done].
    unfold fgt, frac. cbn [fabs flt]. case_bool_decide as Hhigh.
    + intros _. rewrite bool_decide_eq_true_2 by (qc_to_q; lra).
      eexists _, _. by split.
    + by case_bool_decide.
Qed.

End CorrelationMore.


Lemma correlation_high_risk_alerted_witness :
  (@Correlation.analyze Double.builtins Double.pandas_frame month_pair
     Correlation.new).2 = Return month_pair_result
  /\ Correlation.risk_level month_pair_result = "HIGH"
  /\ exists a rest,
      Correlation.alerts month_pair_result = a :: rest
      /\ Alert.type a = "HIGH_PORTFOLIO_CORRELATION"
      /\ Alert.severity a = Some "HIGH"
      /\ Alert.value a = Correlation.average_correlation month_pair_result.
Proof.
  assert (Hret : (@Correlation.analyze Double.builtins Double.pandas_frame
                    month_pair Correlation.new).2 = Return month_pair_result)
    by (vm_compute; reflexivity).
  assert (Hlevel : Correlation.risk_level month_pair_result = "HIGH")
    by (vm_compute; reflexivity).
  split; [exact Hret|]. split; [exact Hlevel|].
  apply (@correlation_high_risk_alerted Double.builtins Double.pandas_frame
           Correlation.new month_pair (Q2Qc (7 # 10)) month_pair_result).
  - reflexivity.
  - by vm_compute.
  - exact Hret.
  - exact Hlevel.
Defined.

(** Two identical series of twenty-four complete rows correlate fully: the
    agent caches a HIGH result with one alert and its signal is
    HIGH_CORRELATION. *)
Example month_pair_is_cached :
  let self' := (@Correlation.analyze Double.builtins Double.pandas_frame
                  month_pair Correlation.new).1 in
  Correlation.last_analysis self' = Some month_pair_result
  /\ Correlation.return_signal self' = "HIGH_CORRELATION"
  /\ Correlation.average_correlation month_pair_result = num 1
  /\ Alert.type <$> Correlation.alerts month_pair_result
     = ["HIGH_PORTFOLIO_CORRELATION"]
  /\ Correlation.return_confidence self' = frac 6 10.
Proof.
  cbv zeta. split; [vm_compute; reflexivity|]. split; [by vm_compute|].
  split; [apply (bool_decide_eq_true_1 _); by vm_compute|].
  split; [by vm_compute|]. apply (bool_decide_eq_true_1 _). by vm_compute.
Qed.

(** ** More on the advisory agent *)

Lemma truthy_filter {A} (P : A -> Prop) `{!forall x, Decision (P x)} (l : list A) :
  truthy (filter P l) = bool_decide (Exists P l).
Proof.
  induction l as [|x l IH]; [done|]. rewrite filter_cons.
  destruct (decide (P x)) as [Hx | Hx].
  - cbn [truthy]. symmetry. apply bool_decide_eq_true. by apply Exists_cons_hd.
  - rewrite IH. apply bool_decide_ext. rewrite Exists_cons. tauto.
Qed.

(** The overall recommendation against the conditions of the priority
    actions. *)
Lemma overall_recommendation_cases (rl ms sl cr : string) :
  let o := Advisory._generate_overall_recommendation rl ms sl cr in
  let hr := bool_decide (rl = "HIGH") || bool_decide (rl = "CRITICAL") in
  let an := bool_decide (ms = "BEARISH") && bool_decide (sl = "NEGATIVE") in
  (hr = true /\ o ∈ ["REDUCE_RISK_IMMEDIATELY"; "DEFENSIVE_STANCE"; "MONITOR_CLOSELY"])
  \/ (hr = false
      /\ ((o = "CAUTIOUS_APPROACH" /\ an = true)
          \/ (o = "FAVORABLE_CONDITIONS" /\ an = false)
          \/ o = "MAINTAIN_CURRENT_STRATEGY")).
Proof.
  unfold Advisory._generate_overall_recommendation.
  repeat case_bool_decide; simplify_eq; cbn [andb orb];
    first [ left; split; [done|elem_of_list]
          | right; split; [done|]; tauto ].
Qed.

Section AdvisoryMore.
Context `{Builtins}.

Lemma advisory_actions_closed_form (self : Advisory.AdvisoryAgent)
    (risk : Risk.result) (forecast : Forecast.result)
    (sentiment : Sentiment.result) (correlation : Correlation.result) :
  let r := (Advisory.analyze self risk forecast sentiment correlation).2 in
  (Advisory.action <$> Advisory.priority_actions r
   = (if advisory_alert_combination risk sentiment then ["RISK_REVIEW"] else [])
     ++ (if advisory_high_risk risk then ["REDUCE_EXPOSURE"] else [])
     ++ (if advisory_aligned_negative forecast sentiment
         then ["DEFENSIVE_POSITIONING"] else [])
     ++ (if advisory_correlated correlation then ["IMPROVE_DIVERSIFICATION"] else []))
  /\ (Advisory.priority <$> Advisory.priority_actions r
      = (if advisory_alert_combination risk sentiment then ["CRITICAL"] else [])
        ++ (if advisory_high_risk risk then ["HIGH"] else [])
        ++ (if advisory_aligned_negative forecast sentiment then ["HIGH"] else [])
        ++ (if advisory_correlated correlation then ["MEDIUM"] else [])).
Proof.
  unfold Advisory.analyze, advisory_alert_combination, advisory_high_risk,
    advisory_aligned_negative, advisory_correlated.
  rewrite !truthy_filter.
  destruct (bool_decide (Forecast.market_sentiment forecast = "BEARISH")
            && bool_decide (Sentiment.overall_label sentiment = "NEGATIVE"));
    [|destruct (bool_decide (Forecast.market_sentiment forecast = "BULLISH")
                && bool_decide (Sentiment.overall_label sentiment = "POSITIVE"));
      [|destruct (negb (bool_decide (Forecast.market_sentiment forecast
                                     = Sentiment.overall_label sentiment)))]];
    (destruct (bool_decide (Correlation.risk_level correlation = "HIGH"));
     [|destruct (Correlation.diversification_score correlation >? num 70)%F]);
    cbn [snd Advisory.priority_actions];
    destruct (bool_decide (Risk.risk_level risk = "HIGH")
              || bool_decide (Risk.risk_level risk = "CRITICAL"));
    destruct (bool_decide (Exists _ (Risk.alerts risk)));
    destruct (bool_decide (Exists _ (Sentiment.alerts sentiment)));
    split; reflexivity.
Qed.

(** X23. The priority actions of the advisory result are listed by rank:
    first the CRITICAL risk review, present when some risk alert is about
    volatility and some sentiment alert is negative; then the HIGH actions,
    the reduction of exposure for a HIGH or CRITICAL risk level before the
    defensive positioning for a bearish forecast with negative sentiment;
    last the MEDIUM diversification action for a HIGH correlation risk. *)
Theorem advisory_priority_actions_by_rank (self : Advisory.AdvisoryAgent)
    (risk : Risk.result) (forecast : Forecast.result)
    (sentiment : Sentiment.result) (correlation : Correlation.result) :
  let r := (Advisory.analyze self risk forecast sentiment correlation).2 in
  (Advisory.action <$> Advisory.priority_actions r
   = (if advisory_alert_combination risk sentiment then ["RISK_REVIEW"] else [])
     ++ (if advisory_high_risk risk then ["REDUCE_EXPOSURE"] else [])
     ++ (if advisory_aligned_negative forecast sentiment
         then ["DEFENSIVE_POSITIONING"] else [])
     ++ (if advisory_correlated correlation then ["IMPROVE_DIVERSIFICATION"] else []))
  /\ (Advisory.priority <$> Advisory.priority_actions r
      = (if advisory_alert_combination risk sentiment then ["CRITICAL"] else [])
        ++ (if advisory_high_risk risk then ["HIGH"] else [])
        ++ (if advisory_aligned_negative forecast sentiment then ["HIGH"] else [])
        ++ (if advisory_correlated correlation then ["MEDIUM"] else [])).
Proof. apply advisory_actions_closed_form. Qed.

(** X24. The recommendations of the advisory result come in the order risk
    management, market outlook, diversification, at most one of each: the
    first for a HIGH or CRITICAL risk level, the second exactly when the
    forecast market sentiment and the sentiment label are different
    strings, the third for a HIGH correlation risk or a diversification
    score above 70. *)
Theorem advisory_recommendation_categories (self : Advisory.AdvisoryAgent)
    (risk : Risk.result) (forecast : Forecast.result)
    (sentiment : Sentiment.result) (correlation : Correlation.result) :
  let r := (Advisory.analyze self risk forecast sentiment correlation).2 in
  Advisory.category <$> Advisory.recommendations r
  = (if advisory_high_risk risk then ["RISK_MANAGEMENT"] else [])
    ++ (if bool_decide (Forecast.market_sentiment forecast
                        = Sentiment.overall_label sentiment)
        then [] else ["MARKET_OUTLOOK"])
    ++ (if advisory_correlated correlation
           || (Correlation.diversification_score correlation >? num 70)%F
        then ["DIVERSIFICATION"] else []).
Proof.
  unfold Advisory.analyze, advisory_high_risk, advisory_correlated.
  destruct (bool_decide (Forecast.market_sentiment forecast = "BEARISH")
            && bool_decide (Sentiment.overall_label sentiment = "NEGATIVE")) eqn:Hneg;
    [|destruct (bool_decide (Forecast.market_sentiment forecast = "BULLISH")
                && bool_decide (Sentiment.overall_label sentiment = "POSITIVE")) eqn:Hpos];
    [apply andb_true_iff in Hneg as [Hm%bool_decide_eq_true Hs%bool_decide_eq_true]
    |apply andb_true_iff in Hpos as [Hm%bool_decide_eq_true Hs%bool_decide_eq_true]
    |];
    (destruct (bool_decide (Forecast.market_sentiment forecast
                            = Sentiment.overall_label sentiment)) eqn:Hsame;
     [try (apply bool_decide_eq_true in Hsame; exfalso; congruence)|]);
    cbn [negb];
    (destruct (bool_decide (Correlation.risk_level correlation = "HIGH"));
     [|destruct (Correlation.diversification_score correlation >? num 70)%F]);
    cbn [snd Advisory.recommendations orb];
    destruct (bool_decide (Risk.risk_level risk = "HIGH")
              || bool_decide (Risk.risk_level risk = "CRITICAL"));
    reflexivity.
Qed.

(** X25. The overall recommendation and the priority actions agree: the
    reduction of exposure is among the actions exactly when the overall
    recommendation is REDUCE_RISK_IMMEDIATELY, DEFENSIVE_STANCE or
    MONITOR_CLOSELY; CAUTIOUS_APPROACH comes with the defensive
    positioning; FAVORABLE_CONDITIONS comes with neither.  The signal of
    the agent after the analysis is the overall recommendation. *)
Theorem advisory_actions_match_recommendation (self : Advisory.AdvisoryAgent)
    (risk : Risk.result) (forecast : Forecast.result)
    (sentiment : Sentiment.result) (correlation : Correlation.result) :
  let r := (Advisory.analyze self risk forecast sentiment correlation).2 in
  let actions := Advisory.action <$> Advisory.priority_actions r in
  ("REDUCE_EXPOSURE" ∈ actions
   <-> Advisory.overall_recommendation r
         ∈ ["REDUCE_RISK_IMMEDIATELY"; "DEFENSIVE_STANCE"; "MONITOR_CLOSELY"])
  /\ (Advisory.overall_recommendation r = "CAUTIOUS_APPROACH" ->
      "DEFENSIVE_POSITIONING" ∈ actions)
  /\ (Advisory.overall_recommendation r = "FAVORABLE_CONDITIONS" ->
      ("REDUCE_EXPOSURE" ∉ actions) /\ ("DEFENSIVE_POSITIONING" ∉ actions))
  /\ Advisory.return_signal
       (Advisory.analyze self risk forecast sentiment correlation).1
     = Advisory.overall_recommendation r.
Proof.
  destruct (advisory_actions_closed_form self risk forecast sentiment correlation)
    as [Hact _].
  destruct (advisory_analyze_fields self risk forecast sentiment correlation)
    as (Hrec & _ & Hlast).
  cbv zeta in *. unfold Advisory.return_signal. rewrite Hlast, Hact, Hrec.
  unfold advisory_high_risk, advisory_aligned_negative.
  pose proof (overall_recommendation_cases
                (Risk.risk_level risk) (Forecast.market_sentiment forecast)
                (Sentiment.overall_label sentiment)
                (Correlation.risk_level correlation)) as Hcases.
  cbv zeta in Hcases. revert Hcases.
  generalize (Advisory._generate_overall_recommendation
                (Risk.risk_level risk) (Forecast.market_sentiment forecast)
                (Sentiment.overall_label sentiment)
                (Correlation.risk_level correlation)).
  generalize (bool_decide (Risk.risk_level risk = "HIGH")
              || bool_decide (Risk.risk_level risk = "CRITICAL")).
  generalize (bool_decide (Forecast.market_sentiment forecast = "BEARISH")
              && bool_decide (Sentiment.overall_label sentiment = "NEGATIVE")).
  intros an hr o Hcases.
  assert (Hlists :
    forall c d : bool,
      ("REDUCE_EXPOSURE"
         ∈ (if c then ["RISK_REVIEW"] else [])
           ++ (if hr then ["REDUCE_EXPOSURE"] else [])
           ++ (if an then ["DEFENSIVE_POSITIONING"] else [])
           ++ (if d then ["IMPROVE_DIVERSIFICATION"] else [])
       <-> hr = true)
      /\ ("DEFENSIVE_POSITIONING"
            ∈ (if c then ["RISK_REVIEW"] else [])
              ++ (if hr then ["REDUCE_EXPOSURE"] else [])
              ++ (if an then ["DEFENSIVE_POSITIONING"] else [])
              ++ (if d then ["IMPROVE_DIVERSIFICATION"] else [])
          <-> an = true)).
  { intros c d. destruct c, d, hr, an; cbn [app];
      apply (bool_decide_unpack _); by vm_compute. }
  destruct (Hlists (advisory_alert_combination risk sentiment)
                   (advisory_correlated correlation)) as [Hreduce Hdefend].
  rewrite Hreduce, Hdefend. clear Hlists Hreduce Hdefend.
  split; [|split; [|split]]; [| | |done].
  - destruct Hcases as [[Hhr Ho] | [Hhr Ho]]; [done|].
    split; [by rewrite Hhr|]. intros Hin. exfalso.
    destruct Ho as [[-> _] | [[-> _] | ->]];
      by apply (bool_decide_pack _) in Hin.
  - intros ->. destruct Hcases as [[_ Ho] | [_ Ho]].
    + by apply (bool_decide_pack _) in Ho.
    + by destruct Ho as [[_ Han] | [[? _] | ?]].
  - intros ->. destruct Hcases as [[_ Ho] | [Hhr Ho]].
    + by apply (bool_decide_pack _) in Ho.
    + destruct Ho as [[? _] | [[_ Han] | ?]]; [done| |done].
      rewrite Hhr, Han. by split.
Qed.

(** X26. When the four input confidences lie in [0, 1] and one of them is
    not zero, the confidence of the advisory result lies in [0, 1]. *)
Theorem advisory_confidence_in_unit_interval (self : Advisory.AdvisoryAgent)
    (risk : Risk.result) (forecast : Forecast.result)
    (sentiment : Sentiment.result) (correlation : Correlation.result) :
  let cs := [ Risk.confidence risk; Forecast.confidence forecast;
              Sentiment.confidence sentiment; Correlation.confidence correlation ] in
  Forall valid_confidence cs ->
  Exists (fun c => c <> num 0) cs ->
  valid_confidence
    (Advisory.confidence (Advisory.analyze self risk forecast sentiment correlation).2).
Proof.
  intros cs Hvalid Hsome.
  destruct (advisory_analyze_fields self risk forecast sentiment correlation)
    as (_ & Hconf & _).
  cbv zeta in Hconf. rewrite Hconf. fold cs.
  rewrite positive_confidences_nonzero by exact Hvalid.
  apply (np_mean_within (Q2Qc 0) (Q2Qc 1)).
  - intros Hnil. apply Exists_exists in Hsome as (c & Hin & Hc).
    exact (filter_nil_not_elem_of _ _ c Hnil Hc Hin).
  - apply Forall_forall. intros c [_ Hin]%list_elem_of_filter.
    rewrite Forall_forall in Hvalid. exact (Hvalid c Hin).
Qed.

End AdvisoryMore.

Lemma advisory_confidence_in_unit_interval_witness :
  valid_confidence
    (Advisory.confidence
       (@Advisory.analyze Double.builtins Advisory.new
          (risk_with "HIGH" (frac 5 10)) (forecast_with "BEARISH" (num 0))
          (sentiment_with "NEUTRAL" (num 1)) (correlation_with "LOW" (num 0))).2).
Proof.
  apply (@advisory_confidence_in_unit_interval Double.builtins Advisory.new
           (risk_with "HIGH" (frac 5 10)) (forecast_with "BEARISH" (num 0))
           (sentiment_with "NEUTRAL" (num 1)) (correlation_with "LOW" (num 0))).
  - repeat apply Forall_cons_2; [..|apply Forall_nil_2];
      (eexists; split; [reflexivity|by vm_compute]).
  - apply Exists_cons_hd. by vm_compute.
Defined.

(** ** More on the engine *)

Lemma clamp_within (x : pyfloat) :
  within (Q2Qc 0) (Q2Qc 100) (py_min (num 100) (py_max (num 0) x)).
Proof.
  destruct x as [q|]; [|exists (Q2Qc 0); by vm_compute].
  unfold py_min, py_max, fgt, num, frac. cbn [flt].
  case_bool_decide as Hpos; cbn [flt].
  - case_bool_decide as Hlt.
    + exists q. split; [done|]. qc_to_q. split; lra.
    + exists (Q2Qc 100). by vm_compute.
  - exists (Q2Qc 0). by vm_compute.
Qed.

Lemma clamp_inactive (q : Qc) :
  (Q2Qc 0 < q)%Qc -> (q < Q2Qc 100)%Qc ->
  py_min (num 100) (py_max (num 0) (Fin q)) = Fin q.
Proof.
  intros H0 H100. unfold py_min, py_max, fgt, num, frac. cbn [flt].
  rewrite bool_decide_eq_true_2 by exact H0. cbn [flt].
  by rewrite bool_decide_eq_true_2 by exact H100.
Qed.

Lemma forecast_score_within (market_sentiment : string) :
  within (Q2Qc 30) (Q2Qc 70) (Spec.forecast_score market_sentiment).
Proof.
  unfold Spec.forecast_score. repeat case_decide;
    (eexists; split; [reflexivity|by vm_compute]).
Qed.

Lemma correlation_score_within (risk_level : string) :
  within (Q2Qc 25) (Q2Qc 75) (Spec.correlation_score risk_level).
Proof.
  unfold Spec.correlation_score. repeat case_decide;
    (eexists; split; [reflexivity|by vm_compute]).
Qed.

Lemma sentiment_score_within (label : string) (raw : pyfloat) :
  within (Q2Qc (-1)) (Q2Qc 1) raw ->
  within (Q2Qc 0) (Q2Qc 100) (Spec.sentiment_score label raw).
Proof.
  intros (s & -> & Hlo & Hhi). unfold Spec.sentiment_score.
  repeat case_decide.
  - assert (Habs : (Qcabs s <= Q2Qc 1)%Qc).
    { apply Qcabs_Qcle_condition. split; [|exact Hhi].
      replace (- Q2Qc 1)%Qc with (Q2Qc (-1)) by (by apply Qc_is_canon). exact Hlo. }
    pose proof (Qcabs_nonneg s) as Hnn. cbn [fabs].
    revert Habs Hnn. generalize (Qcabs s).
    intros b Hb1 Hb0. unfold num, frac. cbn [fadd fmul lift2].
    eexists. split; [reflexivity|]. qc_to_q. split; lra.
  - unfold num, frac. cbn [fsub fmul lift2].
    eexists. split; [reflexivity|]. qc_to_q. split; lra.
  - exists (Q2Qc 50). by vm_compute.
Qed.

Lemma weighted_sum_within (risk : Risk.result) (forecast : Forecast.result)
    (sentiment : Sentiment.result) (correlation : Correlation.result) :
  within (Q2Qc 0) (Q2Qc 100) (Risk.overall_risk_score risk) ->
  within (Q2Qc (-1)) (Q2Qc 1) (Sentiment.overall_score sentiment) ->
  within (Q2Qc 11) (Q2Qc 89) (Spec.weighted_sum risk forecast sentiment correlation).
Proof.
  intros (r & Hr & Hr0 & Hr1) Hs. unfold Spec.weighted_sum. rewrite Hr.
  destruct (forecast_score_within (Forecast.market_sentiment forecast))
    as (f & -> & Hf0 & Hf1).
  destruct (correlation_score_within (Correlation.risk_level correlation))
    as (c & -> & Hc0 & Hc1).
  destruct (sentiment_score_within (Sentiment.overall_label sentiment) _ Hs)
    as (s & -> & Hs0 & Hs1).
  unfold frac. cbn [fadd fmul lift2].
  eexists. split; [reflexivity|]. qc_to_q. split; lra.
Qed.

Lemma stamped_idempotent (item : string * Engine.agent_result) :
  Engine.stamped (Engine.stamped item) = Engine.stamped item.
Proof.
  destruct item as [name r]. unfold Engine.stamped.
  case_bool_decide as Hadv.
  - by rewrite bool_decide_eq_true_2 by exact Hadv.
  - rewrite bool_decide_eq_false_2 by exact Hadv. f_equal.
    destruct r as [[]|[]|[]|[]|[]]; cbn -[fmap]; try done;
      do 2 f_equal; rewrite <- list_fmap_compose; by apply list_fmap_ext.
Qed.

Lemma collected_from_stamped (item : string * Engine.agent_result) :
  Engine.collected_from (Engine.stamped item) = Engine.collected_from item.
Proof.
  destruct item as [name r]. unfold Engine.stamped, Engine.collected_from.
  case_bool_decide as Hadv.
  - by rewrite bool_decide_eq_true_2 by exact Hadv.
  - rewrite bool_decide_eq_false_2 by exact Hadv.
    destruct r as [[]|[]|[]|[]|[]]; cbn -[fmap]; try done;
      rewrite <- list_fmap_compose; by apply list_fmap_ext.
Qed.

Lemma stamped_fmap_idempotent (results : pydict Engine.agent_result) :
  Engine.stamped <$> (Engine.stamped <$> results) = Engine.stamped <$> results.
Proof.
  rewrite <- list_fmap_compose. apply list_fmap_ext. intros ? x ?.
  apply stamped_idempotent.
Qed.

Lemma all_alerts_of_stamped (results : pydict Engine.agent_result) :
  Engine.all_alerts_of (Engine.stamped <$> results) = Engine.all_alerts_of results.
Proof.
  unfold Engine.all_alerts_of. rewrite <- list_fmap_compose. do 2 f_equal.
  apply list_fmap_ext. intros ? x ?. apply collected_from_stamped.
Qed.

Lemma truthy_fmap {A B} (f : A -> B) (l : list A) : truthy (f <$> l) = truthy l.
Proof. by destruct l. Qed.

Section EngineMore.
Context {RiskAgent ForecastAgent SentimentAgent CorrelationAgent AdvisoryAgent : Type}.
Context `{!Analyzer RiskAgent MarketData Risk.result}.
Context `{!Analyzer ForecastAgent MarketData Forecast.result}.
Context `{!Analyzer SentimentAgent Sentiment.NewsData Sentiment.result}.
Context `{!Analyzer CorrelationAgent MarketData Correlation.result}.
Context `{!Analyzer AdvisoryAgent
            (Risk.result * Forecast.result * Sentiment.result * Correlation.result)
            Advisory.result}.
Context `{DataFetcher}.

Abbreviation the_engine :=
  (@Engine.ARIONEngine RiskAgent ForecastAgent SentimentAgent CorrelationAgent
     AdvisoryAgent _).

(** X27. When the overall risk score lies in [0, 100] and the overall
    sentiment score in [-1, 1], the unified score lies in [11, 89]: the
    clamp to [0, 100] never acts, and the score is the weighted sum
    itself. *)
Theorem unified_score_between_11_and_89
    (risk : Risk.result) (forecast : Forecast.result) (sentiment : Sentiment.result)
    (correlation : Correlation.result) (advisory : Advisory.result) :
  within (Q2Qc 0) (Q2Qc 100) (Risk.overall_risk_score risk) ->
  within (Q2Qc (-1)) (Q2Qc 1) (Sentiment.overall_score sentiment) ->
  Engine.unified_score_of (results_of risk forecast sentiment correlation advisory)
  = Return (Spec.weighted_sum risk forecast sentiment correlation)
  /\ within (Q2Qc 11) (Q2Qc 89)
       (Spec.weighted_sum risk forecast sentiment correlation).
Proof.
  intros Hrisk Hsent.
  pose proof (weighted_sum_within risk forecast sentiment correlation Hrisk Hsent)
    as Hw.
  split; [|exact Hw]. rewrite unified_score_of_formula.
  destruct Hw as (w & -> & Hlo & Hhi). f_equal.
  apply clamp_inactive; qc_to_q; lra.
Qed.

(** X28. A second call of [get_all_alerts] returns the alerts of the first
    call and leaves the engine as the first call left it: stamping the
    alerts with their source is idempotent. *)
Theorem get_all_alerts_idempotent (e : the_engine) :
  Engine.get_all_alerts (Engine.get_all_alerts e).1 = Engine.get_all_alerts e.
Proof.
  unfold Engine.get_all_alerts. unfold_M.
  destruct (truthy (Engine.agent_results e)) eqn:Hres; cbn [negb fst].
  - cbn [Engine.agent_results Engine.set_agent_results].
    rewrite truthy_fmap, Hres. cbn [negb].
    rewrite stamped_fmap_idempotent, all_alerts_of_stamped. reflexivity.
  - by rewrite Hres.
Qed.

Lemma fetch_all_data_cases (period : string) (e : the_engine) :
  exists e' b,
    Engine.fetch_all_data period e = (e', Return b)
    /\ Engine.symbols e' = Engine.symbols e
    /\ Engine.risk_agent e' = Engine.risk_agent e
    /\ Engine.forecast_agent e' = Engine.forecast_agent e
    /\ Engine.sentiment_agent e' = Engine.sentiment_agent e
    /\ Engine.correlation_agent e' = Engine.correlation_agent e
    /\ Engine.advisory_agent e' = Engine.advisory_agent e
    /\ Engine.agent_results e' = Engine.agent_results e
    /\ Engine.unified_score e' = Engine.unified_score e
    /\ (b = true <->
        exists md cp nd,
          fetch_stock_data (Engine.symbols e) period = Return md
          /\ fetch_current_prices (Engine.symbols e) = Return cp
          /\ fetch_news (Engine.symbols e) = Return nd
          /\ md <> []
          /\ Engine.market_data e' = md
          /\ Engine.current_prices e' = cp
          /\ Engine.news_data e' = nd).
Proof.
  unfold Engine.fetch_all_data. unfold_M.
  destruct (fetch_stock_data (Engine.symbols e) period) as [md|ex] eqn:Hmd.
  2:{ eexists _, false. split; [reflexivity|]. do 8 (split; [reflexivity|]).
      split; [done|]. by intros (? & ? & ? & ? & _). }
  cbn [Engine.symbols Engine.set_market_data].
  destruct (fetch_current_prices (Engine.symbols e)) as [cp|ex] eqn:Hcp.
  2:{ eexists _, false. split; [reflexivity|]. do 8 (split; [reflexivity|]).
      split; [done|]. by intros (? & ? & ? & _ & ? & _). }
  cbn [Engine.symbols Engine.set_current_prices].
  destruct (fetch_news (Engine.symbols e)) as [nd|ex] eqn:Hnd.
  2:{ eexists _, false. split; [reflexivity|]. do 8 (split; [reflexivity|]).
      split; [done|]. by intros (? & ? & ? & _ & _ & ? & _). }
  eexists _, _. split; [reflexivity|]. do 8 (split; [reflexivity|]).
  cbn [Engine.market_data Engine.current_prices Engine.news_data
       Engine.set_news_data Engine.set_current_prices Engine.set_market_data].
  rewrite bool_decide_eq_true. split.
  - intros Hlen. exists md, cp, nd. do 3 (split; [done|]).
    split; [|done]. intros ->. cbn in Hlen. lia.
  - intros (md' & _ & _ & [= <-] & _ & _ & Hne & _). destruct md; [done|cbn; lia].
Qed.

(** X29. [fetch_all_data] never raises and touches neither the agents, the
    stored results nor the score.  It returns [True] exactly when the three
    fetches return and the market data is not empty; when it returns
    [False], [run] returns the empty dictionary without calling an
    agent. *)
Theorem fetch_all_data_never_raises (period : string) (e : the_engine) :
  exists e' b,
    Engine.fetch_all_data period e = (e', Return b)
    /\ Engine.risk_agent e' = Engine.risk_agent e
    /\ Engine.forecast_agent e' = Engine.forecast_agent e
    /\ Engine.sentiment_agent e' = Engine.sentiment_agent e
    /\ Engine.correlation_agent e' = Engine.correlation_agent e
    /\ Engine.advisory_agent e' = Engine.advisory_agent e
    /\ Engine.agent_results e' = Engine.agent_results e
    /\ Engine.unified_score e' = Engine.unified_score e
    /\ (b = true <->
        exists md cp nd,
          fetch_stock_data (Engine.symbols e) period = Return md
          /\ fetch_current_prices (Engine.symbols e) = Return cp
          /\ fetch_news (Engine.symbols e) = Return nd
          /\ md <> []
          /\ Engine.market_data e' = md
          /\ Engine.current_prices e' = cp
          /\ Engine.news_data e' = nd)
    /\ (b = false -> Engine.run period e = (e', Return None)).
Proof.
  destruct (fetch_all_data_cases period e)
    as (e' & b & Hfetch & _ & Hr & Hf & Hs & Hc & Ha & Hres & Hscore & Hb).
  exists e', b. do 9 (split; [assumption|]).
  intros ->. unfold Engine.run.
  unfold mbind at 1, M_bind at 1, bind at 1. by rewrite Hfetch.
Qed.

(** X30. A summary returned by [run] is consistent: its score is a number of
    [0, 100]; its level is the level of its score; its symbols are the
    symbols of the engine; its agent results are stored under the five
    agent names, in the order risk, forecast, sentiment, correlation,
    advisory; its alerts are the merged alerts of its agent results; and
    the engine keeps these results and this score. *)
Theorem run_summary_consistent (period : string) (e0 e3 : the_engine)
    (summary : Engine.summary) :
  Engine.run period e0 = (e3, Return (Some summary)) ->
  within (Q2Qc 0) (Q2Qc 100) (Engine.sum_unified_risk_score summary)
  /\ Engine.sum_risk_level summary
     = Risk._get_risk_level (Engine.sum_unified_risk_score summary)
  /\ Engine.sum_symbols summary = Engine.symbols e0
  /\ (Engine.sum_agent_results summary).*1 = agent_names
  /\ Engine.sum_all_alerts summary
     = Engine.all_alerts_of (Engine.sum_agent_results summary)
  /\ Engine.agent_results e3 = Engine.sum_agent_results summary
  /\ Engine.unified_score e3 = Engine.sum_unified_risk_score summary.
Proof.
  intros Hrun. unfold Engine.run in Hrun.
  destruct (fetch_all_data_cases period e0)
    as (e1 & b & Hfetch & Hsym0 & _).
  unfold mbind at 1, M_bind at 1, bind at 1 in Hrun. rewrite Hfetch in Hrun.
  destruct b; cbn [negb] in Hrun; [|discriminate Hrun].
  unfold mbind at 1, M_bind at 1, bind at 1 in Hrun.
  destruct (Engine.run_all_agents e1) as [e2 [results|ex]] eqn:Hagents;
    [|discriminate Hrun].
  destruct (run_all_agents_returns e1 e2 results Hagents)
    as (risk & forecast & sentiment & correlation & advisory
        & -> & Hres & Hmd & _ & Hsym & _).
  pose proof (unified_score_of_formula risk forecast sentiment correlation advisory)
    as Hscore.
  pose proof (clamp_within (Spec.weighted_sum risk forecast sentiment correlation))
    as Hwithin.
  revert Hscore Hwithin.
  generalize (py_min (num 100)
                (py_max (num 0)
                   (Spec.weighted_sum risk forecast sentiment correlation))).
  intros score Hscore Hwithin.
  unfold Engine.calculate_unified_risk_score, Engine.get_summary,
    Engine.get_all_alerts in Hrun.
  unfold_M. rewrite Hres in Hrun. cbn [truthy results_of negb] in Hrun.
  fold (results_of risk forecast sentiment correlation advisory) in Hrun.
  rewrite Hscore in Hrun.
  cbn [Engine.agent_results Engine.set_unified_score Engine.set_agent_results
       Engine.market_data truthy results_of negb fmap list_fmap] in Hrun.
  rewrite Hres in Hrun. cbn [truthy results_of negb] in Hrun.
  rewrite Hmd in Hrun.
  destruct (calculate_portfolio_metrics (Engine.market_data e1)) as [metrics|ex];
    [|discriminate Hrun].
  cbn [Engine.agent_results Engine.set_unified_score Engine.set_agent_results
       Engine.market_data truthy results_of negb fmap list_fmap] in Hrun.
  injection Hrun as <- <-.
  cbn [Engine.sum_unified_risk_score Engine.sum_risk_level Engine.sum_symbols
       Engine.sum_agent_results Engine.sum_all_alerts Engine.agent_results
       Engine.unified_score Engine.symbols Engine.set_agent_results
       Engine.set_unified_score].
  split; [exact Hwithin|]. split; [reflexivity|].
  split; [by rewrite Hsym, Hsym0|]. split; [reflexivity|].
  split; [|split; [|reflexivity]].
  - exact (eq_sym (all_alerts_of_stamped
                     (results_of risk forecast sentiment correlation advisory))).
  - exact (stamped_fmap_idempotent
             (results_of risk forecast sentiment correlation advisory)).
Qed.

End EngineMore.

Section EngineWitnesses.
#[local] Existing Instance Double.builtins.
#[local] Existing Instance Double.numpy.
#[local] Existing Instance Double.pandas_stats.
#[local] Existing Instance Double.vader.
#[local] Existing Instance Double.sklearn.
#[local] Existing Instance Double.feature_pipeline.
#[local] Existing Instance Double.pandas_frame.
#[local] Existing Instance Agents.risk.
#[local] Existing Instance Agents.forecast.
#[local] Existing Instance Agents.sentiment.
#[local] Existing Instance Agents.correlation.
#[local] Existing Instance Agents.advisory.

Lemma run_summary_consistent_witness :
  within (Q2Qc 0) (Q2Qc 100) (Engine.sum_unified_risk_score short_history_summary)
  /\ Engine.sum_risk_level short_history_summary
     = Risk._get_risk_level (Engine.sum_unified_risk_score short_history_summary)
  /\ Engine.sum_symbols short_history_summary = ["AAPL"; "MSFT"]
  /\ (Engine.sum_agent_results short_history_summary).*1 = agent_names.
Proof.
  pose proof (run_summary_consistent "5d" short_history_engine
                short_history_run.1 short_history_summary) as Hrun.
  destruct Hrun as (H1 & H2 & H3 & H4 & _).
  - vm_compute. reflexivity.
  - by repeat split.
Defined.

Lemma unified_score_between_11_and_89_witness :
  Engine.unified_score_of
    (results_of (risk_with "HIGH" (frac 5 10)) (forecast_with "BEARISH" (num 0))
       (sentiment_with "NEUTRAL" (num 1)) (correlation_with "LOW" (num 0))
       (Advisory.mk_result "" [] [] [] NaN ""))
  = Return (Spec.weighted_sum
              (risk_with "HIGH" (frac 5 10)) (forecast_with "BEARISH" (num 0))
              (sentiment_with "NEUTRAL" (num 1)) (correlation_with "LOW" (num 0)))
  /\ within (Q2Qc 11) (Q2Qc 89)
       (Spec.weighted_sum
          (risk_with "HIGH" (frac 5 10)) (forecast_with "BEARISH" (num 0))
          (sentiment_with "NEUTRAL" (num 1)) (correlation_with "LOW" (num 0))).
Proof.
  apply unified_score_between_11_and_89.
  - exists (Q2Qc 60). by vm_compute.
  - exists (Q2Qc 0). by vm_compute.
Defined.

End EngineWitnesses.
